(** * Suna-Lite: a shallow embedding of the tool framework, the helpers,
      the settings and the REPL history, with the properties of the
      specification stated and proved (or refuted) over it.

    Conventions of the embedding.

    - A Python [str] is a [list ascii]: a sequence of code points, here
      restricted to the code points below 256.  [lower] and [isspace]
      follow CPython on that range.  Literals of the source that hold CJK
      text are written as their UTF-8 bytes; they are only ever
      concatenated and compared.
    - A Python object that the code treats dynamically (a settings field,
      a keyword argument, the [data] of a response) is a [value].
    - A call that can raise is an [outcome]; [except Exception] catches the
      exceptions whose class derives from [Exception] and no others.
    - Stateful code threads its state explicitly. *)

From Stdlib Require Import ZArith QArith Ascii String List Bool Lia.
From stdpp Require Import gmap strings list.

Set Warnings "-register-all".
Close Scope Q_scope.
Open Scope Z_scope.

(* ===================================================================== *)
(** * The Python fragment the code relies on                              *)
(* ===================================================================== *)

Module Py.

Definition str := list ascii.

Abbreviation pystr := list_ascii_of_string.

(** ** Exceptions *)

(** The classes that occur in the modelled code.  The last three derive
    from [BaseException] only (since Python 3.8 for [CancelledError]). *)
Inductive exn_class :=
  | Exception_ | OSError | ValueError | TypeError | AttributeError
  | RuntimeError | KeyboardInterrupt | SystemExit | CancelledError.

Definition derives_Exception (c : exn_class) : bool :=
  match c with
  | KeyboardInterrupt | SystemExit | CancelledError => false
  | _ => true
  end.

Record exn := Exn { exn_cls : exn_class; exn_text : str }.

Inductive outcome (A : Type) :=
  | Return (a : A)
  | Raise (e : exn).
Arguments Return {A} a.
Arguments Raise {A} e.

Definition obind {A B} (m : outcome A) (k : A -> outcome B) : outcome B :=
  match m with
  | Return a => k a
  | Raise e => Raise e
  end.

(** [try: m except (c1, c2, ...): h] for a tuple of classes given as a
    predicate. *)
Definition try_except {A} (catches : exn_class -> bool)
    (m : outcome A) (h : exn -> outcome A) : outcome A :=
  match m with
  | Return a => Return a
  | Raise e => if catches (exn_cls e) then h e else Raise e
  end.

(** ** Characters *)

Definition code (c : ascii) : N := N_of_ascii c.

Definition between (lo hi : N) (c : ascii) : bool :=
  ((lo <=? code c) && (code c <=? hi))%N.

(** [str.isspace] on one code point below 256. *)
Definition isspace (c : ascii) : bool :=
  between 9 13 c || between 28 32 c
  || (code c =? 133)%N || (code c =? 160)%N.

(** [str.lower] on one code point below 256: A-Z and the Latin-1 capitals
    (U+00C0..U+00DE without the multiplication sign U+00D7). *)
Definition lower_char (c : ascii) : ascii :=
  if between 65 90 c
     || (between 192 222 c && negb (code c =? 215)%N)
  then ascii_of_N (code c + 32)
  else c.

Definition lower (s : str) : str := map lower_char s.

Definition char_in (chars : str) (c : ascii) : bool :=
  existsb (Ascii.eqb c) chars.

(** ** Stripping *)

Fixpoint lstrip_by (p : ascii -> bool) (s : str) : str :=
  match s with
  | [] => []
  | c :: s' => if p c then lstrip_by p s' else s
  end.

Definition rstrip_by (p : ascii -> bool) (s : str) : str :=
  rev (lstrip_by p (rev s)).

Definition strip_by (p : ascii -> bool) (s : str) : str :=
  rstrip_by p (lstrip_by p s).

(** [s.strip()] *)
Definition strip (s : str) : str := strip_by isspace s.

(** [s.strip(chars)] *)
Definition strip_chars (chars : str) (s : str) : str :=
  strip_by (char_in chars) s.

(** The first and the last character of a word are not stripped. *)
Definition clean_edges (p : ascii -> bool) (sub : str) : bool :=
  match sub, rev sub with
  | a :: _, z :: _ => negb (p a) && negb (p z)
  | _, _ => false
  end.

(** ** Searching *)

(** [s.startswith(p)] *)
Fixpoint startswith (p s : str) : bool :=
  match p, s with
  | [], _ => true
  | _ :: _, [] => false
  | a :: p', b :: s' => Ascii.eqb a b && startswith p' s'
  end.

(** [sub in s] *)
Fixpoint contains (sub s : str) : bool :=
  startswith sub s ||
  match s with
  | [] => false
  | _ :: s' => contains sub s'
  end.

(** [s.count(sub)] for a non-empty [sub]: occurrences are counted from the
    left and may not overlap; [skip] is the number of characters of the
    last counted occurrence still to pass. *)
Fixpoint count_from (sub : str) (skip : nat) (s : str) : nat :=
  match s with
  | [] => O
  | _ :: s' =>
      match skip with
      | S k => count_from sub k s'
      | O => if startswith sub s
             then S (count_from sub (Nat.pred (length sub)) s')
             else count_from sub O s'
      end
  end.

(** [s.count(sub)]; the empty string occurs [len(s) + 1] times. *)
Definition count (sub s : str) : nat :=
  match sub with
  | [] => S (length s)
  | _ => count_from sub O s
  end.

(** An occurrence of [sub] in [s], anywhere. *)
Definition occurs_in (sub s : str) : Prop :=
  exists before after, s = before ++ sub ++ after.

(** The number of positions of [s] at which [sub] starts; occurrences may
    overlap here. *)
Fixpoint occurrences (sub s : str) : nat :=
  (if startswith sub s then 1 else 0)%nat +
  match s with
  | [] => O
  | _ :: s' => occurrences sub s'
  end.

(** [s.rfind(c)] for a single character: the last index, or -1. *)
Fixpoint rfind_from (c : ascii) (i : Z) (s : str) : Z :=
  match s with
  | [] => -1
  | a :: s' =>
      let r := rfind_from c (i + 1) s' in
      if r =? -1 then (if Ascii.eqb a c then i else -1) else r
  end.

Definition rfind (c : ascii) (s : str) : Z := rfind_from c 0 s.

(** ** Slices, with Python's treatment of negative and large bounds *)

Definition clamp {A} (l : list A) (i : Z) : nat :=
  let n := Z.of_nat (length l) in
  Z.to_nat (Z.max 0 (Z.min n (if i <? 0 then n + i else i))).

(** [l[:stop]] *)
Definition slice_to {A} (l : list A) (stop : Z) : list A :=
  firstn (clamp l stop) l.

(** [l[start:]] *)
Definition slice_from {A} (l : list A) (start : Z) : list A :=
  skipn (clamp l start) l.

(** [l[start:stop]] *)
Definition slice {A} (l : list A) (start stop : Z) : list A :=
  skipn (clamp l start) (firstn (clamp l stop) l).

(** ** Dynamic values *)

(** A Python float, by the real number it denotes. *)
Inductive pyfloat :=
  | Finite (q : Q)
  | Infinity (negative : bool)
  | NaN.

Inductive value :=
  | VNone
  | VBool (b : bool)
  | VInt (z : Z)
  | VFloat (f : pyfloat)
  | VStr (s : str)
  | VList (l : list value)
  | VDict (d : gmap string value).

(** [bool(v)] *)
Definition truthy (v : value) : bool :=
  match v with
  | VNone => false
  | VBool b => b
  | VInt z => negb (z =? 0)
  | VFloat (Finite q) => negb (Qeq_bool q 0)
  | VFloat _ => true
  | VStr s => negb (Nat.eqb (length s) 0)
  | VList l => negb (Nat.eqb (length l) 0)
  | VDict d => negb (Nat.eqb (size d) 0)
  end.

(** The number a numeric operand of a comparison stands for; [bool] is a
    subclass of [int]. *)
Definition as_number (v : value) : option pyfloat :=
  match v with
  | VBool b => Some (Finite (inject_Z (if b then 1 else 0)))
  | VInt z => Some (Finite (inject_Z z))
  | VFloat f => Some f
  | _ => None
  end.

Definition float_le (a b : pyfloat) : bool :=
  match a, b with
  | NaN, _ | _, NaN => false
  | Infinity true, _ => true
  | _, Infinity false => true
  | Infinity false, _ => false
  | _, Infinity true => false
  | Finite x, Finite y => Qle_bool x y
  end.

(** [v == 'literal'] for a string literal of the code. *)
Definition str_eq (v : value) (literal : str) : bool :=
  match v with
  | VStr s => bool_decide (s = literal)
  | _ => false
  end.

(** [a <= b] where one side is an integer literal of the code: numbers
    compare by value, anything else raises [TypeError]. *)
Definition py_le (a b : value) : outcome bool :=
  match as_number a, as_number b with
  | Some x, Some y => Return (float_le x y)
  | _, _ => Raise (Exn TypeError (pystr "'<=' not supported between these instances"))
  end.

(** [type(v).__name__] *)
Definition type_name (v : value) : str :=
  match v with
  | VNone => pystr "NoneType"
  | VBool _ => pystr "bool"
  | VInt _ => pystr "int"
  | VFloat _ => pystr "float"
  | VStr _ => pystr "str"
  | VList _ => pystr "list"
  | VDict _ => pystr "dict"
  end.

End Py.

(* ===================================================================== *)
(** * src/utils/helpers.py                                                *)
(* ===================================================================== *)

Module Helpers.
Import Py.

(** ** clean_filename *)

(** The character class of the first substitution: the nine characters
    less-than, greater-than, colon, double quote (code 34), slash,
    backslash, bar, question mark and star. *)
Definition forbidden_chars : str :=
  pystr "<>:" ++ [ascii_of_nat 34] ++ pystr "/\|?*".

(** The first [re.sub]: each character of the class becomes an
    underscore. *)
Definition sub_forbidden (s : str) : str :=
  map (fun c => if char_in forbidden_chars c then "_"%char else c) s.

(** The second [re.sub], of the pattern [\s]+: every maximal run of whitespace
    becomes one underscore; [in_run] tells that the previous character
    belonged to the run being replaced. *)
Fixpoint sub_whitespace_from (in_run : bool) (s : str) : str :=
  match s with
  | [] => []
  | c :: s' =>
      if isspace c
      then (if in_run then sub_whitespace_from true s'
            else "_"%char :: sub_whitespace_from true s')
      else c :: sub_whitespace_from false s'
  end.

Definition sub_whitespace (s : str) : str := sub_whitespace_from false s.

(** [os.path.splitext] (posixpath: [sep = '/'], no [altsep]). *)
Definition splitext (p : str) : str * str :=
  let sepIndex := rfind "/"%char p in
  let dotIndex := rfind "."%char p in
  if (sepIndex <? dotIndex)
     && existsb (fun c => negb (Ascii.eqb c "."%char))
                (slice p (sepIndex + 1) dotIndex)
  then (slice_to p dotIndex, slice_from p dotIndex)
  else (p, []).

Definition clean_filename (filename : str) : str :=
  let filename := sub_forbidden filename in
  let filename := sub_whitespace filename in
  let filename := strip_chars (pystr "._") filename in
  if 255 <? Z.of_nat (length filename)
  then
    let '(name, ext) := splitext filename in
    slice_to name (255 - Z.of_nat (length ext)) ++ ext
  else filename.

(** A character outside the class of the first substitution. *)
Definition allowed (c : ascii) : Prop := char_in forbidden_chars c = false.

(** ** is_safe_path *)

(** The value of [Path(p).resolve()] on a POSIX host: an absolute path,
    held as its components below the root. *)
Definition resolved := list str.

(** [str(path)] of such a path. *)
Fixpoint join_components (cs : list str) : str :=
  match cs with
  | [] => []
  | c :: cs' => "/"%char :: c ++ join_components cs'
  end.

Definition path_str (p : resolved) : str :=
  match p with
  | [] => pystr "/"
  | _ => join_components p
  end.

Section IsSafePath.

(** [Path(p).resolve()] consults the file system (working directory,
    symbolic links); it is a parameter of the model. *)
Variable resolve : str -> outcome resolved.

Definition is_safe_path (path base_path : str) : outcome bool :=
  try_except
    (fun c => match c with OSError | ValueError => true | _ => false end)
    (obind (resolve path) (fun path' =>
     obind (resolve base_path) (fun base' =>
     Return (startswith (path_str base') (path_str path')))))
    (fun _ => Return false).

End IsSafePath.

(** The components of a path, cut at the slashes. *)
Fixpoint split_slash_from (acc : str) (s : str) : list str :=
  match s with
  | [] => [rev acc]
  | c :: s' =>
      if Ascii.eqb c "/"%char
      then rev acc :: split_slash_from [] s'
      else split_slash_from (c :: acc) s'
  end.

Definition split_slash (s : str) : list str := split_slash_from [] s.

Definition normalize_step (stack : list str) (c : str) : list str :=
  if decide (c = []) then stack
  else if decide (c = pystr ".") then stack
  else if decide (c = pystr "..") then removelast stack
  else stack ++ [c].

(** What [Path(p).resolve()] computes for a path no component of which
    is a symbolic link, from the working directory [cwd]: the components
    are read from the left, [.] and empty components are dropped and [..]
    removes the component before it; a null character is a
    [ValueError]. *)
Definition resolve_lexical (cwd : resolved) (p : str) : outcome resolved :=
  if existsb (Ascii.eqb zero) p
  then Raise (Exn ValueError (pystr "embedded null byte"))
  else
    let start := if startswith (pystr "/") p then [] else cwd in
    Return (fold_left normalize_step (split_slash p) start).

(** Containment of one resolved path in another: the base is the path
    itself or one of its ancestors. *)
Definition contained_in (path base : resolved) : Prop :=
  exists rest, path = base ++ rest.

End Helpers.

(* ===================================================================== *)
(** * src/agent/tools/base_tool.py                                        *)
(* ===================================================================== *)

Module BaseTool.
Import Py.

Record ToolResponse := {
  success : bool;
  message : str;
  data : option value;
  error : option str
}.

(** [response.data[key]], when the data is a dictionary that has the key. *)
Definition data_field (key : string) (r : ToolResponse) : option value :=
  match data r with
  | Some (VDict d) => d !! key
  | _ => None
  end.

(** What an observer of a run sees: the records handed to the loggers and,
    as call counters, the entries into the methods of a tool. *)
Inductive log_level := INFO | WARNING | ERROR.

Inductive method := In_safe_execute | In_validate_params | In_execute.

Inductive event :=
  | Logged (level : log_level) (text : str)
  | Entered (tool : str) (m : method).

Section Framework.

(** The state the tools read and write (files, processes, a browser). *)
Context {W : Type}.

(** The text Python prints for a keyword dictionary inside an f-string. *)
Variable format_kwargs : gmap string value -> str.

Record machine := { world : W; trace : list event }.

Definition M (A : Type) : Type := machine -> outcome A * machine.

Definition ret {A} (a : A) : M A := fun m => (Return a, m).

Definition bind {A B} (c : M A) (k : A -> M B) : M B :=
  fun m => match c m with
           | (Return a, m') => k a m'
           | (Raise e, m') => (Raise e, m')
           end.

Definition emit (ev : event) : M unit :=
  fun m => (Return tt, {| world := world m; trace := trace m ++ [ev] |}).

Definition lift {A} (o : outcome A) : M A := fun m => (o, m).

(** [try: body except Exception as e: handler(e)] *)
Definition try_except_Exception {A} (body : M A) (handler : exn -> M A) : M A :=
  fun m => match body m with
           | (Return a, m') => (Return a, m')
           | (Raise e, m') =>
               if derives_Exception (exn_cls e) then handler e m'
               else (Raise e, m')
           end.

(** A tool: the attributes of [BaseTool] and the two methods a subclass
    supplies or overrides. *)
Record BaseTool := {
  name : str;
  description : str;
  enabled : bool;
  validate_params : gmap string value -> outcome bool;
  execute : gmap string value -> W -> outcome ToolResponse * W
}.

Definition is_available (t : BaseTool) : bool := enabled t.

Definition enable (t : BaseTool) : BaseTool :=
  {| name := name t; description := description t; enabled := true;
     validate_params := validate_params t; execute := execute t |}.

Definition disable (t : BaseTool) : BaseTool :=
  {| name := name t; description := description t; enabled := false;
     validate_params := validate_params t; execute := execute t |}.

Definition call_validate_params (t : BaseTool) (kwargs : gmap string value)
  : M bool :=
  bind (emit (Entered (name t) In_validate_params)) (fun _ =>
  lift (validate_params t kwargs)).

Definition call_execute (t : BaseTool) (kwargs : gmap string value)
  : M ToolResponse :=
  bind (emit (Entered (name t) In_execute)) (fun _ m =>
    let '(r, w) := execute t kwargs (world m) in
    (r, {| world := w; trace := trace m |})).

Definition disabled_response (t : BaseTool) : ToolResponse :=
  {| success := false;
     message := pystr "工具 " ++ name t ++ pystr " 当前不可用";
     data := None;
     error := Some (pystr "Tool disabled") |}.

Definition invalid_response (kwargs : gmap string value) : ToolResponse :=
  {| success := false;
     message := pystr "参数验证失败: " ++ format_kwargs kwargs;
     data := None;
     error := Some (pystr "Invalid parameters") |}.

Definition exception_response (e : exn) : ToolResponse :=
  {| success := false;
     message := pystr "工具执行失败";
     data := None;
     error := Some (exn_text e) |}.

Definition safe_execute (t : BaseTool) (kwargs : gmap string value)
  : M ToolResponse :=
  bind (emit (Entered (name t) In_safe_execute)) (fun _ =>
  if negb (is_available t) then ret (disabled_response t)
  else
    try_except_Exception
      (bind (call_validate_params t kwargs) (fun valid =>
       if negb valid then ret (invalid_response kwargs)
       else
         bind (emit (Logged INFO
                 (pystr "执行工具 " ++ name t ++ pystr "，参数: "
                  ++ format_kwargs kwargs))) (fun _ =>
         bind (call_execute t kwargs) (fun result =>
         bind (if success result
               then emit (Logged INFO
                      (pystr "工具 " ++ name t ++ pystr " 执行成功"))
               else emit (Logged WARNING
                      (pystr "工具 " ++ name t ++ pystr " 执行失败: "
                       ++ match error result with
                          | Some e => e
                          | None => pystr "None"
                          end))) (fun _ =>
         ret result)))))
      (fun e =>
         bind (emit (Logged ERROR
                 (pystr "工具 " ++ name t ++ pystr " 执行时发生异常: "
                  ++ exn_text e))) (fun _ =>
         ret (exception_response e)))).

(** ** ToolRegistry *)

Record ToolRegistry := { tools : gmap str BaseTool }.

Definition empty_registry : ToolRegistry := {| tools := ∅ |}.

Definition register (reg : ToolRegistry) (t : BaseTool) : M ToolRegistry :=
  bind (emit (Logged INFO (pystr "注册工具: " ++ name t))) (fun _ =>
  ret {| tools := <[name t := t]> (tools reg) |}).

Definition unregister (reg : ToolRegistry) (tool_name : str) : M ToolRegistry :=
  match tools reg !! tool_name with
  | Some _ =>
      bind (emit (Logged INFO (pystr "注销工具: " ++ tool_name))) (fun _ =>
      ret {| tools := delete tool_name (tools reg) |})
  | None => ret reg
  end.

Definition get_tool (reg : ToolRegistry) (tool_name : str) : option BaseTool :=
  tools reg !! tool_name.

Definition not_found_response (tool_name : str) : ToolResponse :=
  {| success := false;
     message := pystr "工具 " ++ tool_name ++ pystr " 不存在";
     data := None;
     error := Some (pystr "Tool not found") |}.

Definition execute_tool (reg : ToolRegistry) (tool_name : str)
    (kwargs : gmap string value) : M ToolResponse :=
  match get_tool reg tool_name with
  | None => ret (not_found_response tool_name)
  | Some tool => safe_execute tool kwargs
  end.

(** The entries into [execute] recorded in a trace. *)
Definition is_execute_entry (ev : event) : bool :=
  match ev with Entered _ In_execute => true | _ => false end.

Definition execute_entries (tr : list event) : list event :=
  List.filter is_execute_entry tr.

(** The entries into any method of a tool recorded in a trace. *)
Definition is_tool_entry (ev : event) : bool :=
  match ev with Entered _ _ => true | _ => false end.

Definition tool_entries (tr : list event) : list event :=
  List.filter is_tool_entry tr.

End Framework.

Arguments machine W : clear implicits.
Arguments BaseTool W : clear implicits.
Arguments ToolRegistry W : clear implicits.
Arguments M W A : clear implicits.

End BaseTool.

(* ===================================================================== *)
(** * src/agent/tools/shell_tool.py                                       *)
(* ===================================================================== *)

Module ShellTool.
Import Py.

(** [platform.system()], as far as the constructor looks at it. *)
Inductive platform := Windows | NotWindows.

Definition common_dangerous_commands : list str :=
  map pystr
    [ "rm -rf /"; "format"; "del /f /s /q"; "shutdown"; "reboot";
      "halt"; "poweroff"; "mkfs"; "dd if=/dev/zero"; "chmod -R 777 /";
      "chown -R root:root /"; "mv / /dev/null"; "> /dev/sda";
      "wget http://malicious"; "curl http://malicious"; "nc -l -p";
      "ncat -l -p"; "socat TCP-LISTEN"; "python -m SimpleHTTPServer" ]%string.

Definition windows_dangerous_commands : list str :=
  map pystr
    [ "rmdir /s /q \"; "del /f /s /q \*.*"; "format c:";
      "bootrec"; "bcdedit"; "diskpart"; "reg delete" ]%string.

Definition unix_dangerous_commands : list str :=
  map pystr
    [ ":(){ :|:& };:"; "fork bomb"; "sudo rm -rf /";
      "chmod 777 /etc/passwd"; "userdel -r" ]%string.

(** [self.dangerous_commands] as [__init__] leaves it. *)
Definition dangerous_commands (p : platform) : list str :=
  common_dangerous_commands ++
  match p with
  | Windows => windows_dangerous_commands
  | NotWindows => unix_dangerous_commands
  end.

Definition dangerous_chars : list str :=
  map pystr [ ";"; "|"; "&"; "`"; "$("; "&&"; "||"; ">"; ">>"; "<" ]%string.

(** [_is_command_safe]; the warning it hands to the logger before it
    returns false is not part of the result. *)
Definition _is_command_safe (p : platform) (command : str) : bool :=
  let command_lower := strip (lower command) in
  if existsb (fun dangerous => contains (lower dangerous) command_lower)
             (dangerous_commands p)
  then false
  else if existsb (fun char => contains char command
                               && (2 <? count char command)%nat)
                  dangerous_chars
  then false
  else true.

End ShellTool.

(* ===================================================================== *)
(** * src/config/settings.py                                              *)
(* ===================================================================== *)

(** The dataclasses.  Python does not enforce the annotations, so a field
    holds a [value]; the defaults are those of the class bodies. *)

Module AgentConfig.
Import Py.
Record t := {
  model : value;
  base_url : value;
  api_key : value;
  max_tokens : value;
  temperature : value;
  max_conversation_history : value
}.
Definition default : t :=
  {| model := VStr []; base_url := VStr []; api_key := VStr [];
     max_tokens := VInt 4000; temperature := VFloat (Finite (7 # 10));
     max_conversation_history := VInt 10 |}.
End AgentConfig.

Module WorkspaceConfig.
Import Py.
Record t := { path : value; max_size_mb : value; auto_cleanup : value }.
Definition default : t :=
  {| path := VStr (pystr "./workspace"); max_size_mb := VInt 100;
     auto_cleanup := VBool true |}.
End WorkspaceConfig.

Module BrowserConfig.
Import Py.
Record t := { headless : value; timeout_seconds : value; window_size : value }.
Definition default : t :=
  {| headless := VBool true; timeout_seconds := VInt 30;
     window_size :=
       VDict (<["width" := VInt 1920]> (<["height" := VInt 1080]> ∅)) |}.
End BrowserConfig.

Module SearchConfig.
Import Py.
Record t := {
  engine : value;
  max_results : value;
  timeout_seconds : value;
  api_key : value
}.
Definition default : t :=
  {| engine := VStr (pystr "tavily"); max_results := VInt 10;
     timeout_seconds := VInt 15; api_key := VStr [] |}.
End SearchConfig.

Module ToolsConfig.
Import Py.
Record t := {
  file_operations : value;
  shell_commands : value;
  web_search : value;
  browser_automation : value
}.
Definition default : t :=
  {| file_operations := VBool true; shell_commands := VBool true;
     web_search := VBool true; browser_automation := VBool true |}.
End ToolsConfig.

Module LoggingConfig.
Import Py.
Record t := {
  level : value;
  file : value;
  max_size_mb : value;
  backup_count : value
}.
Definition default : t :=
  {| level := VStr (pystr "INFO"); file := VStr (pystr "./suna-lite.log");
     max_size_mb := VInt 10; backup_count := VInt 5 |}.
End LoggingConfig.

Module SecurityConfig.
Import Py.
Record t := {
  allow_network : value;
  allowed_domains : value;
  block_shell_commands : value
}.
Definition default : t :=
  {| allow_network := VBool true; allowed_domains := VList [];
     block_shell_commands :=
       VList [VStr (pystr "rm -rf"); VStr (pystr "format"); VStr (pystr "del")] |}.
End SecurityConfig.

Module Settings.
Import Py.

Record t := {
  agent : AgentConfig.t;
  workspace : WorkspaceConfig.t;
  browser : BrowserConfig.t;
  search : SearchConfig.t;
  tools : ToolsConfig.t;
  logging : LoggingConfig.t;
  security : SecurityConfig.t
}.

(** [Settings()] *)
Definition default : t :=
  {| agent := AgentConfig.default; workspace := WorkspaceConfig.default;
     browser := BrowserConfig.default; search := SearchConfig.default;
     tools := ToolsConfig.default; logging := LoggingConfig.default;
     security := SecurityConfig.default |}.

(** ** validate *)

(** How a guarded block of [validate] ends: it returned from the method,
    or control went on to the next statement. *)
Inductive flow := Returned (b : bool) | Continue.

(** [try: if cond: return False  except Exception: return False] *)
Definition guarded (cond : outcome bool) : outcome flow :=
  try_except derives_Exception
    (obind cond (fun c => Return (if c then Returned false else Continue)))
    (fun _ => Return (Returned false)).

Definition and_then (block : outcome flow) (rest : outcome bool) : outcome bool :=
  obind block (fun f =>
    match f with
    | Returned b => Return b
    | Continue => rest
    end).

(** [not (0 <= t <= 2)]; the chained comparison evaluates its second half
    only when the first holds. *)
Definition not_in_0_2 (t : value) : outcome bool :=
  obind (py_le (VInt 0) t) (fun lo =>
    if lo then obind (py_le t (VInt 2)) (fun hi => Return (negb hi))
    else Return true).

(** [validate]; the diagnostic prints are left out. *)
Definition validate (s : t) : outcome bool :=
  if negb (truthy (AgentConfig.api_key (agent s))) then Return false
  else if negb (truthy (AgentConfig.base_url (agent s))) then Return false
  else
    and_then (guarded (py_le (AgentConfig.max_tokens (agent s)) (VInt 0)))
   (and_then (guarded (not_in_0_2 (AgentConfig.temperature (agent s))))
   (and_then (guarded (py_le (WorkspaceConfig.max_size_mb (workspace s)) (VInt 0)))
   (and_then (guarded (py_le (BrowserConfig.timeout_seconds (browser s)) (VInt 0)))
   (and_then (guarded (py_le (SearchConfig.max_results (search s)) (VInt 0)))
   (Return true))))).

(** ** save_to_file and load_from_file *)

(** The dictionary [save_to_file] builds. *)
Definition config_data (s : t) : value :=
  VDict (
    <["agent" := VDict (
        <["model" := AgentConfig.model (agent s)]> (
        <["base_url" := AgentConfig.base_url (agent s)]> (
        <["api_key" := AgentConfig.api_key (agent s)]> (
        <["max_tokens" := AgentConfig.max_tokens (agent s)]> (
        <["temperature" := AgentConfig.temperature (agent s)]> (
        <["max_conversation_history" :=
            AgentConfig.max_conversation_history (agent s)]> ∅))))))]> (
    <["workspace" := VDict (
        <["path" := WorkspaceConfig.path (workspace s)]> (
        <["max_size_mb" := WorkspaceConfig.max_size_mb (workspace s)]> (
        <["auto_cleanup" := WorkspaceConfig.auto_cleanup (workspace s)]> ∅)))]> (
    <["browser" := VDict (
        <["headless" := BrowserConfig.headless (browser s)]> (
        <["timeout_seconds" := BrowserConfig.timeout_seconds (browser s)]> (
        <["window_size" := BrowserConfig.window_size (browser s)]> ∅)))]> (
    <["search" := VDict (
        <["engine" := SearchConfig.engine (search s)]> (
        <["max_results" := SearchConfig.max_results (search s)]> (
        <["timeout_seconds" := SearchConfig.timeout_seconds (search s)]> (
        <["api_key" := SearchConfig.api_key (search s)]> ∅))))]> (
    <["tools" := VDict (
        <["file_operations" := ToolsConfig.file_operations (tools s)]> (
        <["shell_commands" := ToolsConfig.shell_commands (tools s)]> (
        <["web_search" := ToolsConfig.web_search (tools s)]> (
        <["browser_automation" := ToolsConfig.browser_automation (tools s)]> ∅))))]> (
    <["logging" := VDict (
        <["level" := LoggingConfig.level (logging s)]> (
        <["file" := LoggingConfig.file (logging s)]> (
        <["max_size_mb" := LoggingConfig.max_size_mb (logging s)]> (
        <["backup_count" := LoggingConfig.backup_count (logging s)]> ∅))))]> (
    <["security" := VDict (
        <["allow_network" := SecurityConfig.allow_network (security s)]> (
        <["allowed_domains" := SecurityConfig.allowed_domains (security s)]> (
        <["block_shell_commands" :=
            SecurityConfig.block_shell_commands (security s)]> ∅)))]> ∅))))))).

(** A dataclass called with a dictionary of keywords: a keyword that is no field of the class
    is a [TypeError]; an absent one leaves the default. *)
Definition check_keywords (fields : list string) (kw : gmap string value)
  : outcome unit :=
  if forallb (fun k => bool_decide (k ∈ fields)) (map fst (map_to_list kw))
  then Return tt
  else Raise (Exn TypeError (pystr "__init__() got an unexpected keyword argument")).

Definition field (kw : gmap string value) (k : string) (d : value) : value :=
  match kw !! k with
  | Some v => v
  | None => d
  end.

Definition make_AgentConfig (kw : gmap string value) : outcome AgentConfig.t :=
  obind (check_keywords
           ["model"; "base_url"; "api_key"; "max_tokens"; "temperature";
            "max_conversation_history"]%string kw) (fun _ =>
  let d := AgentConfig.default in
  Return {| AgentConfig.model := field kw "model" (AgentConfig.model d);
            AgentConfig.base_url := field kw "base_url" (AgentConfig.base_url d);
            AgentConfig.api_key := field kw "api_key" (AgentConfig.api_key d);
            AgentConfig.max_tokens := field kw "max_tokens" (AgentConfig.max_tokens d);
            AgentConfig.temperature :=
              field kw "temperature" (AgentConfig.temperature d);
            AgentConfig.max_conversation_history :=
              field kw "max_conversation_history"
                (AgentConfig.max_conversation_history d) |}).

Definition make_WorkspaceConfig (kw : gmap string value) : outcome WorkspaceConfig.t :=
  obind (check_keywords ["path"; "max_size_mb"; "auto_cleanup"]%string kw) (fun _ =>
  let d := WorkspaceConfig.default in
  Return {| WorkspaceConfig.path := field kw "path" (WorkspaceConfig.path d);
            WorkspaceConfig.max_size_mb :=
              field kw "max_size_mb" (WorkspaceConfig.max_size_mb d);
            WorkspaceConfig.auto_cleanup :=
              field kw "auto_cleanup" (WorkspaceConfig.auto_cleanup d) |}).

Definition make_BrowserConfig (kw : gmap string value) : outcome BrowserConfig.t :=
  obind (check_keywords ["headless"; "timeout_seconds"; "window_size"]%string kw)
    (fun _ =>
  let d := BrowserConfig.default in
  Return {| BrowserConfig.headless := field kw "headless" (BrowserConfig.headless d);
            BrowserConfig.timeout_seconds :=
              field kw "timeout_seconds" (BrowserConfig.timeout_seconds d);
            BrowserConfig.window_size :=
              field kw "window_size" (BrowserConfig.window_size d) |}).

Definition make_SearchConfig (kw : gmap string value) : outcome SearchConfig.t :=
  obind (check_keywords
           ["engine"; "max_results"; "timeout_seconds"; "api_key"]%string kw)
    (fun _ =>
  let d := SearchConfig.default in
  Return {| SearchConfig.engine := field kw "engine" (SearchConfig.engine d);
            SearchConfig.max_results :=
              field kw "max_results" (SearchConfig.max_results d);
            SearchConfig.timeout_seconds :=
              field kw "timeout_seconds" (SearchConfig.timeout_seconds d);
            SearchConfig.api_key := field kw "api_key" (SearchConfig.api_key d) |}).

Definition make_ToolsConfig (kw : gmap string value) : outcome ToolsConfig.t :=
  obind (check_keywords
           ["file_operations"; "shell_commands"; "web_search";
            "browser_automation"]%string kw) (fun _ =>
  let d := ToolsConfig.default in
  Return {| ToolsConfig.file_operations :=
              field kw "file_operations" (ToolsConfig.file_operations d);
            ToolsConfig.shell_commands :=
              field kw "shell_commands" (ToolsConfig.shell_commands d);
            ToolsConfig.web_search := field kw "web_search" (ToolsConfig.web_search d);
            ToolsConfig.browser_automation :=
              field kw "browser_automation" (ToolsConfig.browser_automation d) |}).

Definition make_LoggingConfig (kw : gmap string value) : outcome LoggingConfig.t :=
  obind (check_keywords ["level"; "file"; "max_size_mb"; "backup_count"]%string kw)
    (fun _ =>
  let d := LoggingConfig.default in
  Return {| LoggingConfig.level := field kw "level" (LoggingConfig.level d);
            LoggingConfig.file := field kw "file" (LoggingConfig.file d);
            LoggingConfig.max_size_mb :=
              field kw "max_size_mb" (LoggingConfig.max_size_mb d);
            LoggingConfig.backup_count :=
              field kw "backup_count" (LoggingConfig.backup_count d) |}).

Definition make_SecurityConfig (kw : gmap string value) : outcome SecurityConfig.t :=
  obind (check_keywords
           ["allow_network"; "allowed_domains"; "block_shell_commands"]%string kw)
    (fun _ =>
  let d := SecurityConfig.default in
  Return {| SecurityConfig.allow_network :=
              field kw "allow_network" (SecurityConfig.allow_network d);
            SecurityConfig.allowed_domains :=
              field kw "allowed_domains" (SecurityConfig.allowed_domains d);
            SecurityConfig.block_shell_commands :=
              field kw "block_shell_commands"
                (SecurityConfig.block_shell_commands d) |}).

(** [config_data.get(section, {})], then its unpacking into keywords: the
    loaded document has to be a mapping, and so has the section. *)
Definition section_kwargs (config_data : value) (section : string)
  : outcome (gmap string value) :=
  match config_data with
  | VDict d =>
      match d !! section with
      | None => Return ∅
      | Some (VDict kw) => Return kw
      | Some _ =>
          Raise (Exn TypeError (pystr "argument after ** must be a mapping"))
      end
  | _ => Raise (Exn AttributeError (pystr "object has no attribute 'get'"))
  end.

Section Files.

(** The text of a file, and PyYAML's [yaml.dump] and [yaml.safe_load]. *)
Variable text : Type.
Variable yaml_dump : value -> text.
Variable yaml_safe_load : text -> outcome value.

(** The files there are; for a path that is not among them, the text of
    the [OSError] that [Path.exists] raises, if it raises one (on Python
    3.8 to 3.11 it hands on every [OSError] whose errno is not ENOENT,
    ENOTDIR, EBADF or ELOOP, such as a name that is too long or a
    directory that may not be searched; from 3.12 on it raises
    nothing); and whether [open(path, 'w')] succeeds.  A file that is
    there can be read. *)
Record filesystem := {
  files : gmap str text;
  stat_error : str -> option str;
  writable : str -> bool
}.

(** [save_to_file]: a failure to write is printed and swallowed; the
    prints are left out here and in [load_from_file]. *)
Definition save_to_file (s : t) (config_file : str) (fs : filesystem)
  : filesystem :=
  if writable fs config_file
  then {| files := <[config_file := yaml_dump (config_data s)]> (files fs);
          stat_error := stat_error fs;
          writable := writable fs |}
  else fs.

Definition build (config_data : value) : outcome t :=
  obind (obind (section_kwargs config_data "agent") make_AgentConfig) (fun a =>
  obind (obind (section_kwargs config_data "workspace") make_WorkspaceConfig) (fun w =>
  obind (obind (section_kwargs config_data "browser") make_BrowserConfig) (fun b =>
  obind (obind (section_kwargs config_data "search") make_SearchConfig) (fun se =>
  obind (obind (section_kwargs config_data "tools") make_ToolsConfig) (fun tl =>
  obind (obind (section_kwargs config_data "logging") make_LoggingConfig) (fun lg =>
  obind (obind (section_kwargs config_data "security") make_SecurityConfig) (fun sc =>
  Return {| agent := a; workspace := w; browser := b; search := se;
            tools := tl; logging := lg; security := sc |}))))))).

(** [load_from_file].  The test [config_path.exists()] stands before the
    guarded block, so what it raises is not caught. *)
Definition load_from_file (config_file : str) (fs : filesystem) : outcome t :=
  match files fs !! config_file with
  | None =>
      match stat_error fs config_file with
      | Some msg => Raise (Exn OSError msg)
      | None => Return default
      end
  | Some content =>
      try_except derives_Exception
        (obind (yaml_safe_load content) (fun config_data =>
         if negb (truthy config_data) then Return default
         else build config_data))
        (fun _ => Return default)
  end.

End Files.

Arguments files {text} f.
Arguments stat_error {text} f path.
Arguments writable {text} f path.
Arguments save_to_file {text} yaml_dump s config_file fs.
Arguments load_from_file {text} yaml_safe_load config_file fs.

End Settings.

(* ===================================================================== *)
(** * src/agent/tools/file_tool.py                                        *)
(* ===================================================================== *)

Module FileTool.
Import Py BaseTool Helpers.

(** The calls the tool makes on the Workspace Manager, as it makes them. *)
Inductive wm_call :=
  | Read_file (path encoding : str)
  | Resolve_path (path : str)
  | Get_file_info (path : str)
  | Write_file (path content encoding : str).

Section FileTool.

(** The Workspace Manager ([src/workspace], not part of the sources at
    hand) is taken as given: the state [WS] it keeps and the four
    operations the read and write actions use.  [wm_resolve_path] gives
    the text of the resolved path. *)
Context {WS : Type}.
Variable wm_read_file : str -> str -> WS -> outcome (option str) * WS.
Variable wm_resolve_path : str -> WS -> outcome str * WS.
Variable wm_get_file_info : str -> WS -> outcome (option (gmap string value)) * WS.
Variable wm_write_file : str -> str -> str -> WS -> outcome bool * WS.

(** [mimetypes.guess_type(name)[0]], a table of the standard library. *)
Variable guess_type : str -> option str.

(** The seven other actions, and a read or write whose path, content or
    encoding is not a string. *)
Variable elsewhere : gmap string value -> WS -> outcome ToolResponse * WS.

Record state := { ws : WS; calls : list wm_call }.

Definition FM (A : Type) : Type := state -> outcome A * state.

Definition fret {A} (a : A) : FM A := fun st => (Return a, st).

Definition fbind {A B} (c : FM A) (k : A -> FM B) : FM B :=
  fun st => match c st with
            | (Return a, st') => k a st'
            | (Raise e, st') => (Raise e, st')
            end.

Definition call {A} (c : wm_call) (op : WS -> outcome A * WS) : FM A :=
  fun st => let '(r, w) := op (ws st) in
            (r, {| ws := w; calls := calls st ++ [c] |}).

Definition ftry {A} (body : FM A) (handler : exn -> FM A) : FM A :=
  fun st => match body st with
            | (Return a, st') => (Return a, st')
            | (Raise e, st') =>
                if derives_Exception (exn_cls e) then handler e st'
                else (Raise e, st')
            end.

Definition failure (msg err : str) : ToolResponse :=
  {| success := false; message := msg; data := None; error := Some err |}.

Definition ok (msg : str) (d : gmap string value) : ToolResponse :=
  {| success := true; message := msg; data := Some (VDict d); error := None |}.

Definition len (s : str) : value := VInt (Z.of_nat (length s)).

Definition truncation_note : str := pystr "

... [内容过长，已截断] ...".

(** [mime_type and mime_type.startswith('application/')] *)
Definition is_binary (mime_type : option str) : bool :=
  match mime_type with
  | Some m => negb (Nat.eqb (length m) 0) && startswith (pystr "application/") m
  | None => false
  end.

Definition _read_file (path encoding : str) : FM ToolResponse :=
  ftry
    (fbind (call (Read_file path encoding) (wm_read_file path encoding))
       (fun content =>
     match content with
     | None =>
         fret (failure (pystr "无法读取文件: " ++ path)
                       (pystr "File not found or unreadable"))
     | Some content =>
         fbind (call (Resolve_path path) (wm_resolve_path path))
           (fun full_path =>
         let mime_type := guess_type full_path in
         if is_binary mime_type then
           fbind (call (Get_file_info path) (wm_get_file_info path))
             (fun file_info =>
           fret (ok (pystr "检测到二进制文件，显示基本信息")
                  (<["type" := VStr (pystr "binary")]> (
                   <["mime_type" := match mime_type with
                                    | Some m => VStr m
                                    | None => VNone
                                    end]> (
                   <["size" := match file_info with
                               | Some info =>
                                   if Nat.eqb (size info) 0 then VInt 0
                                   else match info !! "size" with Some v => v | None => VInt 0 end
                               | None => VInt 0
                               end]> (
                   <["encoding" := VStr encoding]> (
                   <["note" := VStr (pystr "这是一个二进制文件，无法直接显示内容")]>
                   ∅)))))))
         else if 50000 <? Z.of_nat (length content) then
           let preview := slice_to content 5000 ++ truncation_note in
           fret (ok (pystr "读取文件成功（内容过长，显示前5000字符）")
                  (<["type" := VStr (pystr "text")]> (
                   <["content" := VStr preview]> (
                   <["full_length" := len content]> (
                   <["encoding" := VStr encoding]> (
                   <["note" := VStr (pystr "文件内容过长，仅显示预览")]> ∅))))))
         else
           fret (ok (pystr "读取文件成功")
                  (<["type" := VStr (pystr "text")]> (
                   <["content" := VStr content]> (
                   <["length" := len content]> (
                   <["encoding" := VStr encoding]> ∅))))))
     end))
    (fun e =>
       fret (failure (pystr "读取文件失败: " ++ exn_text e) (exn_text e))).

Definition _write_file (path content encoding : str) : FM ToolResponse :=
  ftry
    (let path := clean_filename path in
     fbind (call (Write_file path content encoding)
                 (wm_write_file path content encoding))
       (fun success =>
     if success then
       fret (ok (pystr "写入文件成功: " ++ path)
              (<["path" := VStr path]> (
               <["length" := len content]> (
               <["encoding" := VStr encoding]> ∅))))
     else
       fret (failure (pystr "写入文件失败: " ++ path)
                     (pystr "Failed to write file"))))
    (fun e =>
       fret (failure (pystr "写入文件失败: " ++ exn_text e) (exn_text e))).

Definition kwarg (kwargs : gmap string value) (k : string) (d : value) : value :=
  match kwargs !! k with
  | Some v => v
  | None => d
  end.

Definition utf8 : value := VStr (pystr "utf-8").

(** [execute], for the read and the write action. *)
Definition execute (kwargs : gmap string value) : FM ToolResponse :=
  let action := kwarg kwargs "action" VNone in
  let path := kwarg kwargs "path" (VStr []) in
  if negb (truthy action) then
    fret (failure (pystr "缺少操作类型参数") (pystr "Missing action parameter"))
  else if negb (truthy path)
          && negb (str_eq action (pystr "list")) then
    fret (failure (pystr "缺少路径参数") (pystr "Missing path parameter"))
  else
    ftry
      (if str_eq action (pystr "read") then
         match path, kwarg kwargs "encoding" utf8 with
         | VStr p, VStr enc => _read_file p enc
         | _, _ => fun st => let '(r, w) := elsewhere kwargs (ws st) in
                             (r, {| ws := w; calls := calls st |})
         end
       else if str_eq action (pystr "write") then
         let content := match kwarg kwargs "content" (VStr []) with
                        | VNone => VStr []
                        | c => c
                        end in
         match path, content, kwarg kwargs "encoding" utf8 with
         | VStr p, VStr c, VStr enc => _write_file p c enc
         | _, _, _ => fun st => let '(r, w) := elsewhere kwargs (ws st) in
                                (r, {| ws := w; calls := calls st |})
         end
       else fun st => let '(r, w) := elsewhere kwargs (ws st) in
                      (r, {| ws := w; calls := calls st |}))
      (fun e =>
         fret (failure (pystr "文件操作失败: " ++ exn_text e) (exn_text e))).

End FileTool.

Arguments state WS : clear implicits.
Arguments FM WS A : clear implicits.

Definition endswith (suffix s : str) : bool :=
  startswith (rev suffix) (rev s).

(** A stand-in for [mimetypes.guess_type]: three entries of the table
    CPython ships, looked up as the library does by the extension that
    [posixpath.splitext] finds, and by its lower-cased form when the
    extension itself is not in the table.  The library's maps of
    suffixes and encodings ([.tgz], [.gz]) and its treatment of a URL
    scheme are left out. *)
Definition guess_type_sample (name : str) : option str :=
  let ext := lower (snd (splitext name)) in
  if bool_decide (ext = pystr ".json") then Some (pystr "application/json")
  else if bool_decide (ext = pystr ".pdf") then Some (pystr "application/pdf")
  else if bool_decide (ext = pystr ".txt") then Some (pystr "text/plain")
  else None.

End FileTool.

(* ===================================================================== *)
(** * src/agent/tools/browser_tool.py                                     *)
(* ===================================================================== *)

Module BrowserTool.
Import Py BaseTool.

(** A call of one of the action methods, with its arguments. *)
Inductive request :=
  | Navigate (url : value)
  | Click_element (selector timeout : value)
  | Fill_form (selector val timeout : value)
  | Submit_form (selector timeout : value)
  | Extract_content (selector : value)
  | Take_screenshot
  | Go_back
  | Go_forward
  | Refresh_page
  | Get_page_title
  | Get_current_url
  | Find_element (selector : value).

Definition supported_actions : list str :=
  map pystr
    [ "navigate"; "click"; "fill"; "submit"; "extract"; "screenshot";
      "back"; "forward"; "refresh"; "get_title"; "get_url"; "find_element" ]%string.

Section BrowserTool.

(** A live Selenium driver. *)
Variable Driver : Type.

(** The fields of the tool that the actions read and write. *)
Record browser := {
  driver : option Driver;
  current_url : value;
  page_title : value;
  session_history : list value
}.

(** [BrowserTool()] *)
Definition new : browser :=
  {| driver := None; current_url := VNone; page_title := VNone;
     session_history := [] |}.

(** What an attempt to start a driver leaves in [self.driver]: a driver,
    or nothing when Selenium is missing or Chrome does not start.  The
    host is taken not to change between attempts. *)
Variable launch : option Driver.

(** The part of an action method below its [if self.driver is None]
    block, which drives the real browser. *)
Variable real : Driver -> request -> browser -> outcome ToolResponse * browser.

(** How an f-string renders a value that is neither a string nor
    [None]. *)
Variable render_other : value -> str.

Definition render (v : value) : str :=
  match v with
  | VStr s => s
  | VNone => pystr "None"
  | _ => render_other v
  end.

Definition failure (msg err : str) : ToolResponse :=
  {| success := false; message := msg; data := None; error := Some err |}.

Definition ok (msg : str) (d : gmap string value) : ToolResponse :=
  {| success := true; message := msg; data := Some (VDict d); error := None |}.

Definition simulation : value := VStr (pystr "simulation").

(** [_initialize_browser]; it reports success in every case. *)
Definition _initialize_browser (b : browser) : browser :=
  {| driver := launch; current_url := current_url b;
     page_title := page_title b; session_history := session_history b |}.

(** [a or b] *)
Definition py_or (a b : value) : value := if truthy a then a else b.

Definition _navigate (url : value) (b : browser)
  : outcome ToolResponse * browser :=
  match driver b with
  | None =>
      let title := VStr (pystr "模拟页面 - " ++ render url) in
      (Return (ok (pystr "模拟导航到: " ++ render url)
                 (<["url" := url]> (
                  <["title" := title]> (
                  <["mode" := simulation]> ∅)))),
       {| driver := None; current_url := url; page_title := title;
          session_history := session_history b ++ [url] |})
  | Some d => real d (Navigate url) b
  end.

Definition _click_element (selector timeout : value) (b : browser)
  : outcome ToolResponse * browser :=
  match driver b with
  | None =>
      (Return (ok (pystr "模拟点击元素: " ++ render selector)
                 (<["selector" := selector]> (
                  <["action" := VStr (pystr "click")]> (
                  <["mode" := simulation]> ∅)))), b)
  | Some d => real d (Click_element selector timeout) b
  end.

Definition _fill_form (selector val timeout : value) (b : browser)
  : outcome ToolResponse * browser :=
  match driver b with
  | None =>
      (Return (ok (pystr "模拟填写表单: " ++ render selector ++ pystr " = "
                   ++ render val)
                 (<["selector" := selector]> (
                  <["value" := val]> (
                  <["action" := VStr (pystr "fill")]> (
                  <["mode" := simulation]> ∅))))), b)
  | Some d => real d (Fill_form selector val timeout) b
  end.

Definition _extract_content (selector : value) (b : browser)
  : outcome ToolResponse * browser :=
  match driver b with
  | None =>
      let content :=
        if truthy selector
        then pystr "模拟提取的内容 - 选择器: " ++ render selector
        else pystr "模拟页面内容 - URL: " ++ render (current_url b) in
      (Return (ok (pystr "成功提取内容（模拟模式）")
                 (<["content" := VStr content]> (
                  <["selector" := selector]> (
                  <["mode" := simulation]> ∅)))), b)
  | Some d => real d (Extract_content selector) b
  end.

Definition _take_screenshot (b : browser) : outcome ToolResponse * browser :=
  match driver b with
  | None =>
      (Return (ok (pystr "模拟截图功能")
                 (<["action" := VStr (pystr "screenshot")]> (
                  <["mode" := simulation]> (
                  <["note" := VStr (pystr "在真实浏览器模式下会保存截图文件")]> ∅)))),
       b)
  | Some d => real d Take_screenshot b
  end.

Definition _get_page_title (b : browser) : outcome ToolResponse * browser :=
  match driver b with
  | None =>
      let title := py_or (page_title b) (VStr (pystr "模拟页面标题")) in
      (Return (ok (pystr "页面标题: " ++ render title)
                 (<["title" := title]> ∅)), b)
  | Some d => real d Get_page_title b
  end.

Definition _get_current_url (b : browser) : outcome ToolResponse * browser :=
  match driver b with
  | None =>
      let url := py_or (current_url b) (VStr (pystr "https://example.com")) in
      (Return (ok (pystr "当前URL: " ++ render url)
                 (<["url" := url]> ∅)), b)
  | Some d => real d Get_current_url b
  end.

Definition _go_back (b : browser) : outcome ToolResponse * browser :=
  match driver b with
  | None =>
      (Return (ok (pystr "模拟返回上一页")
                 (<["action" := VStr (pystr "back")]> (
                  <["mode" := simulation]> ∅))), b)
  | Some d => real d Go_back b
  end.

Definition _go_forward (b : browser) : outcome ToolResponse * browser :=
  match driver b with
  | None =>
      (Return (ok (pystr "模拟前进到下一页")
                 (<["action" := VStr (pystr "forward")]> (
                  <["mode" := simulation]> ∅))), b)
  | Some d => real d Go_forward b
  end.

Definition _refresh_page (b : browser) : outcome ToolResponse * browser :=
  match driver b with
  | None =>
      (Return (ok (pystr "模拟刷新页面")
                 (<["action" := VStr (pystr "refresh")]> (
                  <["mode" := simulation]> ∅))), b)
  | Some d => real d Refresh_page b
  end.

Definition _submit_form (selector timeout : value) (b : browser)
  : outcome ToolResponse * browser :=
  match driver b with
  | None =>
      (Return (ok (pystr "模拟提交表单: " ++ render selector)
                 (<["selector" := selector]> (
                  <["action" := VStr (pystr "submit")]> (
                  <["mode" := simulation]> ∅)))), b)
  | Some d => real d (Submit_form selector timeout) b
  end.

Definition _find_element (selector : value) (b : browser)
  : outcome ToolResponse * browser :=
  match driver b with
  | None =>
      (Return (ok (pystr "模拟查找元素: " ++ render selector)
                 (<["selector" := selector]> (
                  <["found" := VBool true]> (
                  <["mode" := simulation]> ∅)))), b)
  | Some d => real d (Find_element selector) b
  end.

Definition kwarg (kwargs : gmap string value) (k : string) (d : value) : value :=
  match kwargs !! k with
  | Some v => v
  | None => d
  end.

Definition missing_selector : ToolResponse :=
  failure (pystr "缺少选择器参数") (pystr "Missing selector parameter").

Definition execute (kwargs : gmap string value) (b : browser)
  : outcome ToolResponse * browser :=
  let action := kwarg kwargs "action" VNone in
  if negb (truthy action) then
    (Return (failure (pystr "缺少操作类型参数") (pystr "Missing action parameter")), b)
  else if negb (existsb (str_eq action) supported_actions) then
    (Return (failure (pystr "不支持的操作类型: " ++ render action)
                     (pystr "Unsupported action")), b)
  else
    let b := match driver b with
             | None => _initialize_browser b
             | Some _ => b
             end in
    let selector := kwarg kwargs "selector" VNone in
    let timeout := kwarg kwargs "timeout" (VInt 10) in
    let '(r, b') :=
      if str_eq action (pystr "navigate") then
        let url := kwarg kwargs "url" VNone in
        if negb (truthy url)
        then (Return (failure (pystr "缺少URL参数") (pystr "Missing URL parameter")), b)
        else _navigate url b
      else if str_eq action (pystr "click") then
        if negb (truthy selector) then (Return missing_selector, b)
        else _click_element selector timeout b
      else if str_eq action (pystr "fill") then
        if negb (truthy selector) then (Return missing_selector, b)
        else _fill_form selector (kwarg kwargs "value" (VStr [])) timeout b
      else if str_eq action (pystr "submit") then
        _submit_form selector timeout b
      else if str_eq action (pystr "extract") then _extract_content selector b
      else if str_eq action (pystr "screenshot") then _take_screenshot b
      else if str_eq action (pystr "back") then _go_back b
      else if str_eq action (pystr "forward") then _go_forward b
      else if str_eq action (pystr "refresh") then _refresh_page b
      else if str_eq action (pystr "get_title") then _get_page_title b
      else if str_eq action (pystr "get_url") then _get_current_url b
      else if str_eq action (pystr "find_element") then
        if negb (truthy selector) then (Return missing_selector, b)
        else _find_element selector b
      else (Return (failure (pystr "未实现的操作: " ++ render action)
                            (pystr "Action not implemented")), b) in
    match r with
    | Return resp => (Return resp, b')
    | Raise e =>
        if derives_Exception (exn_cls e)
        then (Return (failure (pystr "浏览器操作失败: " ++ exn_text e) (exn_text e)), b')
        else (Raise e, b')
    end.

(** The [mode] entry of the data of a response, if it has one. *)
Definition mode_of (r : ToolResponse) : option value :=
  match data r with
  | Some (VDict d) => d !! "mode"
  | _ => None
  end.

Definition title_of (r : ToolResponse) : option value :=
  match data r with
  | Some (VDict d) => d !! "title"
  | _ => None
  end.

End BrowserTool.

Arguments new {Driver}.
Arguments driver {Driver} b.
Arguments mode_of r : simpl never.

(** A call that ended in a successful response marked as simulated. *)
Definition simulated (r : outcome ToolResponse) : Prop :=
  exists resp, r = Return resp /\ success resp = true
               /\ mode_of resp = Some simulation.

(** A call that ended in a successful response without a [mode] entry. *)
Definition unmarked (r : outcome ToolResponse) : Prop :=
  exists resp, r = Return resp /\ success resp = true /\ mode_of resp = None.

End BrowserTool.

(* ===================================================================== *)
(** * src/main.py                                                         *)
(* ===================================================================== *)

Module Main.
Import Py.

(** An entry of the conversation history. *)
Record entry := { role : str; content : str; timestamp : str }.

(** What one pass through the loop of [interactive_mode] meets. *)
Inductive turn :=
  | Slash_command (command : str)
      (** a line that starts with a slash, without the slash *)
  | Blank
      (** an empty line *)
  | Answered (user_input : str) (success : bool) (response : str)
             (asked_at answered_at : str)
      (** [process_message] returned; the two readings of the clock *)
  | Failed (user_input : str)
      (** [process_message], or the display of its answer, raised *).

(** The end of a turn of [interactive_mode] that got an answer: the
    history is extended by the line of the user and, on success, by the
    answer, and then cut.  The bound is the integer the annotation of
    [max_conversation_history] promises. *)
Definition update_history (max_conversation_history : Z)
    (user_input : str) (success : bool) (response : str)
    (asked_at answered_at : str) (conversation_history : list entry)
  : list entry :=
  let h := conversation_history
           ++ [{| role := pystr "user"; content := user_input;
                  timestamp := asked_at |}] in
  let h := if success
           then h ++ [{| role := pystr "assistant"; content := response;
                         timestamp := answered_at |}]
           else h in
  if max_conversation_history * 2 <? Z.of_nat (length h)
  then slice_from h (- max_conversation_history * 2)
  else h.

(** [handle_special_command] as far as the history goes: [clear] empties
    it, every other command leaves it alone. *)
Definition handle_special_command (command : str) (h : list entry) : list entry :=
  if bool_decide (strip (lower command) = pystr "clear") then [] else h.

Definition step (max_conversation_history : Z) (h : list entry) (t : turn)
  : list entry :=
  match t with
  | Slash_command c => handle_special_command c h
  | Blank => h
  | Answered u ok r t1 t2 => update_history max_conversation_history u ok r t1 t2 h
  | Failed _ => h
  end.

(** The history after a sequence of turns, from the empty one. *)
Definition run (max_conversation_history : Z) (ts : list turn) : list entry :=
  fold_left (step max_conversation_history) ts [].

(** The entries a turn appends. *)
Definition appended (t : turn) : list entry :=
  match t with
  | Answered u ok r t1 t2 =>
      {| role := pystr "user"; content := u; timestamp := t1 |}
      :: (if ok then [{| role := pystr "assistant"; content := r;
                         timestamp := t2 |}] else [])
  | _ => []
  end.

(** A successful exchange, numbered. *)
Definition exchange (i : nat) : turn :=
  Answered (pystr "question " ++ [ascii_of_nat i]) true
           (pystr "answer " ++ [ascii_of_nat i]) [] [].

End Main.

(* ===================================================================== *)
(** * Concrete tools, registries and files                                *)
(* ===================================================================== *)

(** The inputs at which the properties below are exercised. *)
Module Samples.
Import Py BaseTool.

Definition format_kwargs (kwargs : gmap string value) : str := pystr "{...}".

Definition start : machine unit := {| world := tt; trace := [] |}.

Definition done_response : ToolResponse :=
  {| success := true; message := pystr "done"; data := None; error := None |}.

(** A tool whose [execute] succeeds. *)
Definition echo_tool : BaseTool unit :=
  {| name := pystr "echo_tool"; description := pystr "returns at once";
     enabled := true;
     validate_params := fun _ => Return true;
     execute := fun _ w => (Return done_response, w) |}.

(** A tool that turns every parameter set down. *)
Definition strict_tool : BaseTool unit :=
  {| name := pystr "strict_tool"; description := pystr "accepts nothing";
     enabled := true;
     validate_params := fun _ => Return false;
     execute := fun _ w => (Return done_response, w) |}.

(** A tool whose [execute] raises [ValueError('boom')]. *)
Definition failing_tool : BaseTool unit :=
  {| name := pystr "failing_tool"; description := pystr "always fails";
     enabled := true;
     validate_params := fun _ => Return true;
     execute := fun _ w => (Raise (Exn ValueError (pystr "boom")), w) |}.

(** A tool whose [execute] is interrupted from the keyboard. *)
Definition interrupted_tool : BaseTool unit :=
  {| name := pystr "interrupted_tool"; description := pystr "is interrupted";
     enabled := true;
     validate_params := fun _ => Return true;
     execute := fun _ w => (Raise (Exn KeyboardInterrupt []), w) |}.

Definition registry : ToolRegistry unit :=
  {| tools := <[pystr "echo_tool" := echo_tool]> ∅ |}.

End Samples.

(* ===================================================================== *)
(** * The conditions of the specification on a Settings value             *)
(* ===================================================================== *)

Module SettingsSpec.
Import Py.





(** The two tests of [validate] on a number, as Booleans: the block
    returns false from the method. *)
Definition fails_le_0 (v : value) : bool :=
  match as_number v with
  | Some x => float_le x (Finite 0)
  | None => true
  end.

Definition fails_0_2 (v : value) : bool :=
  match as_number v with
  | Some x => negb (float_le (Finite 0) x && float_le x (Finite 2))
  | None => true
  end.

(** A pass-through serializer: the text of a file is the document. *)
Definition dump_id (v : value) : value := v.
Definition load_id (v : value) : outcome value := Return v.

Definition empty_disk : Settings.filesystem value :=
  {| Settings.files := ∅; Settings.stat_error := fun _ => None;
     Settings.writable := fun _ => true |}.

(** PyYAML is a library and not among the sources.  This stand-in keeps
    a document as the value it denotes, and of what the library does to
    a string it keeps one thing.  With [allow_unicode=True], as
    [save_to_file] asks for it, the emitter writes a string of printable
    ASCII characters without spaces in which a next-line character
    (U+0085) stands between two of them in single quotes, the character
    itself as the line break; and the scanner folds a lone line break
    inside a quoted scalar into one space.  Every other string is left
    as it is. *)
Definition next_line : ascii := ascii_of_nat 133.

Definition plain (c : ascii) : bool :=
  (32 <? nat_of_ascii c)%nat && (nat_of_ascii c <? 127)%nat.

Fixpoint fold_breaks_from (after_plain : bool) (s : str) : str :=
  match s with
  | [] => []
  | c :: s' =>
      if Ascii.eqb c next_line && after_plain
         && match s' with c' :: _ => plain c' | [] => false end
      then " "%char :: fold_breaks_from false s'
      else c :: fold_breaks_from (plain c) s'
  end.

Definition fold_breaks (s : str) : str :=
  if forallb (fun c => plain c || Ascii.eqb c next_line) s
  then fold_breaks_from false s
  else s.

Definition read_scalar (v : value) : value :=
  match v with
  | VStr s => VStr (fold_breaks s)
  | _ => v
  end.

Definition read_section (v : value) : value :=
  match v with
  | VDict kw => VDict (read_scalar <$> kw)
  | _ => read_scalar v
  end.

Definition load_folding (document : value) : outcome value :=
  Return match document with
         | VDict d => VDict (read_section <$> d)
         | _ => read_scalar document
         end.

(** The default settings with an API key. *)
Definition with_api_key (key : str) : Settings.t :=
  {| Settings.agent :=
       {| AgentConfig.model := AgentConfig.model AgentConfig.default;
          AgentConfig.base_url := AgentConfig.base_url AgentConfig.default;
          AgentConfig.api_key := VStr key;
          AgentConfig.max_tokens := AgentConfig.max_tokens AgentConfig.default;
          AgentConfig.temperature := AgentConfig.temperature AgentConfig.default;
          AgentConfig.max_conversation_history :=
            AgentConfig.max_conversation_history AgentConfig.default |};
     Settings.workspace := WorkspaceConfig.default;
     Settings.browser := BrowserConfig.default;
     Settings.search := SearchConfig.default;
     Settings.tools := ToolsConfig.default;
     Settings.logging := LoggingConfig.default;
     Settings.security := SecurityConfig.default |}.

(** An API key that holds a next-line character: the three characters
    [a], U+0085 and [b]. *)
Definition key_with_next_line : str := ["a"%char; next_line; "b"%char].

End SettingsSpec.

(** Modelled from the spec: the Workspace Manager, which is not among the
    sources, as a store of texts by path: [read_file] gives the text or
    nothing, [write_file] stores the text and reports success,
    [resolve_path] puts the path under the root of the workspace and
    [get_file_info] reports the size. *)
Module Workspace.
Import Py BaseTool FileTool.

Definition root : str := pystr "/srv/workspace/".

Definition read_file (path encoding : str) (w : gmap str str)
  : outcome (option str) * gmap str str :=
  (Return (w !! path), w).

Definition write_file (path content encoding : str) (w : gmap str str)
  : outcome bool * gmap str str :=
  (Return true, <[path := content]> w).

Definition resolve_path (path : str) (w : gmap str str)
  : outcome str * gmap str str :=
  (Return (root ++ path), w).

Definition get_file_info (path : str) (w : gmap str str)
  : outcome (option (gmap string value)) * gmap str str :=
  (Return (match w !! path with
           | Some content => Some {["size" := VInt (Z.of_nat (length content))]}
           | None => None
           end), w).

Definition elsewhere (kwargs : gmap string value) (w : gmap str str)
  : outcome ToolResponse * gmap str str :=
  (Return {| success := false; message := []; data := None;
             error := Some (pystr "Unsupported action") |}, w).

(** A workspace that holds a small JSON document. *)
Definition with_json : state (gmap str str) :=
  {| ws := {[ pystr "data.json" := pystr "{}" ]}; calls := [] |}.

(** A workspace that holds a short note. *)
Definition with_notes : state (gmap str str) :=
  {| ws := {[ pystr "notes.txt" := pystr "hello" ]}; calls := [] |}.

(** A workspace that holds a text of 60,000 characters. *)
Definition big_text : str := repeat "a"%char (Z.to_nat 60000).

Definition with_big_text : state (gmap str str) :=
  {| ws := {[ pystr "big.txt" := big_text ]}; calls := [] |}.

Definition empty : state (gmap str str) := {| ws := ∅; calls := [] |}.

End Workspace.

(** A host without a browser. *)
Module NoBrowser.
Import Py BaseTool BrowserTool.

Definition launch : option Empty_set := None.

Definition real (d : Empty_set) (r : request) (b : browser Empty_set)
  : outcome ToolResponse * browser Empty_set :=
  match d with end.

Definition render_other (v : value) : str := pystr "?".

Definition run (kwargs : gmap string value) (b : browser Empty_set)
  : outcome ToolResponse * browser Empty_set :=
  execute Empty_set launch real render_other kwargs b.

Definition navigate_example : gmap string value :=
  <["action" := VStr (pystr "navigate")]> (
  <["url" := VStr (pystr "https://example.com")]> ∅).

Definition get_title : gmap string value :=
  <["action" := VStr (pystr "get_title")]> ∅.

Definition get_url : gmap string value :=
  <["action" := VStr (pystr "get_url")]> ∅.

End NoBrowser.

(** Settings whose seven validated fields hold values of the annotated
    types; the other fields are the defaults. *)
Module TypedSettings.
Import Py.

Definition make (api_key base_url : str) (max_tokens : Z) (temperature : Q)
    (max_size_mb timeout_seconds max_results : Z) : Settings.t :=
  {| Settings.agent :=
       {| AgentConfig.model := VStr [];
          AgentConfig.base_url := VStr base_url;
          AgentConfig.api_key := VStr api_key;
          AgentConfig.max_tokens := VInt max_tokens;
          AgentConfig.temperature := VFloat (Finite temperature);
          AgentConfig.max_conversation_history := VInt 10 |};
     Settings.workspace :=
       {| WorkspaceConfig.path := VStr (pystr "./workspace");
          WorkspaceConfig.max_size_mb := VInt max_size_mb;
          WorkspaceConfig.auto_cleanup := VBool true |};
     Settings.browser :=
       {| BrowserConfig.headless := VBool true;
          BrowserConfig.timeout_seconds := VInt timeout_seconds;
          BrowserConfig.window_size :=
            BrowserConfig.window_size BrowserConfig.default |};
     Settings.search :=
       {| SearchConfig.engine := VStr (pystr "tavily");
          SearchConfig.max_results := VInt max_results;
          SearchConfig.timeout_seconds := VInt 15;
          SearchConfig.api_key := VStr [] |};
     Settings.tools := ToolsConfig.default;
     Settings.logging := LoggingConfig.default;
     Settings.security := SecurityConfig.default |}.

End TypedSettings.

(* ===================================================================== *)
(** * src/utils/helpers.py, the other pure helpers                        *)
(* ===================================================================== *)

Module HelpersMore.
Import Py Helpers.

(** [truncate_text] *)
Definition truncate_text (text : str) (max_length : Z) : str :=
  if Z.of_nat (length text) <=? max_length then text
  else slice_to text (max_length - 3) ++ pystr "...".

(** [sanitize_command]: the loop returns false at the first blocked entry
    found in the command. *)
Definition sanitize_command (command : str) (blocked_commands : list str) : bool :=
  let command_lower := strip (lower command) in
  if existsb (fun blocked => contains (lower blocked) command_lower)
             blocked_commands
  then false
  else true.

(** The name [clean_filename] has before it looks at the length. *)
Definition sanitized (filename : str) : str :=
  strip_chars (pystr "._") (sub_whitespace (sub_forbidden filename)).

(** A character that is no whitespace. *)
Definition not_space (c : ascii) : Prop := isspace c = false.

(** A name of 302 characters: a letter, a dot and three hundred letters. *)
Definition long_extension : str :=
  pystr "a." ++ repeat "b"%char 300.

End HelpersMore.

(* ===================================================================== *)
(** * src/agent/tools/base_tool.py, the rest of the registry              *)
(* ===================================================================== *)

Module RegistryMore.
Import Py BaseTool.

Section Registry.

Context {W : Type}.

(** [get_schema] of a tool, which every subclass supplies. *)
Variable get_schema : BaseTool W -> value.

(** [BaseTool.enable] and [BaseTool.disable] as the registry calls them:
    the flag is set on the tool the registry holds under the name, and
    the tool logs the change. *)
Definition enable_tool (reg : ToolRegistry W) (tool_name : str)
  : M W (ToolRegistry W) :=
  match get_tool reg tool_name with
  | Some tool =>
      bind (emit (Logged INFO (pystr "工具 " ++ name tool ++ pystr " 已启用")))
        (fun _ => ret {| tools := <[tool_name := enable tool]> (tools reg) |})
  | None => ret reg
  end.

Definition disable_tool (reg : ToolRegistry W) (tool_name : str)
  : M W (ToolRegistry W) :=
  match get_tool reg tool_name with
  | Some tool =>
      bind (emit (Logged INFO (pystr "工具 " ++ name tool ++ pystr " 已禁用")))
        (fun _ => ret {| tools := <[tool_name := disable tool]> (tools reg) |})
  | None => ret reg
  end.

(** [clear] *)
Definition clear (reg : ToolRegistry W) : M W (ToolRegistry W) :=
  bind (emit (Logged INFO (pystr "清空工具注册表")))
    (fun _ => ret {| tools := ∅ |}).

(** [get_available_tools].  In Python the list is in the order of
    registration; the map does not keep that order, so only what the
    list holds is modelled, not the order in which it holds it. *)
Definition get_available_tools (reg : ToolRegistry W) : list (BaseTool W) :=
  List.filter is_available (map snd (map_to_list (tools reg))).

(** [get_tool_schemas] *)
Definition get_tool_schemas (reg : ToolRegistry W) : list value :=
  map get_schema (get_available_tools reg).

End Registry.

(** A tool whose [validate_params] raises [TypeError]. *)
Definition fussy_tool : BaseTool unit :=
  {| name := pystr "fussy_tool"; description := pystr "cannot read its parameters";
     enabled := true;
     validate_params := fun _ => Raise (Exn TypeError (pystr "bad parameters"));
     execute := fun _ w => (Return Samples.done_response, w) |}.

End RegistryMore.

(* ===================================================================== *)
(** * src/agent/tools/shell_tool.py, execute and _execute_command         *)
(* ===================================================================== *)

Module ShellExec.
Import Py BaseTool ShellTool.

(** How the wait for a child process ends: it exited, with what it wrote
    when that was captured, or the time ran out and it was killed. *)
Inductive completion :=
  | Exited (returncode : Z) (stdout stderr : option str)
  | Timed_out.

(** What the tool asks of the Workspace Manager and of the operating
    system, as it asks it. *)
Inductive sys_call :=
  | Resolve_path (path : value)
  | Get_session_path
  | Get_temp_path
  | Get_output_path
  | Spawn (argv : list str) (cwd : str) (env : gmap string value)
          (capture : bool) (timeout : value).

Section ShellExec.

(** The Workspace Manager ([src/workspace], not part of the sources at
    hand) and the operating system are taken as given: the state [OS]
    they keep, the paths the manager hands out as texts, whether a path
    exists, and the run of a child process up to its completion. *)
Context {OS : Type}.
Variable wm_resolve_path : value -> OS -> outcome str * OS.
Variable wm_get_session_path : OS -> outcome str * OS.
Variable wm_get_temp_path : OS -> outcome str * OS.
Variable wm_get_output_path : OS -> outcome str * OS.
Variable path_exists : str -> OS -> bool.
Variable spawn : list str -> str -> gmap string value -> bool -> value ->
                 OS -> outcome completion * OS.

(** [os.environ] and [platform.system()] of the host. *)
Variable os_environ : gmap string value.
Variable system_name : str.

(** How an f-string renders a value that is no string. *)
Variable render_other : value -> str.

(** [str.split()] on whitespace, as the library does it. *)
Variable split_whitespace : str -> list str.

Definition render (v : value) : str :=
  match v with
  | VStr s => s
  | _ => render_other v
  end.

Definition host : platform :=
  if bool_decide (system_name = pystr "Windows") then Windows else NotWindows.

Record state := { os : OS; calls : list sys_call }.

Definition SM (A : Type) : Type := state -> outcome A * state.

Definition sret {A} (a : A) : SM A := fun st => (Return a, st).

Definition sbind {A B} (c : SM A) (k : A -> SM B) : SM B :=
  fun st => match c st with
            | (Return a, st') => k a st'
            | (Raise e, st') => (Raise e, st')
            end.

Definition sraise {A} (e : exn) : SM A := fun st => (Raise e, st).

Definition call {A} (c : sys_call) (op : OS -> outcome A * OS) : SM A :=
  fun st => let '(r, w) := op (os st) in
            (r, {| os := w; calls := calls st ++ [c] |}).

Definition stry {A} (body : SM A) (handler : exn -> SM A) : SM A :=
  fun st => match body st with
            | (Return a, st') => (Return a, st')
            | (Raise e, st') =>
                if derives_Exception (exn_cls e) then handler e st'
                else (Raise e, st')
            end.

Definition failure (msg err : str) : ToolResponse :=
  {| success := false; message := msg; data := None; error := Some err |}.

(** The guarded block of [_execute_command] for an [environment] that is
    a list with elements, which [env.update] reads as a sequence of
    pairs: the keys of the pairs need not be strings, and what the start
    of the process makes of such a key is the library's.  Taken as
    given. *)
Variable pairs_environment :
  str -> str -> value -> bool -> bool -> value -> SM ToolResponse.

(** [env.update(environment)], where it is modelled.  A mapping is merged
    into [env].  Anything else is read as a sequence of pairs: an empty
    list or string adds nothing, the first character of a string that is
    not empty is no pair, and a value that cannot be iterated is a
    [TypeError]. *)
Definition env_update (env : gmap string value) (environment : value)
  : option (outcome (gmap string value)) :=
  match environment with
  | VDict d => Some (Return (d ∪ env))
  | VList [] => Some (Return env)
  | VList (_ :: _) => None
  | VStr [] => Some (Return env)
  | VStr (_ :: _) =>
      Some (Raise (Exn ValueError
                     (pystr "dictionary update sequence element #0 has length 1; 2 is required")))
  | v => Some (Raise (Exn TypeError
                        (pystr "'" ++ type_name v ++ pystr "' object is not iterable")))
  end.

(** [out.decode(...).strip()] when [out] is truthy and the empty text
    otherwise, the output being held as the text it decodes to. *)
Definition output_text (out : option str) : str :=
  match out with
  | Some s => if Nat.eqb (length s) 0 then [] else strip s
  | None => []
  end.

Definition _execute_command (command work_dir : str) (timeout : value)
    (capture_output shell : bool) (environment : value) : SM ToolResponse :=
  stry
    (match env_update os_environ environment with
     | None =>
         pairs_environment command work_dir timeout capture_output shell
           environment
     | Some updated =>
     sbind (fun st => (updated, st)) (fun env =>
     sbind (call Get_session_path wm_get_session_path) (fun session =>
     let env := <["WORKSPACE" := VStr session]> env in
     sbind (call Get_temp_path wm_get_temp_path) (fun temp =>
     let env := <["WORKSPACE_TEMP" := VStr temp]> env in
     sbind (call Get_output_path wm_get_output_path) (fun output =>
     let env := <["WORKSPACE_OUTPUT" := VStr output]> env in
     let argv :=
       if shell then
         match host with
         | Windows => [pystr "cmd.exe"; pystr "/c"; command]
         | NotWindows => [pystr "/bin/bash"; pystr "-c"; command]
         end
       else split_whitespace command in
     sbind (call (Spawn argv work_dir env capture_output timeout)
                 (spawn argv work_dir env capture_output timeout))
       (fun done =>
     match done with
     | Timed_out =>
         sret (failure (pystr "命令执行超时（" ++ render timeout ++ pystr "秒）")
                       (pystr "Command execution timeout"))
     | Exited returncode stdout stderr =>
         let stdout_text := output_text stdout in
         let stderr_text := output_text stderr in
         let result_data : gmap string value :=
           <["command" := VStr command]> (
           <["working_directory" := VStr work_dir]> (
           <["exit_code" := VInt returncode]> (
           <["timeout" := timeout]> (
           <["platform" := VStr system_name]> ∅)))) in
         let result_data :=
           if capture_output
           then <["stderr" := VStr stderr_text]> (
                <["stdout" := VStr stdout_text]> result_data)
           else result_data in
         let success := returncode =? 0 in
         let message :=
           if success then
             pystr "命令执行成功"
             ++ (if Nat.eqb (length stdout_text) 0 then []
                 else pystr "，输出: "
                      ++ render (VInt (Z.of_nat (length stdout_text)))
                      ++ pystr " 字符")
           else
             pystr "命令执行失败，退出码: " ++ render (VInt returncode)
             ++ (if Nat.eqb (length stderr_text) 0 then []
                 else pystr "，错误: " ++ slice_to stderr_text 200
                      ++ pystr "...") in
         sret {| success := success; message := message;
                 data := Some (VDict result_data); error := None |}
     end)))))
     end)
    (fun e =>
       sret (failure (pystr "命令执行异常: " ++ exn_text e) (exn_text e))).

Definition kwarg (kwargs : gmap string value) (k : string) (d : value) : value :=
  match kwargs !! k with
  | Some v => v
  | None => d
  end.

(** [kwargs.get('command', '').strip()]: only a string has the method. *)
Definition stripped_command (kwargs : gmap string value) : outcome str :=
  match kwarg kwargs "command" (VStr []) with
  | VStr s => Return (strip s)
  | v => Raise (Exn AttributeError
                  (pystr "'" ++ type_name v
                   ++ pystr "' object has no attribute 'strip'"))
  end.

Definition execute (kwargs : gmap string value) : SM ToolResponse :=
  sbind (fun st => (stripped_command kwargs, st)) (fun command =>
  let working_directory := kwarg kwargs "working_directory" (VStr (pystr ".")) in
  let timeout := kwarg kwargs "timeout" (VInt 30) in
  let capture_output := kwarg kwargs "capture_output" (VBool true) in
  let shell := kwarg kwargs "shell" (VBool true) in
  let environment := kwarg kwargs "environment" (VDict ∅) in
  if Nat.eqb (length command) 0 then
    sret (failure (pystr "缺少命令参数") (pystr "Missing command parameter"))
  else if negb (_is_command_safe host command) then
    sret (failure (pystr "命令被安全策略阻止")
                  (pystr "Command blocked by security policy"))
  else
    stry
      (sbind (if str_eq working_directory (pystr ".")
              then call Get_session_path wm_get_session_path
              else call (Resolve_path working_directory)
                        (wm_resolve_path working_directory))
         (fun work_dir st =>
       if negb (path_exists work_dir (os st)) then
         sret (failure (pystr "工作目录不存在: " ++ render working_directory)
                       (pystr "Working directory does not exist")) st
       else
         _execute_command command work_dir timeout (truthy capture_output)
           (truthy shell) environment st))
      (fun e =>
         sret (failure (pystr "命令执行失败: " ++ exn_text e) (exn_text e)))).


(** The processes a run has started. *)
Definition is_spawn (c : sys_call) : bool :=
  match c with Spawn _ _ _ _ _ => true | _ => false end.

Definition spawns (cs : list sys_call) : list sys_call := List.filter is_spawn cs.

End ShellExec.

Arguments state OS : clear implicits.
Arguments SM OS A : clear implicits.

End ShellExec.

(** Modelled from the spec: a host for the shell tool, with the Workspace
    Manager (not among the sources) handing out fixed paths that all
    exist, and a process that exits at once with the code 0 and the
    output [ok]. *)
Module QuietHost.
Import Py BaseTool ShellExec.

Definition resolve_path (p : value) (w : unit) : outcome str * unit :=
  (Return (pystr "/srv/workspace/session/sub"), w).
Definition get_session_path (w : unit) : outcome str * unit :=
  (Return (pystr "/srv/workspace/session"), w).
Definition get_temp_path (w : unit) : outcome str * unit :=
  (Return (pystr "/srv/workspace/temp"), w).
Definition get_output_path (w : unit) : outcome str * unit :=
  (Return (pystr "/srv/workspace/output"), w).
Definition path_exists (p : str) (w : unit) : bool := true.
Definition spawn (argv : list str) (cwd : str) (env : gmap string value)
    (capture : bool) (timeout : value) (w : unit) : outcome completion * unit :=
  (Return (Exited 0 (Some (pystr "ok")) (Some [])), w).
Definition os_environ : gmap string value :=
  {[ "PATH" := VStr (pystr "/usr/bin") ]}.
Definition render_other (v : value) : str := pystr "?".
Definition split_whitespace (s : str) : list str := [s].
Definition pairs_environment (command work_dir : str) (timeout : value)
    (capture_output shell : bool) (environment : value) (st : state unit)
  : outcome ToolResponse * state unit :=
  (Raise (Exn TypeError (pystr "expected str, bytes or os.PathLike object")), st).

Definition start : state unit := {| os := tt; calls := [] |}.

Definition run (kwargs : gmap string value) : outcome ToolResponse * state unit :=
  execute resolve_path get_session_path get_temp_path get_output_path
    path_exists spawn os_environ (pystr "Linux") render_other split_whitespace
    pairs_environment kwargs start.

End QuietHost.

(* ===================================================================== *)
(** * src/config/env_loader.py, the other loaders of settings.py and
      SunaCLI.initialize                                                  *)
(* ===================================================================== *)

Module Loaders.
Import Py Settings.

(** [load_env]: the dictionary it returns is empty. *)
Definition load_env : gmap string value := ∅.

(** [validate_required_env_vars] *)
Definition validate_required_env_vars : bool := true.

(** [env_vars.get(key, default)] *)
Definition env_get (env_vars : gmap string value) (key : string) (d : value) : value :=
  match env_vars !! key with
  | Some v => v
  | None => d
  end.

(** [load_from_env] *)
Definition load_from_env : outcome t :=
  let env_vars := load_env in
  if negb validate_required_env_vars
  then Raise (Exn ValueError (pystr "缺少必需的环境变量"))
  else
    Return
      {| agent :=
           {| AgentConfig.model := env_get env_vars "OPENAI_MODEL" (VStr []);
              AgentConfig.base_url := env_get env_vars "OPENAI_BASE_URL" (VStr []);
              AgentConfig.api_key := env_get env_vars "OPENAI_API_KEY" (VStr []);
              AgentConfig.max_tokens := env_get env_vars "MAX_TOKENS" (VInt 4000);
              AgentConfig.temperature :=
                env_get env_vars "TEMPERATURE" (VFloat (Finite (7 # 10)));
              AgentConfig.max_conversation_history :=
                env_get env_vars "MAX_CONVERSATION_HISTORY" (VInt 10) |};
         workspace :=
           {| WorkspaceConfig.path :=
                env_get env_vars "WORKSPACE_PATH" (VStr (pystr "./workspace"));
              WorkspaceConfig.max_size_mb :=
                env_get env_vars "MAX_WORKSPACE_SIZE" (VInt 100);
              WorkspaceConfig.auto_cleanup := VBool true |};
         browser :=
           {| BrowserConfig.headless :=
                env_get env_vars "BROWSER_HEADLESS" (VBool true);
              BrowserConfig.timeout_seconds :=
                env_get env_vars "BROWSER_TIMEOUT" (VInt 30);
              BrowserConfig.window_size :=
                BrowserConfig.window_size BrowserConfig.default |};
         search :=
           {| SearchConfig.engine := SearchConfig.engine SearchConfig.default;
              SearchConfig.max_results := VInt 10;
              SearchConfig.timeout_seconds := VInt 15;
              SearchConfig.api_key := SearchConfig.api_key SearchConfig.default |};
         tools := ToolsConfig.default;
         logging :=
           {| LoggingConfig.level := env_get env_vars "LOG_LEVEL" (VStr (pystr "INFO"));
              LoggingConfig.file :=
                env_get env_vars "LOG_FILE" (VStr (pystr "./suna-lite.log"));
              LoggingConfig.max_size_mb :=
                LoggingConfig.max_size_mb LoggingConfig.default;
              LoggingConfig.backup_count :=
                LoggingConfig.backup_count LoggingConfig.default |};
         security := SecurityConfig.default |}.

(** The fields of the dataclass behind each section of the file. *)
Definition section_fields (section : string) : list string :=
  if String.eqb section "agent" then
    ["model"; "base_url"; "api_key"; "max_tokens"; "temperature";
     "max_conversation_history"]%string
  else if String.eqb section "workspace" then
    ["path"; "max_size_mb"; "auto_cleanup"]%string
  else if String.eqb section "browser" then
    ["headless"; "timeout_seconds"; "window_size"]%string
  else if String.eqb section "search" then
    ["engine"; "max_results"; "timeout_seconds"; "api_key"]%string
  else if String.eqb section "tools" then
    ["file_operations"; "shell_commands"; "web_search"; "browser_automation"]%string
  else if String.eqb section "logging" then
    ["level"; "file"; "max_size_mb"; "backup_count"]%string
  else if String.eqb section "security" then
    ["allow_network"; "allowed_domains"; "block_shell_commands"]%string
  else [].

Definition sections : list string :=
  ["agent"; "workspace"; "browser"; "search"; "tools"; "logging"; "security"]%string.

Section Files.

Variable text : Type.
Variable yaml_safe_load : text -> outcome value.

(** [load_with_priority]; the prints are left out.  Here too the test
    [config_path.exists()] stands before the guarded block. *)
Definition load_with_priority (config_file : option str) (fs : filesystem text)
  : outcome t :=
  let config_file := match config_file with
                     | Some f => f
                     | None => pystr "config.yaml"
                     end in
  match files fs !! config_file with
  | Some _ =>
      try_except derives_Exception
        (load_from_file yaml_safe_load config_file fs)
        (fun _ => Return default)
  | None =>
      match stat_error fs config_file with
      | Some msg => Raise (Exn OSError msg)
      | None => Return default
      end
  end.

(** What [initialize] does once the settings are validated: the logging
    is set up, the Workspace Manager and the agent are built.  These are
    taken as given, on a state [W] of their own. *)
Context {W : Type}.
Variable start_components : t -> W -> outcome unit * W.

(** What [initialize] leaves in the CLI object. *)
Record cli := { settings : option t; world : W }.

(** [SunaCLI.initialize] *)
Definition initialize (config_file : option str) (fs : filesystem text) (w : W)
  : outcome bool * cli :=
  let caught (e : exn) (c : cli) : outcome bool * cli :=
    if derives_Exception (exn_cls e) then (Return false, c) else (Raise e, c) in
  match load_with_priority config_file fs with
  | Raise e => caught e {| settings := None; world := w |}
  | Return s =>
      match validate s with
      | Raise e => caught e {| settings := Some s; world := w |}
      | Return false => (Return false, {| settings := Some s; world := w |})
      | Return true =>
          match start_components s w with
          | (Return _, w') => (Return true, {| settings := Some s; world := w' |})
          | (Raise e, w') => caught e {| settings := Some s; world := w' |}
          end
      end
  end.

End Files.

Arguments load_with_priority {text} yaml_safe_load config_file fs.
Arguments initialize {text} yaml_safe_load {W} start_components config_file fs w.
Arguments settings {W} c.
Arguments world {W} c.

(** Settings that pass validation, and a disk that holds them as
    [config.yaml]. *)
Definition working : t :=
  TypedSettings.make (pystr "sk-test") (pystr "https://api.example.com/v1")
    4000 (7 # 10) 100 30 10.

Definition disk_with_config : filesystem value :=
  save_to_file SettingsSpec.dump_id working (pystr "config.yaml")
    SettingsSpec.empty_disk.

(** A disk whose [config.yaml] names a field the agent section does not
    have. *)
Definition disk_with_typo : filesystem value :=
  {| files :=
       {[ pystr "config.yaml" :=
            VDict {[ "agent" :=
                       VDict (<["api_key" := VStr (pystr "sk-test")]> (
                              <["max_token" := VInt 100]> ∅)) ]} ]};
     stat_error := fun _ => None;
     writable := fun _ => true |}.

(** A name of three hundred characters, and a disk on which [Path.exists]
    hands on the error of a name that is too long. *)
Definition long_name : str := repeat "a"%char 300.

Definition disk_with_limit : filesystem value :=
  {| files := ∅;
     stat_error := fun path =>
       if (255 <? length path)%nat
       then Some (pystr "[Errno 36] File name too long")
       else None;
     writable := fun _ => true |}.

(** A document with one key of one section, and what it loads as. *)
Definition only_api_key : gmap string value :=
  {[ "agent" := VDict {[ "api_key" := VStr (pystr "sk-test") ]} ]}.

Definition loaded_only_api_key : t :=
  {| agent :=
       {| AgentConfig.model := AgentConfig.model AgentConfig.default;
          AgentConfig.base_url := AgentConfig.base_url AgentConfig.default;
          AgentConfig.api_key := VStr (pystr "sk-test");
          AgentConfig.max_tokens := AgentConfig.max_tokens AgentConfig.default;
          AgentConfig.temperature := AgentConfig.temperature AgentConfig.default;
          AgentConfig.max_conversation_history :=
            AgentConfig.max_conversation_history AgentConfig.default |};
     workspace := WorkspaceConfig.default;
     browser := BrowserConfig.default;
     search := SearchConfig.default;
     tools := ToolsConfig.default;
     logging := LoggingConfig.default;
     security := SecurityConfig.default |}.

(** Modelled from the spec: components (the logging, the Workspace Manager
    and the agent, not all among the sources) that start without trouble,
    counting the starts. *)
Definition start_quietly (s : t) (n : nat) : outcome unit * nat := (Return tt, S n).

End Loaders.

(* ===================================================================== *)
(** * src/agent/tools/file_tool.py: the other actions of FileTool         *)
(* ===================================================================== *)

Module FileActions.
Import Py BaseTool Helpers FileTool.

(** The other calls the tool makes on the Workspace Manager. *)
Inductive wm_op :=
  | Create_directory (path : value)
  | Resolve (path : value)
  | Delete_file (path : value)
  | Delete_directory (path : value) (recursive : bool)
  | Copy_file (src dst : value)
  | Move_file (src dst : value).

(** What [exists()] and [is_file()] say of a resolved path. *)
Record located := { present : bool; is_file : bool }.

Section FileActions.

(** The operations of the Workspace Manager that these actions use, on
    its state [WS]; the paths are whatever the request holds. *)
Context {WS : Type}.
Variable wm_create_directory : value -> WS -> outcome bool * WS.
Variable wm_resolve_path : value -> WS -> outcome located * WS.
Variable wm_delete_file : value -> WS -> outcome bool * WS.
Variable wm_delete_directory : value -> bool -> WS -> outcome bool * WS.
Variable wm_copy_file : value -> value -> WS -> outcome bool * WS.
Variable wm_move_file : value -> value -> WS -> outcome bool * WS.

(** [str(v)] for a value that is no string. *)
Variable render_other : value -> str.

Definition render (v : value) : str :=
  match v with
  | VStr s => s
  | _ => render_other v
  end.

(** The state of the Workspace Manager with the calls made on it. *)
Record wstate := { wm : WS; ops : list wm_op }.

Definition M (A : Type) : Type := wstate -> outcome A * wstate.

Definition ret {A} (a : A) : M A := fun st => (Return a, st).

Definition bind {A B} (c : M A) (k : A -> M B) : M B :=
  fun st => match c st with
            | (Return a, st') => k a st'
            | (Raise e, st') => (Raise e, st')
            end.

Definition op {A} (o : wm_op) (f : WS -> outcome A * WS) : M A :=
  fun st => let '(r, w) := f (wm st) in
            (r, {| wm := w; ops := ops st ++ [o] |}).

(** [try: body  except Exception as e: return ToolResponse(...)] *)
Definition guarded (body : M ToolResponse) (label : str) : M ToolResponse :=
  fun st => match body st with
            | (Return r, st') => (Return r, st')
            | (Raise e, st') =>
                if derives_Exception (exn_cls e)
                then (Return (failure (label ++ exn_text e) (exn_text e)), st')
                else (Raise e, st')
            end.

(** The listing, the information and the search actions, which format
    sizes and dates, are taken as given. *)
Variable _list_directory : value -> value -> M ToolResponse.
Variable _get_file_info : value -> M ToolResponse.
Variable _search_files : value -> value -> value -> M ToolResponse.

(** A read or a write whose path, content or encoding is no string. *)
Variable ill_typed : gmap string value -> M ToolResponse.

Definition _create_directory (path : value) : M ToolResponse :=
  guarded
    (bind (op (Create_directory path) (wm_create_directory path))
       (fun success =>
     if success then
       ret (ok (pystr "创建目录成功: " ++ render path) {[ "path" := path ]})
     else
       ret (failure (pystr "创建目录失败: " ++ render path)
                    (pystr "Failed to create directory"))))
    (pystr "创建目录失败: ").

Definition _delete_file_or_directory (path : value) : M ToolResponse :=
  guarded
    (bind (op (Resolve path) (wm_resolve_path path)) (fun full_path =>
     if negb (present full_path) then
       ret (failure (pystr "文件或目录不存在: " ++ render path)
                    (pystr "File or directory not found"))
     else
       bind (if is_file full_path
             then bind (op (Delete_file path) (wm_delete_file path))
                    (fun success => ret (success, pystr "文件"))
             else bind (op (Delete_directory path true)
                          (wm_delete_directory path true))
                    (fun success => ret (success, pystr "目录")))
         (fun '(success, action) =>
       if success then
         ret (ok (pystr "删除" ++ action ++ pystr "成功: " ++ render path)
                (<["path" := path]> (<["type" := VStr action]> ∅)))
       else
         ret (failure (pystr "删除" ++ action ++ pystr "失败: " ++ render path)
                      (pystr "Failed to delete")))))
    (pystr "删除失败: ").

Definition _copy_file (src dst : value) : M ToolResponse :=
  guarded
    (bind (op (Copy_file src dst) (wm_copy_file src dst)) (fun success =>
     if success then
       ret (ok (pystr "复制文件成功: " ++ render src ++ pystr " -> " ++ render dst)
              (<["source" := src]> (<["destination" := dst]> ∅)))
     else
       ret (failure (pystr "复制文件失败: " ++ render src ++ pystr " -> " ++ render dst)
                    (pystr "Failed to copy file"))))
    (pystr "复制文件失败: ").

Definition _move_file (src dst : value) : M ToolResponse :=
  guarded
    (bind (op (Move_file src dst) (wm_move_file src dst)) (fun success =>
     if success then
       ret (ok (pystr "移动文件成功: " ++ render src ++ pystr " -> " ++ render dst)
              (<["source" := src]> (<["destination" := dst]> ∅)))
     else
       ret (failure (pystr "移动文件失败: " ++ render src ++ pystr " -> " ++ render dst)
                    (pystr "Failed to move file"))))
    (pystr "移动文件失败: ").

Definition missing_destination : ToolResponse :=
  failure (pystr "缺少目标路径参数") (pystr "Missing destination parameter").

(** The branches of [execute] that [FileTool.execute] leaves open. *)
Definition others (kwargs : gmap string value) : M ToolResponse :=
  let action := kwarg kwargs "action" VNone in
  let path := kwarg kwargs "path" (VStr []) in
  if str_eq action (pystr "read") || str_eq action (pystr "write") then
    ill_typed kwargs
  else if str_eq action (pystr "create") then _create_directory path
  else if str_eq action (pystr "delete") then _delete_file_or_directory path
  else if str_eq action (pystr "list") then
    _list_directory path (kwarg kwargs "recursive" (VBool false))
  else if str_eq action (pystr "info") then _get_file_info path
  else if str_eq action (pystr "copy") then
    let destination := kwarg kwargs "destination" VNone in
    if negb (truthy destination) then ret missing_destination
    else _copy_file path destination
  else if str_eq action (pystr "move") then
    let destination := kwarg kwargs "destination" VNone in
    if negb (truthy destination) then ret missing_destination
    else _move_file path destination
  else if str_eq action (pystr "search") then
    _search_files (kwarg kwargs "pattern" (VStr (pystr "*"))) path
      (kwarg kwargs "recursive" (VBool true))
  else
    ret (failure (pystr "不支持的操作类型: " ++ render action)
                 (pystr "Unsupported action")).

(** The four operations of the read and the write action, on the state
    that also keeps these calls. *)
Variable wm_read_file : str -> str -> WS -> outcome (option str) * WS.
Variable wm_resolve_text : str -> WS -> outcome str * WS.
Variable wm_get_file_info : str -> WS -> outcome (option (gmap string value)) * WS.
Variable wm_write_file : str -> str -> str -> WS -> outcome bool * WS.
Variable guess_type : str -> option str.

Definition keeping {A} (f : WS -> outcome A * WS) (st : wstate)
  : outcome A * wstate :=
  let '(r, w) := f (wm st) in (r, {| wm := w; ops := ops st |}).

(** [execute], whole. *)
Definition execute (kwargs : gmap string value) : FM wstate ToolResponse :=
  FileTool.execute
    (fun p enc => keeping (wm_read_file p enc))
    (fun p => keeping (wm_resolve_text p))
    (fun p => keeping (wm_get_file_info p))
    (fun p c enc => keeping (wm_write_file p c enc))
    guess_type others kwargs.

End FileActions.

Arguments wstate WS : clear implicits.
Arguments wm {WS} w.
Arguments ops {WS} w.

(** The actions the dispatch of [execute] knows. *)
Definition supported : list str :=
  [pystr "read"; pystr "write"; pystr "create"; pystr "delete"; pystr "list";
   pystr "info"; pystr "copy"; pystr "move"; pystr "search"].

(** Modelled from the spec: a Workspace Manager, which is not among the
    sources, over a workspace of files and directories by name; [Some true]
    is a file, [Some false] a directory. *)
Definition tree := gmap str bool.

Definition name_of (path : value) : str :=
  match path with
  | VStr s => s
  | _ => []
  end.

Definition resolve_in (path : value) (w : tree) : outcome located * tree :=
  (Return match w !! name_of path with
          | Some f => {| present := true; is_file := f |}
          | None => {| present := false; is_file := false |}
          end, w).

Definition delete_file_in (path : value) (w : tree) : outcome bool * tree :=
  (Return true, delete (name_of path) w).

Definition delete_directory_in (path : value) (recursive : bool) (w : tree)
  : outcome bool * tree :=
  (Return true, delete (name_of path) w).

Definition copy_in (src dst : value) (w : tree) : outcome bool * tree :=
  match w !! name_of src with
  | Some f => (Return true, <[name_of dst := f]> w)
  | None => (Return false, w)
  end.

Definition sample_tree : wstate tree :=
  {| wm := {[ pystr "notes.txt" := true; pystr "drafts" := false ]}; ops := [] |}.

(** The user interrupts while the Workspace Manager reads. *)
Definition interrupt : exn := Exn KeyboardInterrupt [].

Definition read_interrupted (path encoding : str) (w : gmap str str)
  : outcome (option str) * gmap str str :=
  (Raise interrupt, w).

Definition read_notes : gmap string value :=
  <["action" := VStr (pystr "read")]> (<["path" := VStr (pystr "notes.txt")]> ∅).

Definition question_mark (v : value) : str := pystr "?".

End FileActions.

(* ===================================================================== *)
(** * src/agent/tools/browser_tool.py: the fields of a response           *)
(* ===================================================================== *)

Module BrowserMore.
Import Py BaseTool BrowserTool.


(** A browser in simulation that has been to two pages. *)
Definition visited : browser Empty_set :=
  {| driver := None;
     current_url := VStr (pystr "https://example.org/b");
     page_title := VStr (pystr "模拟页面 - https://example.org/b");
     session_history := [VStr (pystr "https://example.org/a");
                         VStr (pystr "https://example.org/b")] |}.

Definition go_back : gmap string value := <["action" := VStr (pystr "back")]> ∅.

(** A driver under which the user interrupts every action. *)
Definition interrupt : exn := Exn KeyboardInterrupt [].


End BrowserMore.

(* ===================================================================== *)
(** * src/agent/agent.py: the context sent to the model, and the
      statistics of src/main.py                                           *)
(* ===================================================================== *)

Module Agent.
Import Py.

(** A message of the context: a dictionary with the two keys [role] and
    [content]. *)
Record message := { role : str; content : str }.

(** [_build_conversation_context]; the history is the one
    [interactive_mode] keeps, the bound is the integer the annotation of
    [max_conversation_history] promises. *)
Definition _build_conversation_context (system_prompt : str)
    (max_conversation_history : Z) (msg : str)
    (conversation_history : list Main.entry) : list message :=
  let messages := [{| role := pystr "system"; content := system_prompt |}] in
  let messages :=
    if negb (Nat.eqb (length conversation_history) 0)
    then messages
         ++ map (fun m => {| role := Main.role m; content := Main.content m |})
              (slice_from conversation_history (- max_conversation_history))
    else messages in
  messages ++ [{| role := pystr "user"; content := msg |}].

(** An entry without its timestamp. *)
Definition bare (m : Main.entry) : message :=
  {| role := Main.role m; content := Main.content m |}.

(** The last [n] elements of a list, all of them when there are fewer. *)
Definition recent {A} (n : nat) (l : list A) : list A :=
  skipn (length l - n) l.

(** A turn that empties the history. *)
Definition is_clear (t : Main.turn) : bool :=
  match t with
  | Main.Slash_command c => bool_decide (strip (lower c) = pystr "clear")
  | _ => false
  end.

(** The turns after the last one that emptied the history. *)
Definition since_clear (ts : list Main.turn) : list Main.turn :=
  fold_left (fun acc t => if is_clear t then [] else acc ++ [t]) ts [].

(** [show_usage_statistics]: the two groups it counts. *)
Definition user_messages (h : list Main.entry) : list Main.entry :=
  List.filter (fun m => bool_decide (Main.role m = pystr "user")) h.

Definition assistant_messages (h : list Main.entry) : list Main.entry :=
  List.filter (fun m => bool_decide (Main.role m = pystr "assistant")) h.

(** [sum(len(msg['content']) for msg in ...)] *)
Definition chars (h : list Main.entry) : nat :=
  fold_right (fun m n => (length (Main.content m) + n)%nat) 0%nat h.

End Agent.

(* ===================================================================== *)
(** * Facts about the Python fragment                                     *)
(* ===================================================================== *)

Module PyFacts.
Import Py.

Lemma startswith_spec (p s : str) :
  startswith p s = true <-> exists rest, s = p ++ rest.
Proof.
  revert s. induction p as [|a p IH]; intros s; simpl.
  - split; [intros _; exists s; reflexivity | reflexivity].
  - destruct s as [|b s]; simpl.
    + split; [discriminate | intros [rest H]; discriminate].
    + rewrite andb_true_iff, IH. split.
      * intros [Hab [rest ->]]. apply Ascii.eqb_eq in Hab. subst b.
        exists rest. reflexivity.
      * intros [rest H]. injection H as -> ->. split.
        -- apply Ascii.eqb_refl.
        -- exists rest. reflexivity.
Qed.

Lemma startswith_app (p rest : str) : startswith p (p ++ rest) = true.
Proof. apply startswith_spec. exists rest. reflexivity. Qed.

Lemma contains_spec (sub s : str) :
  contains sub s = true <-> exists before after, s = before ++ sub ++ after.
Proof.
  induction s as [|c s IH].
  - simpl. rewrite orb_false_r, startswith_spec. split.
    + intros [rest H]. exists [], rest. exact H.
    + intros [before [after H]]. symmetry in H.
      apply app_eq_nil in H as [-> H]. exists after. symmetry. exact H.
  - simpl. rewrite orb_true_iff, startswith_spec, IH. split.
    + intros [[rest H] | [before [after H]]].
      * exists [], rest. exact H.
      * exists (c :: before), after. simpl. f_equal. exact H.
    + intros [[|b before] [after H]].
      * left. exists after. exact H.
      * right. injection H as -> H. exists before, after. exact H.
Qed.

(** ** Stripping keeps the occurrences of a word with clean edges *)

Lemma lstrip_by_suffix (p : ascii -> bool) (s : str) :
  exists removed, s = removed ++ lstrip_by p s.
Proof.
  induction s as [|c s [removed IH]]; simpl.
  - exists []. reflexivity.
  - destruct (p c).
    + exists (c :: removed). simpl. f_equal. exact IH.
    + exists []. reflexivity.
Qed.

Lemma rstrip_by_prefix (p : ascii -> bool) (s : str) :
  exists removed, s = rstrip_by p s ++ removed.
Proof.
  unfold rstrip_by. destruct (lstrip_by_suffix p (rev s)) as [removed H].
  exists (rev removed). rewrite <- rev_app_distr, <- H, rev_involutive.
  reflexivity.
Qed.

Lemma strip_by_middle (p : ascii -> bool) (s : str) :
  exists l r, s = l ++ strip_by p s ++ r.
Proof.
  unfold strip_by.
  destruct (lstrip_by_suffix p s) as [l Hl].
  destruct (rstrip_by_prefix p (lstrip_by p s)) as [r Hr].
  exists l, r. rewrite <- Hr. exact Hl.
Qed.

Lemma occurs_in_rev (sub s : str) : occurs_in sub s -> occurs_in (rev sub) (rev s).
Proof.
  intros [before [after ->]]. exists (rev after), (rev before).
  rewrite !rev_app_distr, app_assoc. reflexivity.
Qed.

Lemma occurs_in_lstrip (p : ascii -> bool) (a : ascii) (sub s : str) :
  p a = false -> occurs_in (a :: sub) s -> occurs_in (a :: sub) (lstrip_by p s).
Proof.
  intros Ha. induction s as [|c s IH]; intros Hocc; simpl.
  - exact Hocc.
  - destruct (p c) eqn:Hc; [|exact Hocc].
    apply IH. destruct Hocc as [[|b before] [after H]].
    + injection H as -> _. congruence.
    + injection H as _ H. exists before, after. exact H.
Qed.

Lemma occurs_in_strip_by (p : ascii -> bool) (sub s : str) :
  clean_edges p sub = true ->
  (occurs_in sub (strip_by p s) <-> occurs_in sub s).
Proof.
  intros Hedges. split.
  - intros [before [after H]].
    destruct (strip_by_middle p s) as [l [r Hs]].
    exists (l ++ before), (after ++ r). rewrite Hs, H.
    rewrite <- !app_assoc. reflexivity.
  - intros Hocc. unfold clean_edges in Hedges.
    destruct sub as [|a sub]; [discriminate|].
    destruct (rev (a :: sub)) as [|z bus] eqn:Hrev; [discriminate|].
    apply andb_true_iff in Hedges as [Ha Hz].
    apply negb_true_iff in Ha. apply negb_true_iff in Hz.
    unfold strip_by, rstrip_by.
    apply (occurs_in_lstrip p a sub s Ha) in Hocc.
    apply occurs_in_rev in Hocc. rewrite Hrev in Hocc.
    apply (occurs_in_lstrip p z bus _ Hz) in Hocc.
    apply occurs_in_rev in Hocc. rewrite <- Hrev, rev_involutive in Hocc.
    exact Hocc.
Qed.

(** ** Counting *)

Lemma count_from_le_occurrences (sub s : str) (skip : nat) :
  (count_from sub skip s <= occurrences sub s)%nat.
Proof.
  revert skip. induction s as [|c s IH]; intros skip.
  - simpl. lia.
  - cbn [count_from occurrences].
    destruct skip as [|k]; destruct (startswith sub (c :: s)).
    + specialize (IH (Nat.pred (length sub))). lia.
    + specialize (IH O). lia.
    + specialize (IH k). lia.
    + specialize (IH k). lia.
Qed.

Lemma count_le_occurrences (sub s : str) :
  sub <> [] -> (count sub s <= occurrences sub s)%nat.
Proof.
  intros Hne. destruct sub as [|a sub]; [congruence|].
  apply count_from_le_occurrences.
Qed.

Lemma occurrences_pos_contains (sub s : str) :
  (0 < occurrences sub s)%nat -> contains sub s = true.
Proof.
  induction s as [|c s IH]; cbn [occurrences contains].
  - destruct (startswith sub []); [reflexivity | lia].
  - destruct (startswith sub (c :: s)); [reflexivity|].
    intros H. apply IH. lia.
Qed.

(** A single character is counted at every position where it stands. *)
Lemma count_single (c : ascii) (s : str) : count [c] s = occurrences [c] s.
Proof.
  unfold count. induction s as [|a s IH]; [reflexivity|].
  cbn [count_from occurrences length Nat.pred].
  destruct (startswith [c] (a :: s)); rewrite IH; reflexivity.
Qed.

(** A word of two different characters cannot overlap itself. *)
Lemma count_pair (a b : ascii) (s : str) :
  a <> b -> count [a; b] s = occurrences [a; b] s.
Proof.
  intros Hab. unfold count.
  assert (Hskip : forall t,
            startswith [a; b] t = true ->
            count_from [a; b] 1 (tl t) = count_from [a; b] O (tl (tl t))
            /\ occurrences [a; b] (tl t) = occurrences [a; b] (tl (tl t))).
  { intros t Ht. apply startswith_spec in Ht as [rest ->]. simpl.
    destruct (Ascii.eqb a b) eqn:E; [apply Ascii.eqb_eq in E; congruence|].
    simpl. split; reflexivity. }
  remember (length s) as n eqn:Hn. revert s Hn.
  induction n as [n IH] using lt_wf_ind. intros s Hn.
  destruct s as [|x s]; [reflexivity|].
  cbn [count_from occurrences length Nat.pred].
  destruct (startswith [a; b] (x :: s)) eqn:Hsw.
  - destruct (Hskip _ Hsw) as [H1 H2]. cbn [tl] in H1, H2.
    rewrite H1, H2.
    apply startswith_spec in Hsw as [rest Hs]. injection Hs as -> ->.
    cbn [tl]. rewrite (IH (length rest)); [reflexivity | simpl in Hn; lia | reflexivity].
  - simpl in Hn. rewrite (IH (length s)); [reflexivity | lia | reflexivity].
Qed.

(** Where a doubled character starts, the character stands. *)
Lemma occurrences_double_le (c : ascii) (s : str) :
  (occurrences [c; c] s <= occurrences [c] s)%nat.
Proof.
  induction s as [|a s IH]; [simpl; lia|].
  cbn [occurrences].
  destruct (startswith [c; c] (a :: s)) eqn:H2.
  - apply startswith_spec in H2 as [rest H2]. injection H2 as -> ->.
    simpl startswith at 1. rewrite Ascii.eqb_refl. simpl in *. lia.
  - destruct (startswith [c] (a :: s)); lia.
Qed.

End PyFacts.

(* ===================================================================== *)
(** * The shell safety gate                                               *)
(* ===================================================================== *)

Module ShellToolFacts.
Import Py PyFacts ShellTool.

(** No entry of the deny list, lower-cased, begins or ends with a
    character that [strip] removes. *)
Lemma dangerous_commands_clean_edges (p : platform) :
  forallb (fun d => clean_edges isspace (lower d)) (dangerous_commands p) = true.
Proof. destruct p; vm_compute; reflexivity. Qed.

Lemma denied_iff (p : platform) (command : str) :
  existsb (fun d => contains (lower d) (strip (lower command)))
          (dangerous_commands p) = true
  <-> exists d, In d (dangerous_commands p) /\ occurs_in (lower d) (lower command).
Proof.
  rewrite existsb_exists. split.
  - intros [d [Hin Hc]]. exists d. split; [exact Hin|].
    apply contains_spec in Hc.
    pose proof (dangerous_commands_clean_edges p) as Hedges.
    rewrite forallb_forall in Hedges.
    apply (occurs_in_strip_by isspace _ _ (Hedges d Hin)). exact Hc.
  - intros [d [Hin Hocc]]. exists d. split; [exact Hin|].
    apply contains_spec.
    pose proof (dangerous_commands_clean_edges p) as Hedges.
    rewrite forallb_forall in Hedges.
    apply (occurs_in_strip_by isspace _ _ (Hedges d Hin)). exact Hocc.
Qed.

(** The count test of the code, in terms of Python's [count]. *)
Lemma injection_iff_count (command : str) :
  existsb (fun char => contains char command && (2 <? count char command)%nat)
          dangerous_chars = true
  <-> exists t, In t dangerous_chars /\ (2 < count t command)%nat.
Proof.
  rewrite existsb_exists. split.
  - intros [t [Hin H]]. apply andb_true_iff in H as [_ H].
    apply Nat.ltb_lt in H. exists t. split; assumption.
  - intros [t [Hin H]]. exists t. split; [exact Hin|].
    apply andb_true_iff. split; [|apply Nat.ltb_lt; exact H].
    apply occurrences_pos_contains.
    assert (t <> []) as Hne.
    { intros ->. vm_compute in Hin. intuition discriminate. }
    pose proof (count_le_occurrences t command Hne). lia.
Qed.

(** Counting with or without overlaps makes no difference to the test:
    the token of two different characters cannot overlap itself, and a
    doubled character that starts at three places stands at three. *)
Lemma count_iff_occurrences (command : str) :
  (exists t, In t dangerous_chars /\ (2 < count t command)%nat)
  <-> (exists t, In t dangerous_chars /\ (2 < occurrences t command)%nat).
Proof.
  split.
  - intros [t [Hin H]]. exists t. split; [exact Hin|].
    assert (t <> []) as Hne.
    { intros ->. vm_compute in Hin. intuition discriminate. }
    pose proof (count_le_occurrences t command Hne). lia.
  - intros [t [Hin H]].
    assert (Hsingle : forall c, In [c] dangerous_chars ->
              (2 < occurrences [c] command)%nat ->
              exists t, In t dangerous_chars /\ (2 < count t command)%nat).
    { intros c Hc Ho. exists [c]. split; [exact Hc|].
      rewrite count_single. exact Ho. }
    assert (Hdouble : forall c, In [c] dangerous_chars ->
              (2 < occurrences [c; c] command)%nat ->
              exists t, In t dangerous_chars /\ (2 < count t command)%nat).
    { intros c Hc Ho. apply (Hsingle c Hc).
      pose proof (occurrences_double_le c command). lia. }
    unfold dangerous_chars in Hin. simpl in Hin.
    destruct Hin as [<-|[<-|[<-|[<-|[<-|[<-|[<-|[<-|[<-|[<-|[]]]]]]]]]]].
    + apply (Hsingle ";"%char); [vm_compute; tauto | exact H].
    + apply (Hsingle "|"%char); [vm_compute; tauto | exact H].
    + apply (Hsingle "&"%char); [vm_compute; tauto | exact H].
    + apply (Hsingle "`"%char); [vm_compute; tauto | exact H].
    + exists (pystr "$("). split; [vm_compute; tauto|].
      change (pystr "$(") with ["$"%char; "("%char].
      rewrite count_pair; [exact H | discriminate].
    + apply (Hdouble "&"%char); [vm_compute; tauto | exact H].
    + apply (Hdouble "|"%char); [vm_compute; tauto | exact H].
    + apply (Hsingle ">"%char); [vm_compute; tauto | exact H].
    + apply (Hdouble ">"%char); [vm_compute; tauto | exact H].
    + apply (Hsingle "<"%char); [vm_compute; tauto | exact H].
Qed.

(** C3.  [_is_command_safe] returns false exactly when the lower-cased
    command contains a lower-cased entry of the deny list of the platform,
    or one of the ten tokens occurs more than twice in the command; a
    command with neither is accepted, and [a;b;c;d] is rejected while
    [a;b;c] passes. *)
Theorem is_command_safe_false_iff (p : platform) (command : str) :
  (_is_command_safe p command = false
   <-> (exists d, In d (dangerous_commands p)
                  /\ occurs_in (lower d) (lower command))
       \/ (exists t, In t dangerous_chars
                     /\ (2 < occurrences t command)%nat))
  /\ (_is_command_safe p command = true
      <-> (forall d, In d (dangerous_commands p)
                     -> ~ occurs_in (lower d) (lower command))
          /\ (forall t, In t dangerous_chars
                        -> (occurrences t command <= 2)%nat))
  /\ _is_command_safe p (pystr "a;b;c;d") = false
  /\ _is_command_safe p (pystr "a;b;c") = true
  /\ _is_command_safe p (pystr "rm -rf /") = false
  /\ _is_command_safe p (pystr "shutdown") = false.
Proof.
  assert (Hfalse :
    _is_command_safe p command = false
    <-> (exists d, In d (dangerous_commands p)
                   /\ occurs_in (lower d) (lower command))
        \/ (exists t, In t dangerous_chars
                      /\ (2 < occurrences t command)%nat)).
  { rewrite <- denied_iff, <- count_iff_occurrences, <- injection_iff_count.
    unfold _is_command_safe.
    destruct (existsb _ (dangerous_commands p));
      destruct (existsb _ dangerous_chars); intuition discriminate. }
  split; [exact Hfalse|]. split.
  - split.
    + intros Htrue. split.
      * intros d Hin Hocc.
        assert (_is_command_safe p command = false) as Hf
          by (apply Hfalse; left; exists d; split; assumption).
        congruence.
      * intros t Hin.
        destruct (le_lt_dec (occurrences t command) 2) as [Hle|Hgt]; [exact Hle|].
        assert (_is_command_safe p command = false) as Hf
          by (apply Hfalse; right; exists t; split; assumption).
        congruence.
    + intros [Hdeny Htok].
      apply not_false_is_true. intros E.
      apply Hfalse in E as [[d [Hin Hocc]] | [t [Hin Hgt]]].
      * exfalso. exact (Hdeny d Hin Hocc).
      * specialize (Htok t Hin). lia.
  - destruct p; vm_compute; repeat split; reflexivity.
Qed.

End ShellToolFacts.

(* ===================================================================== *)
(** * The helpers                                                         *)
(* ===================================================================== *)

Module HelpersFacts.
Import Py PyFacts Helpers.

(** ** clean_filename *)

Lemma sub_forbidden_allowed (s : str) : Forall allowed (sub_forbidden s).
Proof.
  unfold sub_forbidden. induction s as [|c s IH]; cbn [map]; constructor; auto.
  unfold allowed. destruct (char_in forbidden_chars c) eqn:E; [reflexivity | exact E].
Qed.

Lemma sub_whitespace_allowed (s : str) (in_run : bool) :
  Forall allowed s -> Forall allowed (sub_whitespace_from in_run s).
Proof.
  intros H. revert in_run. induction H as [|c s Hc Hs IH]; intros in_run; simpl.
  - constructor.
  - destruct (isspace c).
    + destruct in_run; [apply IH|].
      constructor; [reflexivity | apply IH].
    + constructor; [exact Hc | apply IH].
Qed.

Lemma lstrip_by_allowed (p : ascii -> bool) (s : str) :
  Forall allowed s -> Forall allowed (lstrip_by p s).
Proof.
  intros H. induction H as [|c s Hc Hs IH]; simpl; [constructor|].
  destruct (p c); [exact IH | constructor; assumption].
Qed.

Lemma strip_by_allowed (p : ascii -> bool) (s : str) :
  Forall allowed s -> Forall allowed (strip_by p s).
Proof.
  intros H. unfold strip_by, rstrip_by.
  apply Forall_rev, lstrip_by_allowed, Forall_rev, lstrip_by_allowed, H.
Qed.

Lemma slice_to_allowed (s : str) (i : Z) :
  Forall allowed s -> Forall allowed (slice_to s i).
Proof. intros H. unfold slice_to. apply Forall_take, H. Qed.

Lemma slice_from_allowed (s : str) (i : Z) :
  Forall allowed s -> Forall allowed (slice_from s i).
Proof. intros H. unfold slice_from. apply Forall_drop, H. Qed.

Lemma splitext_allowed (s : str) :
  Forall allowed s ->
  Forall allowed (fst (splitext s)) /\ Forall allowed (snd (splitext s)).
Proof.
  intros H. unfold splitext.
  destruct (_ && _); simpl; split;
    auto using slice_to_allowed, slice_from_allowed.
Qed.

(** Nothing [clean_filename] returns holds a character of the class it
    replaces; in particular no slash and no backslash. *)
Lemma clean_filename_allowed (filename : str) :
  Forall allowed (clean_filename filename).
Proof.
  unfold clean_filename.
  set (s := strip_chars _ _).
  assert (Hs : Forall allowed s).
  { apply strip_by_allowed, sub_whitespace_allowed, sub_forbidden_allowed. }
  destruct (255 <? Z.of_nat (length s)); [|exact Hs].
  destruct (splitext_allowed s Hs) as [Hn He].
  destruct (splitext s) as [name ext]. simpl in Hn, He.
  apply Forall_app. split; [apply slice_to_allowed, Hn | exact He].
Qed.

Lemma clean_filename_no_separator (filename : str) :
  ~ In "/"%char (clean_filename filename)
  /\ ~ In "\"%char (clean_filename filename).
Proof.
  pose proof (clean_filename_allowed filename) as H.
  rewrite Forall_forall in H.
  split; intros Hin; apply list_elem_of_In, H in Hin; vm_compute in Hin; discriminate.
Qed.

(** ** is_safe_path *)

Lemma join_components_app (a b : list str) :
  join_components (a ++ b) = join_components a ++ join_components b.
Proof.
  induction a as [|c a IH]; simpl; [reflexivity|].
  rewrite IH, <- app_assoc. reflexivity.
Qed.

Section IsSafePath.

Variable resolve : str -> outcome resolved.

(** A path inside the base is accepted. *)
Lemma is_safe_path_contained (path base_path : str) (p b : resolved) :
  resolve path = Return p ->
  resolve base_path = Return b ->
  contained_in p b ->
  is_safe_path resolve path base_path = Return true.
Proof.
  intros Hp Hb [rest ->]. unfold is_safe_path. rewrite Hp, Hb. simpl.
  f_equal. destruct b as [|c b].
  - destruct rest; reflexivity.
  - simpl app. cbn [path_str]. change (c :: b ++ rest) with ((c :: b) ++ rest).
    rewrite join_components_app. apply startswith_app.
Qed.

(** When the resolution of either argument fails with one of the two
    classes the code names, the answer is false. *)
Lemma is_safe_path_failure (path base_path : str) (e : exn) :
  exn_cls e = OSError \/ exn_cls e = ValueError ->
  resolve path = Raise e
  \/ (exists p, resolve path = Return p /\ resolve base_path = Raise e) ->
  is_safe_path resolve path base_path = Return false.
Proof.
  intros Hcls [Hp | [p [Hp Hb]]]; unfold is_safe_path;
    rewrite Hp; [|rewrite Hb]; simpl;
    destruct Hcls as [-> | ->]; reflexivity.
Qed.

(** All the answer true tells is that one text begins with the other. *)
Lemma is_safe_path_true (path base_path : str) :
  is_safe_path resolve path base_path = Return true ->
  exists p b rest,
    resolve path = Return p /\ resolve base_path = Return b
    /\ path_str p = path_str b ++ rest.
Proof.
  unfold is_safe_path.
  destruct (resolve path) as [p|e] eqn:Hp; simpl.
  - destruct (resolve base_path) as [b|e] eqn:Hb; simpl.
    + intros H. injection H as H. apply startswith_spec in H as [rest H].
      exists p, b, rest. auto.
    + destruct (exn_cls e); discriminate.
  - destruct (exn_cls e); discriminate.
Qed.

End IsSafePath.

(** C1.  With the workspace at [/srv/workspace], the path
    [/srv/workspace-old/secret.txt] resolves to a sibling of the workspace,
    outside it, and [is_safe_path] answers true: the text of the path
    begins with the text of the base. *)
Theorem is_safe_path_accepts_sibling :
  let path := pystr "/srv/workspace-old/secret.txt" in
  let base := pystr "/srv/workspace" in
  resolve_lexical [] path
    = Return [pystr "srv"; pystr "workspace-old"; pystr "secret.txt"]
  /\ resolve_lexical [] base = Return [pystr "srv"; pystr "workspace"]
  /\ ~ contained_in [pystr "srv"; pystr "workspace-old"; pystr "secret.txt"]
                    [pystr "srv"; pystr "workspace"]
  /\ is_safe_path (resolve_lexical []) path base = Return true.
Proof.
  repeat split; try (vm_compute; reflexivity).
  intros [rest H]. simpl in H. discriminate.
Qed.

End HelpersFacts.

(* ===================================================================== *)
(** * More on the helpers                                                 *)
(* ===================================================================== *)

Module HelpersMoreFacts.
Import Py PyFacts Helpers HelpersFacts HelpersMore.

(** ** truncate_text *)

Lemma slice_to_nonneg {A} (l : list A) (n : Z) :
  0 <= n -> slice_to l n = firstn (Z.to_nat n) l.
Proof.
  intros Hn. unfold slice_to, clamp.
  destruct (n <? 0) eqn:E; [apply Z.ltb_lt in E; lia|].
  destruct (Z_le_gt_dec (Z.of_nat (length l)) n) as [Hle|Hgt].
  - rewrite Z.min_l, Z.max_r, Nat2Z.id by lia.
    rewrite !firstn_all2 by lia. reflexivity.
  - rewrite Z.min_r, Z.max_r by lia. reflexivity.
Qed.

(** X1.  With a limit of at least three, [truncate_text] never returns
    more than [max_length] characters: a text within the limit comes back
    unchanged, a longer one as its first [max_length - 3] characters
    followed by three dots, [max_length] characters in all. *)
Theorem truncate_text_bound (text : str) (max_length : Z) :
  3 <= max_length ->
  Z.of_nat (length (truncate_text text max_length)) <= max_length
  /\ (Z.of_nat (length text) <= max_length ->
      truncate_text text max_length = text)
  /\ (max_length < Z.of_nat (length text) ->
      truncate_text text max_length
      = firstn (Z.to_nat (max_length - 3)) text ++ pystr "..."
      /\ Z.of_nat (length (truncate_text text max_length)) = max_length).
Proof.
  intros Hmax. unfold truncate_text.
  destruct (Z.of_nat (length text) <=? max_length) eqn:E.
  - apply Z.leb_le in E. split; [exact E|]. split; [reflexivity|lia].
  - apply Z.leb_gt in E. rewrite slice_to_nonneg by lia.
    assert (Z.of_nat (length (firstn (Z.to_nat (max_length - 3)) text
                              ++ pystr "...")) = max_length) as Hlen.
    { rewrite length_app, length_firstn. simpl. lia. }
    split; [lia|]. split; [lia|]. intros _. split; [reflexivity | exact Hlen].
Qed.

(** A sentence cut to ten characters. *)
Lemma truncate_text_bound_witness :
  Z.of_nat (length (truncate_text (pystr "hello, world") 10)) <= 10
  /\ (Z.of_nat (length (pystr "hello, world")) <= 10 ->
      truncate_text (pystr "hello, world") 10 = pystr "hello, world")
  /\ (10 < Z.of_nat (length (pystr "hello, world")) ->
      truncate_text (pystr "hello, world") 10
      = firstn (Z.to_nat (10 - 3)) (pystr "hello, world") ++ pystr "..."
      /\ Z.of_nat (length (truncate_text (pystr "hello, world") 10)) = 10).
Proof. apply (truncate_text_bound (pystr "hello, world") 10). lia. Defined.

(** Below three the limit is not kept: the slice bound is negative and
    counts from the end. *)
Lemma truncate_text_small_limit :
  truncate_text (pystr "abcdef") 2 = pystr "abcde...".
Proof. reflexivity. Qed.

(** ** sanitize_command *)

(** X2.  When no blocked entry, lower-cased, begins or ends with
    whitespace, [sanitize_command] rejects a command exactly when the
    lower-cased command contains a lower-cased blocked entry. *)
Theorem sanitize_command_false_iff (command : str) (blocked_commands : list str) :
  forallb (fun b => clean_edges isspace (lower b)) blocked_commands = true ->
  (sanitize_command command blocked_commands = false
   <-> exists b, In b blocked_commands /\ occurs_in (lower b) (lower command)).
Proof.
  intros Hedges. rewrite forallb_forall in Hedges.
  unfold sanitize_command. cbv zeta.
  destruct (existsb _ blocked_commands) eqn:E.
  - split; [intros _|reflexivity].
    apply existsb_exists in E as [b [Hin Hc]]. exists b. split; [exact Hin|].
    apply contains_spec in Hc.
    apply (occurs_in_strip_by isspace _ _ (Hedges b Hin)). exact Hc.
  - split; [discriminate|]. intros [b [Hin Hocc]]. exfalso.
    assert (existsb (fun blocked => contains (lower blocked) (strip (lower command)))
              blocked_commands = true) as Ht.
    { apply existsb_exists. exists b. split; [exact Hin|].
      apply contains_spec.
      apply (occurs_in_strip_by isspace _ _ (Hedges b Hin)). exact Hocc. }
    congruence.
Qed.

(** The block list of the default security settings against a command in
    capitals. *)
Lemma sanitize_command_false_iff_witness :
  sanitize_command (pystr "  FORMAT c:")
    [pystr "rm -rf"; pystr "format"; pystr "del"] = false
  <-> exists b, In b [pystr "rm -rf"; pystr "format"; pystr "del"]
                /\ occurs_in (lower b) (lower (pystr "  FORMAT c:")).
Proof.
  apply (sanitize_command_false_iff (pystr "  FORMAT c:")
           [pystr "rm -rf"; pystr "format"; pystr "del"]).
  reflexivity.
Defined.

(** An empty entry in the block list rejects every command. *)
Lemma sanitize_command_empty_entry (command : str) (blocked_commands : list str) :
  In [] blocked_commands -> sanitize_command command blocked_commands = false.
Proof.
  intros Hin. unfold sanitize_command. cbv zeta.
  assert (existsb (fun blocked => contains (lower blocked) (strip (lower command)))
            blocked_commands = true) as ->; [|reflexivity].
  apply existsb_exists. exists []. split; [exact Hin|].
  apply contains_spec. exists [], (strip (lower command)). reflexivity.
Qed.

(** ** clean_filename *)

Lemma clean_filename_unfold (filename : str) :
  clean_filename filename
  = if 255 <? Z.of_nat (length (sanitized filename))
    then slice_to (fst (splitext (sanitized filename)))
           (255 - Z.of_nat (length (snd (splitext (sanitized filename)))))
         ++ snd (splitext (sanitized filename))
    else sanitized filename.
Proof.
  unfold clean_filename, sanitized.
  destruct (255 <? _); [|reflexivity].
  destruct (splitext _); reflexivity.
Qed.

Lemma splitext_app (p : str) : fst (splitext p) ++ snd (splitext p) = p.
Proof.
  unfold splitext. destruct (_ && _); simpl.
  - unfold slice_to, slice_from. apply firstn_skipn.
  - apply app_nil_r.
Qed.

(** X3.  When the extension that [splitext] finds in the sanitized name
    has at most 255 characters, [clean_filename] returns at most 255
    characters. *)
Theorem clean_filename_length (filename : str) :
  (length (snd (splitext (sanitized filename))) <= 255)%nat ->
  (length (clean_filename filename) <= 255)%nat.
Proof.
  intros Hext. rewrite clean_filename_unfold.
  destruct (255 <? Z.of_nat (length (sanitized filename))) eqn:E.
  - rewrite slice_to_nonneg by lia.
    rewrite length_app, length_firstn. lia.
  - apply Z.ltb_ge in E. lia.
Qed.

Lemma clean_filename_length_witness :
  (length (clean_filename (pystr "report.txt")) <= 255)%nat.
Proof. apply (clean_filename_length (pystr "report.txt")). vm_compute. lia. Defined.

(** With a longer extension the bound is lost: the slice of the stem is
    empty and the whole extension is kept. *)
Lemma clean_filename_long_extension :
  length (clean_filename long_extension) = 301%nat.
Proof. vm_compute. reflexivity. Qed.

Lemma sub_whitespace_no_space (s : str) (in_run : bool) :
  Forall not_space (sub_whitespace_from in_run s).
Proof.
  revert in_run. induction s as [|c s IH]; intros in_run; simpl; [constructor|].
  destruct (isspace c) eqn:E.
  - destruct in_run; [apply IH|]. constructor; [reflexivity | apply IH].
  - constructor; [exact E | apply IH].
Qed.

Lemma lstrip_by_Forall (P : ascii -> Prop) (p : ascii -> bool) (s : str) :
  Forall P s -> Forall P (lstrip_by p s).
Proof.
  intros H. induction H as [|c s Hc Hs IH]; simpl; [constructor|].
  destruct (p c); [exact IH | constructor; assumption].
Qed.

Lemma strip_by_Forall (P : ascii -> Prop) (p : ascii -> bool) (s : str) :
  Forall P s -> Forall P (strip_by p s).
Proof.
  intros H. unfold strip_by, rstrip_by.
  apply Forall_rev, lstrip_by_Forall, Forall_rev, lstrip_by_Forall, H.
Qed.

Lemma sanitized_no_space (filename : str) : Forall not_space (sanitized filename).
Proof. apply strip_by_Forall, sub_whitespace_no_space. Qed.

(** X4.  Nothing [clean_filename] returns holds a whitespace character. *)
Theorem clean_filename_no_whitespace (filename : str) :
  Forall (fun c => isspace c = false) (clean_filename filename).
Proof.
  rewrite clean_filename_unfold.
  pose proof (sanitized_no_space filename) as Hs.
  destruct (255 <? _); [|exact Hs].
  rewrite <- (splitext_app (sanitized filename)) in Hs.
  apply Forall_app in Hs as [Hn He].
  apply Forall_app. split; [|exact He].
  unfold slice_to. apply Forall_take, Hn.
Qed.

(** ** Cleaning twice *)

Lemma lstrip_by_app_keep (p : ascii -> bool) (l r : str) (c : ascii) :
  p c = false -> lstrip_by p (l ++ c :: r) = lstrip_by p l ++ c :: r.
Proof.
  intros Hc. induction l as [|a l IH]; simpl.
  - rewrite Hc. reflexivity.
  - destruct (p a); [exact IH | reflexivity].
Qed.

Lemma lstrip_by_head (p : ascii -> bool) (s : str) :
  match lstrip_by p s with
  | [] => True
  | c :: _ => p c = false
  end.
Proof.
  induction s as [|a s IH]; simpl; [exact I|].
  destruct (p a) eqn:E; [exact IH | exact E].
Qed.

Lemma lstrip_by_fixed (p : ascii -> bool) (s : str) :
  match s with [] => True | c :: _ => p c = false end ->
  lstrip_by p s = s.
Proof. destruct s as [|c s]; simpl; [reflexivity|]. intros ->. reflexivity. Qed.

Lemma lstrip_by_idem (p : ascii -> bool) (s : str) :
  lstrip_by p (lstrip_by p s) = lstrip_by p s.
Proof. apply lstrip_by_fixed, lstrip_by_head. Qed.

Lemma rstrip_by_idem (p : ascii -> bool) (s : str) :
  rstrip_by p (rstrip_by p s) = rstrip_by p s.
Proof.
  unfold rstrip_by. rewrite rev_involutive, lstrip_by_idem. reflexivity.
Qed.

Lemma rstrip_by_cons_keep (p : ascii -> bool) (c : ascii) (s : str) :
  p c = false -> rstrip_by p (c :: s) = c :: rstrip_by p s.
Proof.
  intros Hc. unfold rstrip_by. simpl rev.
  rewrite lstrip_by_app_keep by exact Hc.
  rewrite rev_app_distr. reflexivity.
Qed.

Lemma strip_by_idem (p : ascii -> bool) (s : str) :
  strip_by p (strip_by p s) = strip_by p s.
Proof.
  unfold strip_by.
  pose proof (lstrip_by_head p s) as Hh.
  destruct (lstrip_by p s) as [|c t] eqn:E.
  - reflexivity.
  - rewrite (rstrip_by_cons_keep p c t Hh). simpl. rewrite Hh.
    rewrite <- (rstrip_by_cons_keep p c t Hh), rstrip_by_idem. reflexivity.
Qed.

Lemma sub_forbidden_fixed (s : str) :
  Forall allowed s -> sub_forbidden s = s.
Proof.
  intros H. unfold sub_forbidden. induction H as [|c s Hc Hs IH]; [reflexivity|].
  cbn [map]. unfold allowed in Hc. rewrite Hc, IH. reflexivity.
Qed.

Lemma sub_whitespace_fixed (s : str) :
  Forall not_space s -> sub_whitespace_from false s = s.
Proof.
  intros H. induction H as [|c s Hc Hs IH]; [reflexivity|].
  simpl. unfold not_space in Hc. rewrite Hc, IH. reflexivity.
Qed.

Lemma sanitized_allowed (filename : str) : Forall allowed (sanitized filename).
Proof.
  apply strip_by_allowed, sub_whitespace_allowed, sub_forbidden_allowed.
Qed.

Lemma sanitized_idem (filename : str) :
  sanitized (sanitized filename) = sanitized filename.
Proof.
  unfold sanitized at 1.
  rewrite (sub_forbidden_fixed _ (sanitized_allowed filename)).
  unfold sub_whitespace.
  rewrite (sub_whitespace_fixed _ (sanitized_no_space filename)).
  unfold sanitized, strip_chars. apply strip_by_idem.
Qed.

(** X5.  A name that [clean_filename] did not have to shorten is left as
    it is by a second pass: cleaning is idempotent on names of at most
    255 sanitized characters. *)
Theorem clean_filename_idempotent (filename : str) :
  (length (sanitized filename) <= 255)%nat ->
  clean_filename (clean_filename filename) = clean_filename filename.
Proof.
  intros Hlen.
  assert (clean_filename filename = sanitized filename) as Hc.
  { rewrite clean_filename_unfold.
    destruct (255 <? Z.of_nat (length (sanitized filename))) eqn:E;
      [apply Z.ltb_lt in E; lia | reflexivity]. }
  rewrite Hc, clean_filename_unfold, sanitized_idem.
  destruct (255 <? Z.of_nat (length (sanitized filename))) eqn:E;
    [apply Z.ltb_lt in E; lia | reflexivity].
Qed.

Lemma clean_filename_idempotent_witness :
  clean_filename (clean_filename (pystr " My File<>:Name.txt "))
  = clean_filename (pystr " My File<>:Name.txt ").
Proof.
  apply (clean_filename_idempotent (pystr " My File<>:Name.txt ")).
  vm_compute. lia.
Defined.

(** On a shortened name a second pass can change the result again. *)
Lemma clean_filename_twice_long_extension :
  clean_filename (clean_filename long_extension) <> clean_filename long_extension.
Proof. vm_compute. discriminate. Qed.

(** ** is_safe_path *)

(** A path that resolves to the base itself or to something below
    it is accepted. *)
Theorem is_safe_path_accepts_contained
    (resolve : str -> outcome resolved) (path base_path : str) (p b : resolved) :
  resolve path = Return p ->
  resolve base_path = Return b ->
  contained_in p b ->
  is_safe_path resolve path base_path = Return true.
Proof. apply is_safe_path_contained. Qed.

(** A file below the workspace, named through a detour. *)
Lemma is_safe_path_accepts_contained_witness :
  is_safe_path (resolve_lexical []) (pystr "/srv/workspace/a/../notes.txt")
    (pystr "/srv/workspace") = Return true.
Proof.
  apply (is_safe_path_accepts_contained (resolve_lexical [])
           (pystr "/srv/workspace/a/../notes.txt") (pystr "/srv/workspace")
           [pystr "srv"; pystr "workspace"; pystr "notes.txt"]
           [pystr "srv"; pystr "workspace"]).
  - vm_compute. reflexivity.
  - vm_compute. reflexivity.
  - exists [pystr "notes.txt"]. reflexivity.
Defined.

(** X6.  When resolving the path, or the base after it, raises
    [OSError] or [ValueError], [is_safe_path] returns false; an exception
    of another class is not caught. *)
Theorem is_safe_path_on_failure
    (resolve : str -> outcome resolved) (path base_path : str) (e : exn) :
  resolve path = Raise e
  \/ (exists p, resolve path = Return p /\ resolve base_path = Raise e) ->
  is_safe_path resolve path base_path
  = match exn_cls e with
    | OSError | ValueError => Return false
    | _ => Raise e
    end.
Proof.
  intros [Hp | [p [Hp Hb]]]; unfold is_safe_path;
    rewrite Hp; [|rewrite Hb]; simpl; destruct (exn_cls e); reflexivity.
Qed.

(** A path with a null character in it cannot be resolved. *)
Lemma is_safe_path_on_failure_witness :
  is_safe_path (resolve_lexical []) (pystr "/srv/workspace" ++ [zero])
    (pystr "/srv/workspace") = Return false.
Proof.
  apply (is_safe_path_on_failure (resolve_lexical [])
           (pystr "/srv/workspace" ++ [zero]) (pystr "/srv/workspace")
           (Exn ValueError (pystr "embedded null byte"))).
  left. vm_compute. reflexivity.
Defined.

End HelpersMoreFacts.

(* ===================================================================== *)
(** * The tool framework                                                  *)
(* ===================================================================== *)

Module BaseToolFacts.
Import Py BaseTool.

Section Framework.

Context {W : Type}.
Variable format_kwargs : gmap string value -> str.

Local Abbreviation safe_execute := (@safe_execute W format_kwargs).

Lemma execute_entries_app (a b : list event) :
  execute_entries (a ++ b) = execute_entries a ++ execute_entries b.
Proof. unfold execute_entries. apply List.filter_app. Qed.

(** A disabled tool: the answer is the fixed failure, and of the tool
    only [safe_execute] itself was entered. *)
Lemma safe_execute_disabled (t : BaseTool W) kwargs (m : machine W) :
  enabled t = false ->
  safe_execute t kwargs m
  = (Return (disabled_response t),
     {| world := world m;
        trace := trace m ++ [Entered (name t) In_safe_execute] |}).
Proof.
  intros H. unfold safe_execute, bind, emit, is_available. simpl.
  rewrite H. reflexivity.
Qed.

(** Rejected parameters: [validate_params] was entered, [execute] was
    not. *)
Lemma safe_execute_invalid (t : BaseTool W) kwargs (m : machine W) :
  enabled t = true ->
  validate_params t kwargs = Return false ->
  safe_execute t kwargs m
  = (Return (invalid_response format_kwargs kwargs),
     {| world := world m;
        trace := trace m ++ [Entered (name t) In_safe_execute]
                         ++ [Entered (name t) In_validate_params] |}).
Proof.
  intros He Hv.
  unfold safe_execute, try_except_Exception, call_validate_params,
    bind, emit, lift, is_available, ret. simpl.
  rewrite He, Hv. simpl. rewrite <- app_assoc. reflexivity.
Qed.

(** An exception of [validate_params] that derives from [Exception]. *)
Lemma safe_execute_validate_raises (t : BaseTool W) kwargs (m : machine W) e :
  enabled t = true ->
  validate_params t kwargs = Raise e ->
  derives_Exception (exn_cls e) = true ->
  exists m',
    safe_execute t kwargs m = (Return (exception_response e), m')
    /\ world m' = world m
    /\ execute_entries (trace m') = execute_entries (trace m).
Proof.
  intros He Hv Hd.
  unfold safe_execute, try_except_Exception, call_validate_params,
    bind, emit, lift, is_available, ret. simpl.
  rewrite He, Hv. simpl. rewrite Hd. simpl.
  eexists. split; [reflexivity|]. split; [reflexivity|]. simpl.
  rewrite !execute_entries_app. simpl. rewrite !app_nil_r. reflexivity.
Qed.

(** An exception of [execute] that derives from [Exception]. *)
Lemma safe_execute_execute_raises (t : BaseTool W) kwargs (m : machine W) e w :
  enabled t = true ->
  validate_params t kwargs = Return true ->
  execute t kwargs (world m) = (Raise e, w) ->
  derives_Exception (exn_cls e) = true ->
  exists m',
    safe_execute t kwargs m = (Return (exception_response e), m')
    /\ world m' = w.
Proof.
  intros He Hv Hx Hd.
  unfold safe_execute, try_except_Exception, call_validate_params,
    call_execute, bind, emit, lift, is_available, ret. simpl.
  rewrite He, Hv. simpl. rewrite Hx. simpl. rewrite Hd. simpl.
  eexists. split; reflexivity.
Qed.

(** What [execute] returns is handed on. *)
Lemma safe_execute_returns (t : BaseTool W) kwargs (m : machine W) r w :
  enabled t = true ->
  validate_params t kwargs = Return true ->
  execute t kwargs (world m) = (Return r, w) ->
  exists m', safe_execute t kwargs m = (Return r, m') /\ world m' = w.
Proof.
  intros He Hv Hx.
  unfold safe_execute, try_except_Exception, call_validate_params,
    call_execute, bind, emit, lift, is_available, ret. simpl.
  rewrite He, Hv. simpl. rewrite Hx. simpl.
  destruct (success r); simpl; eexists; split; reflexivity.
Qed.

(** Whatever leaves [safe_execute] as an exception does not derive from
    [Exception]. *)
Lemma safe_execute_escapes (t : BaseTool W) kwargs (m : machine W) e :
  fst (safe_execute t kwargs m) = Raise e ->
  derives_Exception (exn_cls e) = false.
Proof.
  unfold safe_execute, try_except_Exception, call_validate_params,
    call_execute, bind, emit, lift, is_available, ret. simpl.
  destruct (enabled t); simpl; [|discriminate].
  destruct (validate_params t kwargs) as [[|]|e1] eqn:Hv; simpl.
  - destruct (execute t kwargs (world m)) as [[r|e2] w] eqn:Hx; simpl.
    + destruct (success r); simpl; discriminate.
    + destruct (derives_Exception (exn_cls e2)) eqn:Hd; simpl.
      * discriminate.
      * intros H. injection H as <-. exact Hd.
  - discriminate.
  - destruct (derives_Exception (exn_cls e1)) eqn:Hd; simpl.
    + discriminate.
    + intros H. injection H as <-. exact Hd.
Qed.

(** An exception of [validate_params] that does not derive from
    [Exception] is handed on; [execute] is not entered. *)
Lemma safe_execute_validate_propagates (t : BaseTool W) kwargs (m : machine W) e :
  enabled t = true ->
  validate_params t kwargs = Raise e ->
  derives_Exception (exn_cls e) = false ->
  exists m',
    safe_execute t kwargs m = (Raise e, m')
    /\ world m' = world m
    /\ execute_entries (trace m') = execute_entries (trace m).
Proof.
  intros He Hv Hd.
  unfold safe_execute, try_except_Exception, call_validate_params,
    bind, emit, lift, is_available, ret. simpl.
  rewrite He, Hv. simpl. rewrite Hd. simpl.
  eexists. split; [reflexivity|]. split; [reflexivity|]. simpl.
  rewrite !execute_entries_app. simpl. rewrite !app_nil_r. reflexivity.
Qed.

(** An exception of [execute] that does not derive from [Exception] is
    handed on, with the world as [execute] left it. *)
Lemma safe_execute_execute_propagates (t : BaseTool W) kwargs (m : machine W) e w :
  enabled t = true ->
  validate_params t kwargs = Return true ->
  execute t kwargs (world m) = (Raise e, w) ->
  derives_Exception (exn_cls e) = false ->
  exists m', safe_execute t kwargs m = (Raise e, m') /\ world m' = w.
Proof.
  intros He Hv Hx Hd.
  unfold safe_execute, try_except_Exception, call_validate_params,
    call_execute, bind, emit, lift, is_available, ret. simpl.
  rewrite He, Hv. simpl. rewrite Hx. simpl. rewrite Hd. simpl.
  eexists. split; reflexivity.
Qed.

End Framework.

(** C2, as amended.  [safe_execute] lets no exception that derives from
    [Exception] escape.  A disabled tool gets the disabled failure and
    its [execute] is not entered; rejected parameters get the
    invalid-parameters failure and [execute] is not entered; an exception
    of [execute] that derives from [Exception] becomes a failure whose
    [error] is the text of the exception, and so does such an exception of
    [validate_params].  An exception that does not derive from
    [Exception], as [KeyboardInterrupt], [SystemExit] and
    [asyncio.CancelledError] do not, is not caught: raised by
    [validate_params] or by [execute], it leaves [safe_execute] as it
    is. *)
Theorem safe_execute_contains_Exception
    {W : Type} (fmt : gmap string value -> str)
    (t : BaseTool W) (kwargs : gmap string value) (m : machine W) :
  (forall e, fst (safe_execute fmt t kwargs m) = Raise e ->
             derives_Exception (exn_cls e) = false)
  /\ (enabled t = false ->
      exists m', safe_execute fmt t kwargs m = (Return (disabled_response t), m')
                 /\ error (disabled_response t) = Some (pystr "Tool disabled")
                 /\ world m' = world m
                 /\ execute_entries (trace m') = execute_entries (trace m))
  /\ (enabled t = true -> validate_params t kwargs = Return false ->
      exists m', safe_execute fmt t kwargs m
                 = (Return (invalid_response fmt kwargs), m')
                 /\ error (invalid_response fmt kwargs)
                    = Some (pystr "Invalid parameters")
                 /\ world m' = world m
                 /\ execute_entries (trace m') = execute_entries (trace m))
  /\ (forall e w,
      enabled t = true -> validate_params t kwargs = Return true ->
      execute t kwargs (world m) = (Raise e, w) ->
      derives_Exception (exn_cls e) = true ->
      exists r m', safe_execute fmt t kwargs m = (Return r, m')
                   /\ success r = false /\ error r = Some (exn_text e))
  /\ (forall e,
      enabled t = true -> validate_params t kwargs = Raise e ->
      derives_Exception (exn_cls e) = true ->
      exists r m', safe_execute fmt t kwargs m = (Return r, m')
                   /\ success r = false /\ error r = Some (exn_text e)
                   /\ world m' = world m
                   /\ execute_entries (trace m') = execute_entries (trace m))
  /\ (forall e w,
      enabled t = true -> validate_params t kwargs = Return true ->
      execute t kwargs (world m) = (Raise e, w) ->
      derives_Exception (exn_cls e) = false ->
      exists m', safe_execute fmt t kwargs m = (Raise e, m') /\ world m' = w)
  /\ (forall e,
      enabled t = true -> validate_params t kwargs = Raise e ->
      derives_Exception (exn_cls e) = false ->
      exists m', safe_execute fmt t kwargs m = (Raise e, m')
                 /\ world m' = world m
                 /\ execute_entries (trace m') = execute_entries (trace m))
  /\ derives_Exception KeyboardInterrupt = false
  /\ derives_Exception SystemExit = false
  /\ derives_Exception CancelledError = false.
Proof.
  split; [|split; [|split; [|split; [|split; [|split; [|split; [|auto]]]]]]].
  - intros e. apply safe_execute_escapes.
  - intros H. eexists. split; [apply safe_execute_disabled, H|].
    simpl. rewrite execute_entries_app. simpl. rewrite app_nil_r. auto.
  - intros He Hv. eexists. split; [apply safe_execute_invalid; assumption|].
    simpl. rewrite !execute_entries_app. simpl. rewrite !app_nil_r. auto.
  - intros e w He Hv Hx Hd.
    destruct (safe_execute_execute_raises fmt t kwargs m e w He Hv Hx Hd)
      as [m' [H _]].
    exists (exception_response e), m'. auto.
  - intros e He Hv Hd.
    destruct (safe_execute_validate_raises fmt t kwargs m e He Hv Hd)
      as [m' [H [Hw Ht]]].
    exists (exception_response e), m'. auto.
  - intros e w. apply safe_execute_execute_propagates.
  - intros e. apply safe_execute_validate_propagates.
Qed.

(** At a tool that raises [ValueError('boom')]: the failure carries the
    text. *)
Lemma safe_execute_contains_Exception_witness :
  exists r m',
    safe_execute Samples.format_kwargs Samples.failing_tool ∅ Samples.start
    = (Return r, m')
    /\ success r = false /\ error r = Some (pystr "boom").
Proof.
  destruct (safe_execute_contains_Exception Samples.format_kwargs
              Samples.failing_tool ∅ Samples.start) as [_ [_ [_ [H _]]]].
  apply (H (Exn ValueError (pystr "boom")) tt); reflexivity.
Defined.

(** C2, as stated, fails: an interrupt from the keyboard inside [execute]
    leaves [safe_execute] as an exception. *)
Lemma safe_execute_lets_interrupt_escape :
  ~ (forall (t : BaseTool unit) (kwargs : gmap string value) (m : machine unit),
       exists r, fst (safe_execute Samples.format_kwargs t kwargs m) = Return r).
Proof.
  intros H.
  destruct (H Samples.interrupted_tool ∅ Samples.start) as [r Hr].
  vm_compute in Hr. discriminate.
Qed.

(** C10.  For a name the registry does not hold, [execute_tool] returns
    the not-found failure and leaves the machine as it was: no method of
    any tool is entered.  For a name it holds, it is [safe_execute] of
    that tool. *)
Theorem execute_tool_dispatch
    {W : Type} (fmt : gmap string value -> str)
    (reg : ToolRegistry W) (tool_name : str)
    (kwargs : gmap string value) (m : machine W) :
  (tools reg !! tool_name = None ->
   execute_tool fmt reg tool_name kwargs m
   = (Return (not_found_response tool_name), m)
   /\ success (not_found_response tool_name) = false
   /\ error (not_found_response tool_name) = Some (pystr "Tool not found"))
  /\ (forall t, tools reg !! tool_name = Some t ->
      execute_tool fmt reg tool_name kwargs m = safe_execute fmt t kwargs m).
Proof.
  unfold execute_tool, get_tool. split.
  - intros ->. auto.
  - intros t ->. reflexivity.
Qed.

(** At the sample registry: [not_a_tool] is unknown, [echo_tool] is
    dispatched. *)
Lemma execute_tool_dispatch_witness :
  (execute_tool Samples.format_kwargs Samples.registry (pystr "not_a_tool") ∅
     Samples.start
   = (Return (not_found_response (pystr "not_a_tool")), Samples.start)
   /\ success (not_found_response (pystr "not_a_tool")) = false
   /\ error (not_found_response (pystr "not_a_tool"))
      = Some (pystr "Tool not found"))
  /\ execute_tool Samples.format_kwargs Samples.registry (pystr "echo_tool") ∅
       Samples.start
     = safe_execute Samples.format_kwargs Samples.echo_tool ∅ Samples.start.
Proof.
  split.
  - apply (execute_tool_dispatch Samples.format_kwargs Samples.registry
             (pystr "not_a_tool") ∅ Samples.start).
    vm_compute. reflexivity.
  - apply (execute_tool_dispatch Samples.format_kwargs Samples.registry
             (pystr "echo_tool") ∅ Samples.start).
    vm_compute. reflexivity.
Defined.

End BaseToolFacts.

(* ===================================================================== *)
(** * The settings                                                        *)
(* ===================================================================== *)

Module SettingsFacts.
Import Py Settings SettingsSpec.

(** ** validate *)

Lemma guarded_le_0 (v : value) :
  guarded (py_le v (VInt 0))
  = Return (if fails_le_0 v then Returned false else Continue).
Proof.
  unfold guarded, py_le, fails_le_0.
  destruct (as_number v) as [x|]; cbn -[float_le]; [|reflexivity].
  change (inject_Z 0) with (0%Q). destruct (float_le x (Finite 0)); reflexivity.
Qed.

Lemma guarded_0_2 (v : value) :
  guarded (not_in_0_2 v)
  = Return (if fails_0_2 v then Returned false else Continue).
Proof.
  unfold guarded, not_in_0_2, py_le, fails_0_2.
  destruct (as_number v) as [x|]; cbn -[float_le]; [|reflexivity].
  change (inject_Z 0) with (0%Q). change (inject_Z 2) with (2%Q).
  destruct (float_le (Finite 0) x); cbn -[float_le]; [|reflexivity].
  destruct (float_le x (Finite 2)); reflexivity.
Qed.



(** [validate] as one Boolean expression. *)
Lemma validate_eq (s : t) :
  validate s
  = Return (truthy (AgentConfig.api_key (agent s))
            && truthy (AgentConfig.base_url (agent s))
            && negb (fails_le_0 (AgentConfig.max_tokens (agent s)))
            && negb (fails_0_2 (AgentConfig.temperature (agent s)))
            && negb (fails_le_0 (WorkspaceConfig.max_size_mb (workspace s)))
            && negb (fails_le_0 (BrowserConfig.timeout_seconds (browser s)))
            && negb (fails_le_0 (SearchConfig.max_results (search s)))).
Proof.
  unfold validate. rewrite !guarded_le_0, guarded_0_2.
  destruct (truthy (AgentConfig.api_key (agent s))); [|reflexivity].
  destruct (truthy (AgentConfig.base_url (agent s))); [|reflexivity].
  destruct (fails_le_0 (AgentConfig.max_tokens (agent s))); [reflexivity|].
  destruct (fails_0_2 (AgentConfig.temperature (agent s))); [reflexivity|].
  destruct (fails_le_0 (WorkspaceConfig.max_size_mb (workspace s))); [reflexivity|].
  destruct (fails_le_0 (BrowserConfig.timeout_seconds (browser s))); [reflexivity|].
  destruct (fails_le_0 (SearchConfig.max_results (search s))); reflexivity.
Qed.


(** The same on settings whose fields have the annotated types: strings,
    integers and a finite float. *)
Lemma validate_well_typed (api_key base_url : str) (max_tokens : Z)
    (temperature : Q) (max_size_mb timeout_seconds max_results : Z) :
  validate (TypedSettings.make api_key base_url max_tokens temperature
              max_size_mb timeout_seconds max_results) = Return false
  <-> api_key = [] \/ base_url = [] \/ max_tokens <= 0
      \/ ~ (0 <= temperature /\ temperature <= 2)%Q
      \/ max_size_mb <= 0 \/ timeout_seconds <= 0 \/ max_results <= 0.
Proof.
  assert (Hint : forall z, fails_le_0 (VInt z) = true <-> z <= 0).
  { intros z. unfold fails_le_0. cbn -[Qle_bool].
    rewrite Qle_bool_iff. change 0%Q with (inject_Z 0). rewrite <- Zle_Qle.
    reflexivity. }
  assert (Hstr : forall x : str, truthy (VStr x) = false <-> x = []).
  { intros [|c x]; simpl; split; congruence. }
  assert (Htemp : fails_0_2 (VFloat (Finite temperature)) = true
                  <-> ~ (0 <= temperature /\ temperature <= 2)%Q).
  { unfold fails_0_2. cbn -[Qle_bool].
    rewrite negb_true_iff, andb_false_iff, <- !not_true_iff_false, !Qle_bool_iff.
    split; [tauto|]. intros H.
    destruct (Qlt_le_dec temperature 0) as [Hlt|Hge].
    - left. intros Hle. apply (Qlt_not_le _ _ Hlt Hle).
    - right. tauto. }
  rewrite validate_eq. unfold TypedSettings.make.
  cbn [agent workspace browser search AgentConfig.api_key AgentConfig.base_url
       AgentConfig.max_tokens AgentConfig.temperature
       WorkspaceConfig.max_size_mb BrowserConfig.timeout_seconds
       SearchConfig.max_results].
  rewrite <- (Hstr api_key), <- (Hstr base_url), <- Htemp,
    <- (Hint max_tokens), <- (Hint max_size_mb), <- (Hint timeout_seconds),
    <- (Hint max_results).
  destruct (truthy (VStr api_key)); destruct (truthy (VStr base_url));
    destruct (fails_le_0 (VInt max_tokens));
    destruct (fails_0_2 (VFloat (Finite temperature)));
    destruct (fails_le_0 (VInt max_size_mb));
    destruct (fails_le_0 (VInt timeout_seconds));
    destruct (fails_le_0 (VInt max_results));
    simpl; split; intros H; try reflexivity; try tauto;
    try discriminate; intuition discriminate.
Qed.

End SettingsFacts.

Module SettingsFileFacts.
Import Py Settings SettingsSpec.

Lemma build_config_data (s : t) : build (config_data s) = Return s.
Proof.
  destruct s as [[a1 a2 a3 a4 a5 a6] [w1 w2 w3] [b1 b2 b3] [s1 s2 s3 s4]
                 [t1 t2 t3 t4] [l1 l2 l3 l4] [c1 c2 c3]].
  vm_compute. reflexivity.
Qed.

Lemma config_data_truthy (s : t) : truthy (config_data s) = true.
Proof.
  destruct s as [[a1 a2 a3 a4 a5 a6] [w1 w2 w3] [b1 b2 b3] [s1 s2 s3 s4]
                 [t1 t2 t3 t4] [l1 l2 l3 l4] [c1 c2 c3]].
  vm_compute. reflexivity.
Qed.

(** What [load_from_file] makes of a file that [save_to_file] has just
    written: the settings built from whatever PyYAML reads back. *)
Lemma save_then_load_as_read
    (text : Type) (yaml_dump : value -> text)
    (yaml_safe_load : text -> outcome value)
    (s : t) (config_file : str) (fs : filesystem text) :
  writable fs config_file = true ->
  load_from_file yaml_safe_load config_file
    (save_to_file yaml_dump s config_file fs)
  = try_except derives_Exception
      (obind (yaml_safe_load (yaml_dump (config_data s))) (fun document =>
       if negb (truthy document) then Return default else build document))
      (fun _ => Return default).
Proof.
  intros Hw. unfold load_from_file, save_to_file. rewrite Hw.
  cbn [files]. rewrite lookup_insert_eq. reflexivity.
Qed.

(** C9, as amended.  When the file can be written and PyYAML reads back
    the document it dumped, [load_from_file] after [save_to_file] returns
    the very settings that were saved: every field of every section. *)
Theorem save_then_load
    (text : Type) (yaml_dump : value -> text)
    (yaml_safe_load : text -> outcome value)
    (s : t) (config_file : str) (fs : filesystem text) :
  writable fs config_file = true ->
  yaml_safe_load (yaml_dump (config_data s)) = Return (config_data s) ->
  load_from_file yaml_safe_load config_file
    (save_to_file yaml_dump s config_file fs)
  = Return s.
Proof.
  intros Hw Hyaml. rewrite save_then_load_as_read by exact Hw.
  rewrite Hyaml. cbn [obind].
  rewrite config_data_truthy. cbn [negb].
  rewrite build_config_data. reflexivity.
Qed.

(** Settings with an API key of plain characters, written to
    [config.yaml] on an empty disk and read back by the stand-in that
    folds a next-line character. *)
Lemma save_then_load_witness :
  load_from_file load_folding (pystr "config.yaml")
    (save_to_file dump_id (with_api_key (pystr "sk-test")) (pystr "config.yaml")
       empty_disk)
  = Return (with_api_key (pystr "sk-test")).
Proof.
  apply (save_then_load value dump_id load_folding (with_api_key (pystr "sk-test"))
           (pystr "config.yaml") empty_disk).
  - reflexivity.
  - vm_compute. reflexivity.
Defined.

(** C9, as stated, fails: an API key that holds the next-line character
    U+0085 between [a] and [b] is written as a line break and read back
    as a space, so the settings that are loaded are not the settings that
    were saved. *)
Lemma save_then_load_loses_next_line :
  load_from_file load_folding (pystr "config.yaml")
    (save_to_file dump_id (with_api_key key_with_next_line) (pystr "config.yaml")
       empty_disk)
  = Return (with_api_key (pystr "a b"))
  /\ AgentConfig.api_key (agent (with_api_key (pystr "a b")))
     <> AgentConfig.api_key (agent (with_api_key key_with_next_line)).
Proof.
  split; [vm_compute; reflexivity|].
  vm_compute. discriminate.
Qed.

End SettingsFileFacts.

(* ===================================================================== *)
(** * The file tool                                                       *)
(* ===================================================================== *)

Module FileToolFacts.
Import Py PyFacts BaseTool Helpers HelpersFacts FileTool.

Lemma slice_to_firstn {A} (l : list A) (n : Z) :
  0 <= n -> slice_to l n = firstn (Z.to_nat n) l.
Proof.
  intros Hn. unfold slice_to, clamp.
  destruct (n <? 0) eqn:E; [apply Z.ltb_lt in E; lia|].
  destruct (Z_le_gt_dec (Z.of_nat (length l)) n) as [Hle|Hgt].
  - rewrite Z.min_l, Z.max_r, Nat2Z.id by lia.
    rewrite !firstn_all2 by lia. reflexivity.
  - rewrite Z.min_r, Z.max_r by lia. reflexivity.
Qed.

Section Read.

Context {WS : Type}.
Variable wm_read_file : str -> str -> WS -> outcome (option str) * WS.
Variable wm_resolve_path : str -> WS -> outcome str * WS.
Variable wm_get_file_info : str -> WS -> outcome (option (gmap string value)) * WS.
Variable guess_type : str -> option str.

Local Abbreviation read :=
  (_read_file wm_read_file wm_resolve_path wm_get_file_info guess_type).

(** A file that is read and whose guessed type is not an application
    type: the response of [_read_file]. *)
Lemma read_text (path encoding content full_path : str) (st : state WS) w1 w2 :
  wm_read_file path encoding (ws st) = (Return (Some content), w1) ->
  wm_resolve_path path w1 = (Return full_path, w2) ->
  is_binary (guess_type full_path) = false ->
  exists resp st',
    read path encoding st = (Return resp, st')
    /\ success resp = true
    /\ data_field "type" resp = Some (VStr (pystr "text"))
    /\ data_field "content" resp
       = Some (VStr (if 50000 <? Z.of_nat (length content)
                     then firstn 5000 content ++ truncation_note
                     else content))
    /\ (50000 < Z.of_nat (length content) ->
        data_field "full_length" resp = Some (VInt (Z.of_nat (length content)))).
Proof.
  intros Hread Hres Hbin.
  unfold _read_file, ftry, fbind, call, fret. cbn [ws calls].
  rewrite Hread. cbn [ws calls]. rewrite Hres, Hbin.
  destruct (50000 <? Z.of_nat (length content)) eqn:Hlen.
  - eexists _, _. split; [reflexivity|].
    split; [reflexivity|]. unfold data_field, ok, len. cbn [data].
    rewrite slice_to_firstn by lia.
    repeat split; intros;
      repeat (rewrite lookup_insert_ne by discriminate);
      apply lookup_insert_eq.
  - eexists _, _. split; [reflexivity|].
    split; [reflexivity|]. unfold data_field, ok, len. cbn [data].
    apply Z.ltb_ge in Hlen.
    repeat split; intros; try lia;
      repeat (rewrite lookup_insert_ne by discriminate);
      apply lookup_insert_eq.
Qed.

(** The test of [_read_file] on the guessed type, in words: the type is
    there and begins with [application/]. *)
Lemma is_binary_iff (mime_type : option str) :
  is_binary mime_type = true
  <-> exists m, mime_type = Some m /\ startswith (pystr "application/") m = true.
Proof.
  unfold is_binary. split.
  - destruct mime_type as [m|]; [|discriminate].
    intros H. apply andb_true_iff in H. destruct H as [_ H].
    exists m. split; [reflexivity | exact H].
  - intros [m [-> H]]. rewrite H.
    destruct m as [|c m]; [discriminate H | reflexivity].
Qed.

(** A file that is read and whose guessed type is an application type:
    whatever the response, it holds no content; and when the file
    information is had, it is the description of a binary file. *)
Lemma read_binary (path encoding content full_path m : str) (st : state WS) w1 w2 :
  wm_read_file path encoding (ws st) = (Return (Some content), w1) ->
  wm_resolve_path path w1 = (Return full_path, w2) ->
  guess_type full_path = Some m ->
  startswith (pystr "application/") m = true ->
  (forall resp st', read path encoding st = (Return resp, st') ->
     data_field "content" resp = None)
  /\ (forall info w3,
        wm_get_file_info path w2 = (Return info, w3) ->
        exists resp,
          read path encoding st
          = (Return resp,
             {| ws := w3;
                calls := calls st ++ [Read_file path encoding; Resolve_path path;
                                      Get_file_info path] |})
          /\ success resp = true
          /\ data_field "type" resp = Some (VStr (pystr "binary"))
          /\ data_field "mime_type" resp = Some (VStr m)
          /\ data_field "content" resp = None).
Proof.
  intros Hread Hres Hg Hs.
  assert (is_binary (guess_type full_path) = true) as Hbin
    by (apply is_binary_iff; exists m; split; assumption).
  unfold _read_file, ftry, fbind, call, fret. cbn [ws calls].
  rewrite Hread. cbn [ws calls]. rewrite Hres, Hbin. cbn [ws calls].
  rewrite Hg.
  destruct (wm_get_file_info path w2) as [[info|e] w3] eqn:Hinfo.
  - split.
    + intros resp st' H. injection H as <- _.
      unfold data_field, ok. cbn [data].
      repeat (rewrite lookup_insert_ne by discriminate). reflexivity.
    + intros info' w3' H. injection H as <- <-.
      eexists. split; [rewrite <- !app_assoc; reflexivity|].
      split; [reflexivity|]. unfold data_field, ok. cbn [data].
      repeat split;
        repeat (rewrite lookup_insert_ne by discriminate);
        try apply lookup_insert_eq; reflexivity.
  - split; [|intros info w3' H; discriminate H].
    destruct (derives_Exception (exn_cls e)).
    + intros resp st' H. injection H as <- _. reflexivity.
    + intros resp st' H. discriminate H.
Qed.

End Read.

(** A guarded block inside a guarded block: the outer handler has nothing
    left to catch. *)
Lemma ftry_ftry {WS A : Type} (body : FM WS A) (f : exn -> A)
    (outer : exn -> FM WS A) (st : state WS) :
  ftry (ftry body (fun e => fret (f e))) outer st
  = ftry body (fun e => fret (f e)) st.
Proof.
  unfold ftry, fret. destruct (body st) as [[a|e] st']; [reflexivity|].
  destruct (derives_Exception (exn_cls e)) eqn:Hd; [reflexivity|].
  rewrite Hd. reflexivity.
Qed.

(** The read action of [execute] with a non-empty path is [_read_file] on
    that path; an absent encoding is [utf-8]. *)
Lemma execute_read
    {WS : Type}
    (wm_read_file : str -> str -> WS -> outcome (option str) * WS)
    (wm_resolve_path : str -> WS -> outcome str * WS)
    (wm_get_file_info : str -> WS -> outcome (option (gmap string value)) * WS)
    (wm_write_file : str -> str -> str -> WS -> outcome bool * WS)
    (guess_type : str -> option str)
    (elsewhere : gmap string value -> WS -> outcome ToolResponse * WS)
    (kwargs : gmap string value) (path encoding : str) (st : state WS) :
  kwarg kwargs "action" VNone = VStr (pystr "read") ->
  kwarg kwargs "path" (VStr []) = VStr path ->
  path <> [] ->
  kwarg kwargs "encoding" utf8 = VStr encoding ->
  execute wm_read_file wm_resolve_path wm_get_file_info wm_write_file
    guess_type elsewhere kwargs st
  = _read_file wm_read_file wm_resolve_path wm_get_file_info guess_type
      path encoding st.
Proof.
  intros Ha Hp Hne He. unfold execute. cbv zeta. rewrite Ha, Hp, He.
  destruct path as [|c path]; [congruence|].
  change (str_eq (VStr (pystr "read")) (pystr "read")) with true.
  change (truthy (VStr (pystr "read"))) with true.
  cbn [truthy negb length Nat.eqb andb]. cbv iota.
  unfold _read_file at 1. apply ftry_ftry.
Qed.

(** C5, as amended.  For a file of the workspace that can be read and
    whose guessed MIME type does not begin with [application/], the read
    action returns the content in full when it has at most 50,000
    characters, and otherwise the first 5,000 characters followed by the
    truncation note, with [full_length] the true length.  For a file
    whose guessed MIME type begins with [application/] no response holds
    any content: when the file information is had, the response is the
    description of a binary file, with the type that was guessed. *)
Theorem read_file_truncates_long_text
    {WS : Type}
    (wm_read_file : str -> str -> WS -> outcome (option str) * WS)
    (wm_resolve_path : str -> WS -> outcome str * WS)
    (wm_get_file_info : str -> WS -> outcome (option (gmap string value)) * WS)
    (guess_type : str -> option str)
    (path encoding content full_path : str) (st : state WS) (w1 w2 : WS) :
  wm_read_file path encoding (ws st) = (Return (Some content), w1) ->
  wm_resolve_path path w1 = (Return full_path, w2) ->
  (is_binary (guess_type full_path) = false ->
   exists resp st',
     _read_file wm_read_file wm_resolve_path wm_get_file_info guess_type
       path encoding st = (Return resp, st')
     /\ success resp = true
     /\ (Z.of_nat (length content) <= 50000 ->
         data_field "content" resp = Some (VStr content))
     /\ (50000 < Z.of_nat (length content) ->
         data_field "content" resp
         = Some (VStr (firstn 5000 content ++ truncation_note))
         /\ data_field "full_length" resp
            = Some (VInt (Z.of_nat (length content)))))
  /\ (forall m,
        guess_type full_path = Some m ->
        startswith (pystr "application/") m = true ->
        (forall resp st',
           _read_file wm_read_file wm_resolve_path wm_get_file_info guess_type
             path encoding st = (Return resp, st') ->
           data_field "content" resp = None)
        /\ (forall info w3,
              wm_get_file_info path w2 = (Return info, w3) ->
              exists resp,
                _read_file wm_read_file wm_resolve_path wm_get_file_info
                  guess_type path encoding st
                = (Return resp,
                   {| ws := w3;
                      calls := calls st ++ [Read_file path encoding;
                                            Resolve_path path;
                                            Get_file_info path] |})
                /\ success resp = true
                /\ data_field "type" resp = Some (VStr (pystr "binary"))
                /\ data_field "mime_type" resp = Some (VStr m)
                /\ data_field "content" resp = None))
  /\ (is_binary (guess_type full_path) = true
      <-> exists m, guess_type full_path = Some m
                    /\ startswith (pystr "application/") m = true).
Proof.
  intros Hread Hres. split; [|split].
  - intros Hbin.
    destruct (read_text wm_read_file wm_resolve_path wm_get_file_info guess_type
                path encoding content full_path st w1 w2 Hread Hres Hbin)
      as [resp [st' [Hrun [Hok [_ [Hcontent Hfull]]]]]].
    exists resp, st'. split; [exact Hrun|]. split; [exact Hok|]. split.
    + intros Hle. rewrite Hcontent.
      destruct (50000 <? Z.of_nat (length content)) eqn:E; [|reflexivity].
      apply Z.ltb_lt in E. lia.
    + intros Hgt. split; [|apply Hfull, Hgt].
      rewrite Hcontent.
      destruct (50000 <? Z.of_nat (length content)) eqn:E; [reflexivity|].
      apply Z.ltb_ge in E. lia.
  - intros m Hg Hs.
    exact (read_binary wm_read_file wm_resolve_path wm_get_file_info guess_type
             path encoding content full_path m st w1 w2 Hread Hres Hg Hs).
  - apply is_binary_iff.
Qed.

(** A note of five characters kept as [notes.txt] is returned in full. *)
Lemma read_file_truncates_long_text_witness :
  exists resp st',
    _read_file Workspace.read_file Workspace.resolve_path
      Workspace.get_file_info guess_type_sample
      (pystr "notes.txt") (pystr "utf-8") Workspace.with_notes
    = (Return resp, st')
    /\ success resp = true
    /\ (Z.of_nat (length (pystr "hello")) <= 50000 ->
        data_field "content" resp = Some (VStr (pystr "hello")))
    /\ (50000 < Z.of_nat (length (pystr "hello")) ->
        data_field "content" resp
        = Some (VStr (firstn 5000 (pystr "hello") ++ truncation_note))
        /\ data_field "full_length" resp
           = Some (VInt (Z.of_nat (length (pystr "hello"))))).
Proof.
  refine (proj1 (read_file_truncates_long_text Workspace.read_file
                   Workspace.resolve_path Workspace.get_file_info
                   guess_type_sample
                   (pystr "notes.txt") (pystr "utf-8") (pystr "hello")
                   (Workspace.root ++ pystr "notes.txt") Workspace.with_notes
                   (ws Workspace.with_notes) (ws Workspace.with_notes) _ _) _);
    vm_compute; reflexivity.
Defined.

(** A text of 60,000 characters kept as [big.txt]: the response holds the
    first 5,000 and the note, and [full_length] is 60,000. *)
Lemma read_big_text :
  match fst (_read_file Workspace.read_file Workspace.resolve_path
               Workspace.get_file_info guess_type_sample
               (pystr "big.txt") (pystr "utf-8") Workspace.with_big_text) with
  | Return resp =>
      data_field "content" resp
      = Some (VStr (repeat "a"%char 5000 ++ truncation_note))
      /\ data_field "full_length" resp = Some (VInt 60000)
  | Raise _ => False
  end.
Proof. vm_compute. split; reflexivity. Qed.

(** C5, as stated, fails: [data.json] is a readable text of two
    characters, and the read action returns no content for it, only the
    description of a binary file. *)
Lemma read_file_json_has_no_content :
  exists resp st',
    _read_file Workspace.read_file Workspace.resolve_path
      Workspace.get_file_info guess_type_sample
      (pystr "data.json") (pystr "utf-8") Workspace.with_json
    = (Return resp, st')
    /\ success resp = true
    /\ data_field "type" resp = Some (VStr (pystr "binary"))
    /\ data_field "content" resp = None.
Proof.
  eexists _, _. split; [vm_compute; reflexivity|].
  repeat split; vm_compute; reflexivity.
Qed.

End FileToolFacts.

Module FileToolWriteFacts.
Import Py PyFacts BaseTool Helpers HelpersFacts HelpersMore HelpersMoreFacts FileTool.

Section Write.

Context {WS : Type}.
Variable wm_write_file : str -> str -> str -> WS -> outcome bool * WS.

(** [_write_file] calls the Workspace Manager once, with the cleaned
    name; a successful response reports that name. *)
Lemma write_file_call (path content encoding : str) (st : state WS) :
  exists r st',
    _write_file wm_write_file path content encoding st = (r, st')
    /\ calls st' = calls st ++ [Write_file (clean_filename path) content encoding]
    /\ (forall resp, r = Return resp -> success resp = true ->
        data_field "path" resp = Some (VStr (clean_filename path))).
Proof.
  unfold _write_file, ftry, fbind, call, fret.
  destruct (wm_write_file (clean_filename path) content encoding (ws st))
    as [[[|]|e] w] eqn:Hw; cbn [calls ws].
  - eexists _, _. split; [reflexivity|]. split; [reflexivity|].
    intros resp H _. injection H as <-. unfold data_field, ok. cbn [data].
    apply lookup_insert_eq.
  - eexists _, _. split; [reflexivity|]. split; [reflexivity|].
    intros resp H Hs. injection H as <-. discriminate.
  - destruct (derives_Exception (exn_cls e)).
    + eexists _, _. split; [reflexivity|]. split; [reflexivity|].
      intros resp H Hs. injection H as <-. discriminate.
    + eexists _, _. split; [reflexivity|]. split; [reflexivity|].
      intros resp H. discriminate.
Qed.

(** What [_write_file] asks of the Workspace Manager and what it makes of
    the answer: the state is the one the manager leaves, and the response
    follows what the manager returned. *)
Lemma write_file_run (path content encoding : str) (st : state WS) :
  let asked := wm_write_file (clean_filename path) content encoding (ws st) in
  let run := _write_file wm_write_file path content encoding st in
  snd run
  = {| ws := snd asked;
       calls := calls st ++ [Write_file (clean_filename path) content encoding] |}
  /\ match fst asked with
     | Return true =>
         exists resp, fst run = Return resp
                      /\ success resp = true
                      /\ data_field "path" resp = Some (VStr (clean_filename path))
     | Return false =>
         exists resp, fst run = Return resp
                      /\ success resp = false
                      /\ error resp = Some (pystr "Failed to write file")
     | Raise e =>
         if derives_Exception (exn_cls e)
         then exists resp, fst run = Return resp
                           /\ success resp = false
                           /\ error resp = Some (exn_text e)
         else fst run = Raise e
     end.
Proof.
  cbv zeta. unfold _write_file, ftry, fbind, call, fret.
  destruct (wm_write_file (clean_filename path) content encoding (ws st))
    as [[[|]|e] w] eqn:Hw; cbn [calls ws fst snd].
  - split; [reflexivity|]. eexists. split; [reflexivity|].
    split; [reflexivity|]. unfold data_field, ok. cbn [data].
    apply lookup_insert_eq.
  - split; [reflexivity|]. eexists. repeat split; reflexivity.
  - destruct (derives_Exception (exn_cls e)); cbn [fst snd].
    + split; [reflexivity|]. eexists. repeat split; reflexivity.
    + split; reflexivity.
Qed.

End Write.

Lemma sub_forbidden_no_space (s : str) :
  Forall not_space s -> Forall not_space (sub_forbidden s).
Proof.
  intros H. unfold sub_forbidden.
  induction H as [|c s Hc Hs IH]; cbn [map]; constructor; [|exact IH].
  destruct (char_in forbidden_chars c); [reflexivity | exact Hc].
Qed.

Lemma strip_by_fixed (p : ascii -> bool) (s : str) :
  clean_edges p s = true -> strip_by p s = s.
Proof.
  unfold clean_edges, strip_by, rstrip_by.
  destruct s as [|a s]; [discriminate|].
  destruct (rev (a :: s)) as [|z r] eqn:Hrev; [discriminate|].
  intros H. apply andb_true_iff in H. destruct H as [Ha Hz].
  apply negb_true_iff in Ha. apply negb_true_iff in Hz.
  rewrite (lstrip_by_fixed p (a :: s)) by exact Ha.
  rewrite Hrev, (lstrip_by_fixed p (z :: r)) by exact Hz.
  rewrite <- Hrev. apply rev_involutive.
Qed.

Lemma sub_forbidden_edges (s : str) :
  clean_edges (fun c => char_in (pystr "._") c || char_in forbidden_chars c) s = true ->
  clean_edges (char_in (pystr "._")) (sub_forbidden s) = true.
Proof.
  unfold clean_edges, sub_forbidden.
  destruct s as [|a s]; [discriminate|].
  cbn [map].
  change ((if char_in forbidden_chars a then "_"%char else a)
          :: map (fun c => if char_in forbidden_chars c then "_"%char else c) s)
    with (map (fun c => if char_in forbidden_chars c then "_"%char else c) (a :: s)).
  rewrite <- List.map_rev.
  destruct (rev (a :: s)) as [|z r]; [discriminate|].
  cbn [map]. intros H. apply andb_true_iff in H. destruct H as [Ha Hz].
  apply negb_true_iff, orb_false_iff in Ha.
  apply negb_true_iff, orb_false_iff in Hz.
  destruct Ha as [Ha1 Ha2]. destruct Hz as [Hz1 Hz2].
  rewrite Ha2, Hz2, Ha1, Hz1. reflexivity.
Qed.

(** Where nothing else applies, [clean_filename] is the first
    substitution alone: a name without whitespace, of at most 255
    characters, that neither begins nor ends with a dot, an underscore or
    a character of the class, comes back with each character of the
    class replaced by an underscore and every other character in its
    place. *)
Lemma clean_filename_replaces (path : str) :
  Forall (fun c => isspace c = false) path ->
  clean_edges (fun c => char_in (pystr "._") c || char_in forbidden_chars c) path
  = true ->
  (length path <= 255)%nat ->
  clean_filename path
  = map (fun c => if char_in forbidden_chars c then "_"%char else c) path.
Proof.
  intros Hsp Hedge Hlen.
  change (clean_filename path = sub_forbidden path).
  unfold clean_filename. cbv zeta. unfold sub_whitespace.
  rewrite (sub_whitespace_fixed (sub_forbidden path))
    by (apply sub_forbidden_no_space; exact Hsp).
  unfold strip_chars.
  rewrite (strip_by_fixed _ _ (sub_forbidden_edges path Hedge)).
  assert (length (sub_forbidden path) = length path) as Hl
    by (unfold sub_forbidden; apply length_map).
  destruct (255 <? Z.of_nat (length (sub_forbidden path))) eqn:E; [|reflexivity].
  apply Z.ltb_lt in E. lia.
Qed.

(** The write action of [execute] with a non-empty path is [_write_file]
    on that path; an absent encoding is [utf-8] and an absent content, or
    [None], the empty text. *)
Lemma execute_write
    {WS : Type}
    (wm_read_file : str -> str -> WS -> outcome (option str) * WS)
    (wm_resolve_path : str -> WS -> outcome str * WS)
    (wm_get_file_info : str -> WS -> outcome (option (gmap string value)) * WS)
    (wm_write_file : str -> str -> str -> WS -> outcome bool * WS)
    (guess_type : str -> option str)
    (elsewhere : gmap string value -> WS -> outcome ToolResponse * WS)
    (kwargs : gmap string value) (path content encoding : str) (st : state WS) :
  kwarg kwargs "action" VNone = VStr (pystr "write") ->
  kwarg kwargs "path" (VStr []) = VStr path ->
  path <> [] ->
  kwarg kwargs "content" (VStr []) = VStr content ->
  kwarg kwargs "encoding" utf8 = VStr encoding ->
  execute wm_read_file wm_resolve_path wm_get_file_info wm_write_file
    guess_type elsewhere kwargs st
  = _write_file wm_write_file path content encoding st.
Proof.
  intros Ha Hp Hne Hc He. unfold execute. cbv zeta.
  rewrite Ha, Hp, Hc, He.
  destruct path as [|c path]; [congruence|].
  change (str_eq (VStr (pystr "write")) (pystr "read")) with false.
  change (str_eq (VStr (pystr "write")) (pystr "write")) with true.
  change (truthy (VStr (pystr "write"))) with true.
  cbn [truthy negb length Nat.eqb andb]. cbv iota.
  unfold _write_file at 1. apply FileToolFacts.ftry_ftry.
Qed.

(** C7.  The write action passes [clean_filename] of the whole requested
    path to the Workspace Manager, in one call, and leaves the state the
    manager leaves; the response succeeds when the manager returned
    [True], and its data then reports the cleaned name.  The cleaned
    name holds no slash, no backslash and no other character of the
    replaced class: where no whitespace, no edge and no length comes into
    it, each such character has become an underscore and every other
    character is in its place.  The path [dir/file.txt] becomes the flat
    name [dir_file.txt], and that is the one file a workspace holds
    afterwards for it. *)
Theorem write_file_uses_clean_filename
    {WS : Type}
    (wm_write_file : str -> str -> str -> WS -> outcome bool * WS)
    (path content encoding : str) (st : state WS) :
  (exists r st',
     _write_file wm_write_file path content encoding st = (r, st')
     /\ calls st' = calls st ++ [Write_file (clean_filename path) content encoding]
     /\ (forall resp, r = Return resp -> success resp = true ->
         data_field "path" resp = Some (VStr (clean_filename path))))
  /\ (let asked := wm_write_file (clean_filename path) content encoding (ws st) in
      let run := _write_file wm_write_file path content encoding st in
      snd run
      = {| ws := snd asked;
           calls := calls st
                    ++ [Write_file (clean_filename path) content encoding] |}
      /\ match fst asked with
         | Return true =>
             exists resp,
               fst run = Return resp
               /\ success resp = true
               /\ data_field "path" resp = Some (VStr (clean_filename path))
         | Return false =>
             exists resp,
               fst run = Return resp
               /\ success resp = false
               /\ error resp = Some (pystr "Failed to write file")
         | Raise e =>
             if derives_Exception (exn_cls e)
             then exists resp, fst run = Return resp
                               /\ success resp = false
                               /\ error resp = Some (exn_text e)
             else fst run = Raise e
         end)
  /\ Forall allowed (clean_filename path)
  /\ ~ In "/"%char (clean_filename path)
  /\ ~ In "\"%char (clean_filename path)
  /\ (Forall (fun c => isspace c = false) path ->
      clean_edges (fun c => char_in (pystr "._") c || char_in forbidden_chars c)
        path = true ->
      (length path <= 255)%nat ->
      clean_filename path
      = map (fun c => if char_in forbidden_chars c then "_"%char else c) path)
  /\ clean_filename (pystr "dir/file.txt") = pystr "dir_file.txt"
  /\ (forall (files : gmap str str) (log : list wm_call),
        let after :=
          ws (snd (_write_file Workspace.write_file (pystr "dir/file.txt")
                     content encoding {| ws := files; calls := log |})) in
        after = <[pystr "dir_file.txt" := content]> files
        /\ after !! pystr "dir_file.txt" = Some content
        /\ after !! pystr "dir/file.txt" = files !! pystr "dir/file.txt").
Proof.
  split; [apply write_file_call|].
  split; [apply write_file_run|].
  split; [apply clean_filename_allowed|].
  split; [apply clean_filename_no_separator|].
  split; [apply clean_filename_no_separator|].
  split; [apply clean_filename_replaces|].
  split; [vm_compute; reflexivity|].
  intros files log. cbv zeta.
  assert (ws (snd (_write_file Workspace.write_file (pystr "dir/file.txt")
                     content encoding {| ws := files; calls := log |}))
          = <[pystr "dir_file.txt" := content]> files) as ->.
  { pose proof (write_file_run Workspace.write_file (pystr "dir/file.txt")
                  content encoding {| ws := files; calls := log |}) as [H _].
    rewrite H. cbn [ws]. unfold Workspace.write_file. cbn [snd].
    replace (clean_filename (pystr "dir/file.txt")) with (pystr "dir_file.txt")
      by (vm_compute; reflexivity).
    reflexivity. }
  split; [reflexivity|]. split.
  - apply lookup_insert_eq.
  - apply lookup_insert_ne. vm_compute. discriminate.
Qed.

(** Writing [dir/file.txt] into an empty workspace: the name has no
    whitespace, clean edges and twelve characters, so it is cleaned
    character by character. *)
Lemma write_file_uses_clean_filename_witness :
  clean_filename (pystr "dir/file.txt")
  = map (fun c => if char_in forbidden_chars c then "_"%char else c)
      (pystr "dir/file.txt")
  /\ ws (snd (_write_file Workspace.write_file (pystr "dir/file.txt")
                (pystr "hello") (pystr "utf-8") Workspace.empty))
       !! pystr "dir_file.txt" = Some (pystr "hello").
Proof.
  pose proof (write_file_uses_clean_filename Workspace.write_file
                (pystr "dir/file.txt") (pystr "hello") (pystr "utf-8")
                Workspace.empty) as [_ [_ [_ [_ [_ [Hmap [_ Hflat]]]]]]].
  split.
  - apply Hmap.
    + repeat constructor.
    + vm_compute. reflexivity.
    + vm_compute. lia.
  - apply (Hflat ∅ []).
Defined.

(** The same write through [execute]: one call on the Workspace Manager,
    for [dir_file.txt], and that is the path the response reports. *)
Lemma write_dir_file :
  let kwargs := <["action" := VStr (pystr "write")]> (
                <["path" := VStr (pystr "dir/file.txt")]> (
                <["content" := VStr (pystr "hello")]> ∅)) in
  let run := execute Workspace.read_file Workspace.resolve_path
               Workspace.get_file_info Workspace.write_file
               guess_type_sample Workspace.elsewhere kwargs Workspace.empty in
  calls (snd run)
  = [Write_file (pystr "dir_file.txt") (pystr "hello") (pystr "utf-8")]
  /\ ws (snd run) !! pystr "dir_file.txt" = Some (pystr "hello")
  /\ match fst run with
     | Return resp =>
         success resp = true
         /\ data_field "path" resp = Some (VStr (pystr "dir_file.txt"))
     | Raise _ => False
     end.
Proof. vm_compute. repeat split; reflexivity. Qed.

End FileToolWriteFacts.

(* ===================================================================== *)
(** * The browser tool without a browser                                  *)
(* ===================================================================== *)

Module BrowserToolFacts.
Import Py BaseTool BrowserTool.

Section Simulation.

Variable Driver : Type.
Variable real : Driver -> request -> browser Driver -> outcome ToolResponse * browser Driver.
Variable render_other : value -> str.

(** No driver can be started on this host. *)
Local Abbreviation run := (execute Driver None real render_other).

Ltac enter_action Hact :=
  unfold execute; cbv zeta; rewrite Hact;
  match goal with b : browser _ |- _ => destruct b as [d cu pt sh] end;
  match goal with H : driver _ = None |- _ => simpl in H end;
  match goal with H : ?x = None |- _ => subst x end.

(** [navigate] with a URL: success, marked as simulated, with the title
    made from the URL; the tool still has no driver. *)
Lemma navigate_simulated (kwargs : gmap string value) (b : browser Driver) url :
  driver b = None ->
  kwarg kwargs "action" VNone = VStr (pystr "navigate") ->
  kwarg kwargs "url" VNone = url ->
  truthy url = true ->
  simulated (fst (run kwargs b))
  /\ (exists resp, fst (run kwargs b) = Return resp
      /\ title_of resp
         = Some (VStr (pystr "模拟页面 - " ++ render render_other url)))
  /\ driver (snd (run kwargs b)) = None.
Proof.
  intros Hd Hact Hurl Ht. enter_action Hact. rewrite Hurl, Ht.
  cbn [negb].
  split; [|split].
  - eexists. split; [vm_compute; reflexivity|]. split; reflexivity.
  - eexists. split; [vm_compute; reflexivity|]. reflexivity.
  - reflexivity.
Qed.

(** The three actions that need a selector, when they are given one. *)
Lemma selector_actions_simulated (kwargs : gmap string value) (b : browser Driver) a :
  driver b = None ->
  kwarg kwargs "action" VNone = VStr a ->
  In a (map pystr ["click"; "fill"; "find_element"]%string) ->
  truthy (kwarg kwargs "selector" VNone) = true ->
  simulated (fst (run kwargs b)) /\ driver (snd (run kwargs b)) = None.
Proof.
  intros Hd Hact Hin Hsel. enter_action Hact. rewrite Hsel.
  simpl in Hin. destruct Hin as [<-|[<-|[<-|[]]]];
    (split; [eexists; split; [vm_compute; reflexivity|]; split; reflexivity
            | reflexivity]).
Qed.

(** The six actions that need nothing. *)
Lemma plain_actions_simulated (kwargs : gmap string value) (b : browser Driver) a :
  driver b = None ->
  kwarg kwargs "action" VNone = VStr a ->
  In a (map pystr ["submit"; "extract"; "screenshot"; "back"; "forward";
                   "refresh"]%string) ->
  simulated (fst (run kwargs b)) /\ driver (snd (run kwargs b)) = None.
Proof.
  intros Hd Hact Hin. enter_action Hact.
  simpl in Hin. destruct Hin as [<-|[<-|[<-|[<-|[<-|[<-|[]]]]]]].
  - split; [eexists; split; [vm_compute; reflexivity|]; split; reflexivity
           | reflexivity].
  - split; [|reflexivity].
    unfold _extract_content. cbn [driver].
    destruct (truthy (kwarg kwargs "selector" VNone));
      (eexists; split; [vm_compute; reflexivity|]; split; reflexivity).
  - split; [eexists; split; [vm_compute; reflexivity|]; split; reflexivity
           | reflexivity].
  - split; [eexists; split; [vm_compute; reflexivity|]; split; reflexivity
           | reflexivity].
  - split; [eexists; split; [vm_compute; reflexivity|]; split; reflexivity
           | reflexivity].
  - split; [eexists; split; [vm_compute; reflexivity|]; split; reflexivity
           | reflexivity].
Qed.

(** [get_title] and [get_url] succeed, and their data has no [mode]. *)
Lemma getters_unmarked (kwargs : gmap string value) (b : browser Driver) a :
  driver b = None ->
  kwarg kwargs "action" VNone = VStr a ->
  In a (map pystr ["get_title"; "get_url"]%string) ->
  unmarked (fst (run kwargs b)) /\ driver (snd (run kwargs b)) = None.
Proof.
  intros Hd Hact Hin. enter_action Hact.
  simpl in Hin. destruct Hin as [<-|[<-|[]]];
    (split; [eexists; split; [vm_compute; reflexivity|]; split; reflexivity
            | reflexivity]).
Qed.

End Simulation.

(** C6.  On a host without a browser, [navigate] to
    [https://example.com] succeeds with the mode [simulation] and the
    title made from the URL; the [get_title] and the [get_url] that
    follow on the same tool succeed too, but the data they return has no
    [mode] entry. *)
Theorem getters_carry_no_simulation_mark :
  let '(r1, b1) := NoBrowser.run NoBrowser.navigate_example new in
  let '(r2, b2) := NoBrowser.run NoBrowser.get_title b1 in
  let '(r3, b3) := NoBrowser.run NoBrowser.get_url b2 in
  simulated r1
  /\ (exists resp, r1 = Return resp
      /\ title_of resp
         = Some (VStr (pystr "模拟页面 - " ++ pystr "https://example.com")))
  /\ driver b1 = None
  /\ unmarked r2
  /\ (exists resp, r2 = Return resp
      /\ title_of resp
         = Some (VStr (pystr "模拟页面 - " ++ pystr "https://example.com")))
  /\ unmarked r3
  /\ ~ simulated r2 /\ ~ simulated r3.
Proof.
  vm_compute.
  repeat split;
    try (eexists; split; [reflexivity|]; try split; reflexivity);
    intros [resp [H [_ Hm]]]; injection H as <-; discriminate.
Qed.

End BrowserToolFacts.

(* ===================================================================== *)
(** * The history of the REPL                                             *)
(* ===================================================================== *)

Module MainFacts.
Import Py Main.

Lemma slice_from_last {A} (l : list A) (k : Z) :
  0 < k <= Z.of_nat (length l) ->
  slice_from l (- k) = skipn (length l - Z.to_nat k) l.
Proof.
  intros Hk. unfold slice_from, clamp.
  destruct (- k <? 0) eqn:E; [|apply Z.ltb_ge in E; lia].
  f_equal. lia.
Qed.

Lemma slice_from_zero {A} (l : list A) : slice_from l (- 0) = l.
Proof. unfold slice_from, clamp. simpl. rewrite Z.min_r, Z.max_l by lia. reflexivity. Qed.

(** What [update_history] computes, for a positive bound: the last
    [2 * max] entries of the extended history when there are more. *)
Lemma update_history_positive (max : Z) u ok r t1 t2 (h : list entry) :
  1 <= max ->
  update_history max u ok r t1 t2 h
  = let h' := h ++ appended (Answered u ok r t1 t2) in
    skipn (length h' - Z.to_nat (2 * max)) h'.
Proof.
  intros Hmax. unfold update_history. cbn [appended]. cbv zeta.
  set (h' := h ++ _ :: (if ok then _ else _)).
  assert ((if ok
           then (h ++ [{| role := pystr "user"; content := u; timestamp := t1 |}])
                ++ [{| role := pystr "assistant"; content := r; timestamp := t2 |}]
           else h ++ [{| role := pystr "user"; content := u; timestamp := t1 |}])
          = h') as ->.
  { unfold h'. destruct ok; [rewrite <- app_assoc|]; reflexivity. }
  destruct (max * 2 <? Z.of_nat (length h')) eqn:E.
  - apply Z.ltb_lt in E.
    replace (- max * 2) with (- (2 * max)) by lia.
    apply slice_from_last. lia.
  - apply Z.ltb_ge in E.
    replace (length h' - Z.to_nat (2 * max))%nat with O by lia. reflexivity.
Qed.

(** For a positive bound a turn leaves at most [2 * max] entries. *)
Lemma step_bounded (max : Z) (h : list entry) (t : turn) :
  1 <= max ->
  Z.of_nat (length h) <= 2 * max ->
  Z.of_nat (length (step max h t)) <= 2 * max.
Proof.
  intros Hmax Hh. destruct t as [c| |u ok r t1 t2|u]; cbn [step]; try exact Hh.
  - unfold handle_special_command. destruct (bool_decide _); [simpl; lia | exact Hh].
  - rewrite update_history_positive by exact Hmax. cbv zeta.
    rewrite length_skipn. lia.
Qed.

Lemma run_bounded (max : Z) (ts : list turn) :
  1 <= max -> Z.of_nat (length (run max ts)) <= 2 * max.
Proof.
  intros Hmax. unfold run.
  assert (forall h, Z.of_nat (length h) <= 2 * max ->
                    Z.of_nat (length (fold_left (step max) ts h)) <= 2 * max) as H.
  { induction ts as [|t ts IH]; intros h Hh; simpl; [exact Hh|].
    apply IH, step_bounded; assumption. }
  apply H. simpl. lia.
Qed.

(** With the bound 10, twenty-five exchanges leave exactly the last
    twenty of the fifty entries, in their order. *)
Lemma twenty_five_exchanges :
  let turns := map exchange (seq 0 25) in
  length (run 10 turns) = 20%nat
  /\ run 10 turns = skipn 30 (flat_map appended turns).
Proof. vm_compute. split; reflexivity. Qed.

(** With the bound 0 nothing is ever cut. *)
Lemma update_history_zero u ok r t1 t2 (h : list entry) :
  update_history 0 u ok r t1 t2 h = h ++ appended (Answered u ok r t1 t2).
Proof.
  unfold update_history. cbn [appended]. cbv zeta.
  change (- 0 * 2) with (- 0). rewrite !slice_from_zero.
  destruct ok; [rewrite <- app_assoc|]; simpl;
    match goal with |- (if ?c then _ else _) = _ => destruct c end; reflexivity.
Qed.

(** C8.  With [max_conversation_history] set to 0 the history is never
    cut: a turn keeps everything it appends, so after one exchange the
    history has two entries against a bound of [2 * 0], and after [n]
    exchanges it has [2 * n]. *)
Theorem history_grows_when_bound_is_zero :
  length (run 0 [exchange 0]) = 2%nat
  /\ ~ (Z.of_nat (length (run 0 [exchange 0])) <= 2 * 0)
  /\ forall n, length (run 0 (map exchange (seq 0 n))) = (2 * n)%nat.
Proof.
  split; [reflexivity|]. split; [vm_compute; intros H; apply H; reflexivity|].
  intros n. unfold run.
  assert (forall k h, length (fold_left (step 0) (map exchange (seq k n)) h)
                      = (length h + 2 * n)%nat) as H.
  { induction n as [|n IH]; intros k h; simpl fold_left; [simpl; lia|].
    rewrite IH. unfold exchange. cbn [step].
    rewrite update_history_zero, length_app. simpl. lia. }
  rewrite H. reflexivity.
Qed.

End MainFacts.

(* ===================================================================== *)
(** * More on the tool framework                                          *)
(* ===================================================================== *)

Module RegistryFacts.
Import Py BaseTool BaseToolFacts RegistryMore.

(** X7.  After [register], [execute_tool] under the name of the tool is
    [safe_execute] of that tool, whatever was registered under the name
    before; every other name is dispatched as before. *)
Theorem register_then_execute
    {W : Type} (fmt : gmap string value -> str)
    (reg : ToolRegistry W) (t : BaseTool W)
    (kwargs : gmap string value) (m : machine W) :
  exists reg' m',
    register reg t m = (Return reg', m')
    /\ world m' = world m
    /\ execute_tool fmt reg' (name t) kwargs m' = safe_execute fmt t kwargs m'
    /\ forall other, other <> name t ->
         execute_tool fmt reg' other kwargs m' = execute_tool fmt reg other kwargs m'.
Proof.
  unfold register, bind, emit, ret. eexists _, _. split; [reflexivity|].
  split; [reflexivity|]. unfold execute_tool, get_tool. cbn [tools]. split.
  - rewrite lookup_insert_eq. reflexivity.
  - intros other Hne. rewrite lookup_insert_ne by congruence. reflexivity.
Qed.

(** X8.  After [unregister] the name is unknown: [execute_tool] returns
    the not-found failure and enters no tool, while every other name is
    dispatched as before; unregistering a name the registry does not
    hold changes nothing and logs nothing; after [clear] every name is
    unknown. *)
Theorem unregister_then_execute
    {W : Type} (fmt : gmap string value -> str)
    (reg : ToolRegistry W) (tool_name : str)
    (kwargs : gmap string value) (m : machine W) :
  (exists reg' m',
     unregister reg tool_name m = (Return reg', m')
     /\ world m' = world m
     /\ execute_tool fmt reg' tool_name kwargs m'
        = (Return (not_found_response tool_name), m')
     /\ (forall other, other <> tool_name ->
           execute_tool fmt reg' other kwargs m'
           = execute_tool fmt reg other kwargs m')
     /\ (tools reg !! tool_name = None -> reg' = reg /\ m' = m))
  /\ (exists reg' m',
        clear reg m = (Return reg', m')
        /\ forall any, execute_tool fmt reg' any kwargs m'
                       = (Return (not_found_response any), m')).
Proof.
  split.
  - unfold unregister. destruct (tools reg !! tool_name) as [t|] eqn:Hl.
    + unfold bind, emit, ret. eexists _, _. split; [reflexivity|].
      split; [reflexivity|]. unfold execute_tool, get_tool. cbn [tools].
      split; [rewrite lookup_delete_eq; reflexivity|]. split.
      * intros other Hne. rewrite lookup_delete_ne by congruence. reflexivity.
      * discriminate.
    + unfold ret. exists reg, m. split; [reflexivity|]. split; [reflexivity|].
      unfold execute_tool, get_tool. rewrite Hl. split; [reflexivity|].
      split; [reflexivity | auto].
  - unfold clear, bind, emit, ret. eexists _, _. split; [reflexivity|].
    intros any. unfold execute_tool, get_tool. cbn [tools].
    rewrite lookup_empty. reflexivity.
Qed.

(** X9.  After [disable_tool] of a registered tool, [execute_tool] under
    that name returns the disabled failure without entering
    [validate_params] or [execute] and without touching the world; and
    [enable_tool] after [disable_tool] gives back the registry as it was
    when the tool was enabled to begin with. *)
Theorem disable_then_execute
    {W : Type} (fmt : gmap string value -> str)
    (reg : ToolRegistry W) (tool_name : str) (t : BaseTool W)
    (kwargs : gmap string value) (m : machine W) :
  tools reg !! tool_name = Some t ->
  exists reg' m',
    disable_tool reg tool_name m = (Return reg', m')
    /\ execute_tool fmt reg' tool_name kwargs m'
       = (Return (disabled_response t),
          {| world := world m;
             trace := trace m' ++ [Entered (name t) In_safe_execute] |})
    /\ (enabled t = true ->
        exists m'', enable_tool reg' tool_name m' = (Return reg, m'')).
Proof.
  intros Hl. unfold disable_tool, get_tool. rewrite Hl.
  unfold bind, emit, ret. eexists _, _. split; [reflexivity|]. split.
  - unfold execute_tool, get_tool. cbn [tools]. rewrite lookup_insert_eq.
    rewrite safe_execute_disabled by reflexivity. reflexivity.
  - intros Hen. unfold enable_tool, get_tool. cbn [tools].
    rewrite lookup_insert_eq. unfold bind, emit, ret. eexists.
    f_equal. f_equal. destruct reg as [ts]. cbn [tools] in *. f_equal.
    rewrite insert_insert_eq. apply insert_id. rewrite Hl. f_equal.
    destruct t. unfold enable, disable. simpl in *. subst. reflexivity.
Qed.

Lemma disable_then_execute_witness :
  exists reg' m',
    disable_tool Samples.registry (pystr "echo_tool") Samples.start
    = (Return reg', m')
    /\ execute_tool Samples.format_kwargs reg' (pystr "echo_tool") ∅ m'
       = (Return (disabled_response Samples.echo_tool),
          {| world := world Samples.start;
             trace := trace m'
                      ++ [Entered (name Samples.echo_tool) In_safe_execute] |})
    /\ (enabled Samples.echo_tool = true ->
        exists m'', enable_tool reg' (pystr "echo_tool") m'
                    = (Return Samples.registry, m'')).
Proof.
  apply (disable_then_execute Samples.format_kwargs Samples.registry
           (pystr "echo_tool") Samples.echo_tool ∅ Samples.start).
  vm_compute. reflexivity.
Defined.

(** X10.  The tools [get_available_tools] lists are the registered tools
    that are enabled, and [get_tool_schemas] holds exactly their
    schemas: a disabled tool is never advertised. *)
Theorem available_tools_are_enabled
    {W : Type} (get_schema : BaseTool W -> value)
    (reg : ToolRegistry W) :
  (forall t, In t (get_available_tools reg)
             <-> (exists tool_name, tools reg !! tool_name = Some t)
                 /\ enabled t = true)
  /\ (forall s, In s (get_tool_schemas get_schema reg)
                <-> exists tool_name t,
                      tools reg !! tool_name = Some t /\ enabled t = true
                      /\ s = get_schema t)
  /\ length (get_tool_schemas get_schema reg)
     = length (get_available_tools reg).
Proof.
  assert (Hin : forall t, In t (get_available_tools reg)
             <-> (exists tool_name, tools reg !! tool_name = Some t)
                 /\ enabled t = true).
  { intros t. unfold get_available_tools. rewrite List.filter_In, in_map_iff.
    unfold is_available. split.
    - intros [[[n t'] [Heq Hl]] Hen]. simpl in Heq. subst t'. split; [|exact Hen].
      exists n. apply list_elem_of_In, elem_of_map_to_list in Hl. exact Hl.
    - intros [[n Hl] Hen]. split; [|exact Hen]. exists (n, t). split; [reflexivity|].
      apply list_elem_of_In, elem_of_map_to_list. exact Hl. }
  split; [exact Hin|]. split.
  - intros s. unfold get_tool_schemas. rewrite in_map_iff. split.
    + intros [t [Hs Ht]]. apply Hin in Ht as [[n Hl] Hen]. exists n, t. auto.
    + intros [n [t [Hl [Hen Hs]]]]. exists t. split; [auto|].
      apply Hin. split; [exists n; exact Hl | exact Hen].
  - unfold get_tool_schemas. apply length_map.
Qed.

(** An exception of [validate_params] that derives from
    [Exception] becomes a failure that carries its text; [execute] is
    not entered and the world is left alone. *)
Theorem validate_params_exception_contained
    {W : Type} (fmt : gmap string value -> str)
    (t : BaseTool W) (kwargs : gmap string value) (m : machine W) (e : exn) :
  enabled t = true ->
  validate_params t kwargs = Raise e ->
  derives_Exception (exn_cls e) = true ->
  exists m',
    safe_execute fmt t kwargs m = (Return (exception_response e), m')
    /\ error (exception_response e) = Some (exn_text e)
    /\ world m' = world m
    /\ execute_entries (trace m') = execute_entries (trace m).
Proof.
  intros He Hv Hd.
  destruct (safe_execute_validate_raises fmt t kwargs m e He Hv Hd)
    as [m' [H1 [H2 H3]]].
  exists m'. auto.
Qed.

Lemma validate_params_exception_contained_witness :
  exists m',
    safe_execute Samples.format_kwargs fussy_tool ∅ Samples.start
    = (Return (exception_response (Exn TypeError (pystr "bad parameters"))), m')
    /\ error (exception_response (Exn TypeError (pystr "bad parameters")))
       = Some (exn_text (Exn TypeError (pystr "bad parameters")))
    /\ world m' = world Samples.start
    /\ execute_entries (trace m') = execute_entries (trace Samples.start).
Proof.
  apply (validate_params_exception_contained Samples.format_kwargs fussy_tool ∅
           Samples.start (Exn TypeError (pystr "bad parameters")));
    reflexivity.
Defined.


End RegistryFacts.

(* ===================================================================== *)
(** * The shell tool at work                                              *)
(* ===================================================================== *)

Module ShellExecFacts.
Import Py BaseTool BaseToolFacts ShellTool ShellExec.

Section ShellExec.

Context {OS : Type}.
Variable wm_resolve_path : value -> OS -> outcome str * OS.
Variable wm_get_session_path : OS -> outcome str * OS.
Variable wm_get_temp_path : OS -> outcome str * OS.
Variable wm_get_output_path : OS -> outcome str * OS.
Variable path_exists : str -> OS -> bool.
Variable spawn : list str -> str -> gmap string value -> bool -> value ->
                 OS -> outcome completion * OS.
Variable os_environ : gmap string value.
Variable system_name : str.
Variable render_other : value -> str.
Variable split_whitespace : str -> list str.
Variable pairs_environment :
  str -> str -> value -> bool -> bool -> value -> SM OS ToolResponse.

Local Abbreviation run_execute :=
  (execute wm_resolve_path wm_get_session_path wm_get_temp_path
     wm_get_output_path path_exists spawn os_environ system_name
     render_other split_whitespace pairs_environment).

Local Abbreviation run_command :=
  (_execute_command wm_get_session_path wm_get_temp_path wm_get_output_path
     spawn os_environ system_name render_other split_whitespace pairs_environment).

(** A command that is blank after stripping, or that the gate turns
    down, is answered at once, and nothing is asked of the system. *)
Lemma execute_turned_down (kwargs : gmap string value) (c : str) (st : state OS) :
  kwarg kwargs "command" (VStr []) = VStr c ->
  (strip c = [] ->
   run_execute kwargs st
   = (Return (failure (pystr "缺少命令参数") (pystr "Missing command parameter")), st))
  /\ (strip c <> [] -> _is_command_safe (host system_name) (strip c) = false ->
      run_execute kwargs st
      = (Return (failure (pystr "命令被安全策略阻止")
                         (pystr "Command blocked by security policy")), st)).
Proof.
  intros Hc. unfold execute, sbind, stripped_command. rewrite Hc. split.
  - intros ->. reflexivity.
  - intros Hne Hsafe. destruct (strip c) as [|a s]; [congruence|].
    cbn [length Nat.eqb]. rewrite Hsafe. reflexivity.
Qed.

(** The run of [_execute_command] when the Workspace Manager hands out
    its three paths and the wait for the process ends. *)
Lemma execute_command_run (command work_dir : str) (timeout : value)
    (capture_output shell : bool) (d : gmap string value) (st : state OS)
    session temp output done w1 w2 w3 w4 :
  wm_get_session_path (os st) = (Return session, w1) ->
  wm_get_temp_path w1 = (Return temp, w2) ->
  wm_get_output_path w2 = (Return output, w3) ->
  let env := <["WORKSPACE_OUTPUT" := VStr output]> (
             <["WORKSPACE_TEMP" := VStr temp]> (
             <["WORKSPACE" := VStr session]> (d ∪ os_environ))) in
  let argv := if shell
              then match host system_name with
                   | Windows => [pystr "cmd.exe"; pystr "/c"; command]
                   | NotWindows => [pystr "/bin/bash"; pystr "-c"; command]
                   end
              else split_whitespace command in
  spawn argv work_dir env capture_output timeout w3 = (Return done, w4) ->
  exists resp,
    run_command command work_dir timeout capture_output shell (VDict d) st
    = (Return resp,
       {| os := w4;
          calls := calls st ++ [Get_session_path; Get_temp_path; Get_output_path;
                                Spawn argv work_dir env capture_output timeout] |})
    /\ match done with
       | Exited returncode _ _ =>
           success resp = (returncode =? 0)
           /\ data_field "exit_code" resp = Some (VInt returncode)
       | Timed_out =>
           success resp = false
           /\ error resp = Some (pystr "Command execution timeout")
       end.
Proof.
  intros Hs Ht Ho env argv Hp.
  unfold _execute_command, stry, sbind, call, sret, env_update. cbn [os calls].
  rewrite Hs. cbn [os calls]. rewrite Ht. cbn [os calls]. rewrite Ho.
  cbn [os calls]. fold env. fold argv. rewrite Hp.
  destruct done as [rc out err|].
  - eexists. split.
    + rewrite <- !app_assoc. reflexivity.
    + split; [reflexivity|]. unfold data_field. cbn [data].
      destruct capture_output;
        repeat (rewrite lookup_insert_ne by discriminate);
        apply lookup_insert_eq.
  - eexists. split.
    + rewrite <- !app_assoc. reflexivity.
    + split; reflexivity.
Qed.

End ShellExec.

(** X12.  Whenever the shell tool asks anything of the Workspace Manager
    or starts a process, the command was a string that is not blank
    after stripping and that passed the safety gate. *)
Theorem shell_execute_acts_only_when_safe
    {OS : Type}
    (wm_resolve_path : value -> OS -> outcome str * OS)
    (wm_get_session_path wm_get_temp_path wm_get_output_path : OS -> outcome str * OS)
    (path_exists : str -> OS -> bool)
    (spawn : list str -> str -> gmap string value -> bool -> value ->
             OS -> outcome completion * OS)
    (os_environ : gmap string value) (system_name : str)
    (render_other : value -> str) (split_whitespace : str -> list str)
    (pairs_environment :
       str -> str -> value -> bool -> bool -> value -> SM OS ToolResponse)
    (kwargs : gmap string value) (st : state OS) :
  calls (snd (execute wm_resolve_path wm_get_session_path wm_get_temp_path
                wm_get_output_path path_exists spawn os_environ system_name
                render_other split_whitespace pairs_environment kwargs st)) <> calls st ->
  exists c, kwarg kwargs "command" (VStr []) = VStr c
            /\ strip c <> []
            /\ _is_command_safe (host system_name) (strip c) = true.
Proof.
  unfold execute, sbind, stripped_command.
  destruct (kwarg kwargs "command" (VStr [])) as [| | | |c| |] eqn:Hc;
    try (simpl; congruence).
  destruct (strip c) as [|a s] eqn:Hs; [simpl; congruence|].
  cbn [length Nat.eqb].
  destruct (_is_command_safe (host system_name) (a :: s)) eqn:Hsafe;
    [|simpl; congruence].
  intros _. exists c. rewrite Hs. repeat split; [discriminate | exact Hsafe].
Qed.

Lemma shell_execute_acts_only_when_safe_witness :
  exists c, kwarg {[ "command" := VStr (pystr " ls ") ]} "command" (VStr []) = VStr c
            /\ strip c <> []
            /\ _is_command_safe (host (pystr "Linux")) (strip c) = true.
Proof.
  apply (shell_execute_acts_only_when_safe QuietHost.resolve_path
           QuietHost.get_session_path QuietHost.get_temp_path
           QuietHost.get_output_path QuietHost.path_exists QuietHost.spawn
           QuietHost.os_environ (pystr "Linux") QuietHost.render_other
           QuietHost.split_whitespace QuietHost.pairs_environment
           {[ "command" := VStr (pystr " ls ") ]} QuietHost.start).
  vm_compute. discriminate.
Defined.

(** X13.  When the wait for the process ends, the response of
    [_execute_command] succeeds exactly when the exit code is 0 and
    reports the exit code; when the time runs out it is the timeout
    failure.  The process is started once, after the three paths of the
    workspace have been asked for. *)
Theorem command_result_follows_exit_code
    {OS : Type}
    (wm_get_session_path wm_get_temp_path wm_get_output_path : OS -> outcome str * OS)
    (spawn : list str -> str -> gmap string value -> bool -> value ->
             OS -> outcome completion * OS)
    (os_environ : gmap string value) (system_name : str)
    (render_other : value -> str) (split_whitespace : str -> list str)
    (pairs_environment :
       str -> str -> value -> bool -> bool -> value -> SM OS ToolResponse)
    (command work_dir : str) (timeout : value)
    (capture_output shell : bool) (d : gmap string value) (st : state OS)
    (session temp output : str) (done : completion) (w1 w2 w3 w4 : OS) :
  wm_get_session_path (os st) = (Return session, w1) ->
  wm_get_temp_path w1 = (Return temp, w2) ->
  wm_get_output_path w2 = (Return output, w3) ->
  spawn (if shell
         then match host system_name with
              | Windows => [pystr "cmd.exe"; pystr "/c"; command]
              | NotWindows => [pystr "/bin/bash"; pystr "-c"; command]
              end
         else split_whitespace command)
        work_dir
        (<["WORKSPACE_OUTPUT" := VStr output]> (
         <["WORKSPACE_TEMP" := VStr temp]> (
         <["WORKSPACE" := VStr session]> (d ∪ os_environ))))
        capture_output timeout w3 = (Return done, w4) ->
  exists resp st',
    _execute_command wm_get_session_path wm_get_temp_path wm_get_output_path
      spawn os_environ system_name render_other split_whitespace pairs_environment
      command work_dir timeout capture_output shell (VDict d) st
    = (Return resp, st')
    /\ length (spawns (calls st')) = S (length (spawns (calls st)))
    /\ match done with
       | Exited returncode _ _ =>
           success resp = (returncode =? 0)
           /\ data_field "exit_code" resp = Some (VInt returncode)
       | Timed_out =>
           success resp = false
           /\ error resp = Some (pystr "Command execution timeout")
       end.
Proof.
  intros Hs Ht Ho Hp.
  destruct (execute_command_run wm_get_session_path wm_get_temp_path
              wm_get_output_path spawn os_environ system_name render_other
              split_whitespace pairs_environment command work_dir timeout capture_output shell
              d st session temp output done w1 w2 w3 w4 Hs Ht Ho Hp)
    as [resp [Hrun Hres]].
  eexists _, _. split; [exact Hrun|]. split; [|exact Hres].
  cbn [calls]. unfold spawns. rewrite List.filter_app, length_app. simpl. lia.
Qed.

Lemma command_result_follows_exit_code_witness :
  exists resp st',
    _execute_command QuietHost.get_session_path QuietHost.get_temp_path
      QuietHost.get_output_path QuietHost.spawn QuietHost.os_environ
      (pystr "Linux") QuietHost.render_other QuietHost.split_whitespace QuietHost.pairs_environment
      (pystr "ls") (pystr "/srv/workspace/session") (VInt 30) true true
      (VDict ∅) QuietHost.start
    = (Return resp, st')
    /\ length (spawns (calls st')) = S (length (spawns (calls QuietHost.start)))
    /\ (success resp = (0 =? 0)
        /\ data_field "exit_code" resp = Some (VInt 0)).
Proof.
  apply (command_result_follows_exit_code QuietHost.get_session_path
           QuietHost.get_temp_path QuietHost.get_output_path QuietHost.spawn
           QuietHost.os_environ (pystr "Linux") QuietHost.render_other
           QuietHost.split_whitespace QuietHost.pairs_environment (pystr "ls")
           (pystr "/srv/workspace/session") (VInt 30) true true ∅
           QuietHost.start (pystr "/srv/workspace/session")
           (pystr "/srv/workspace/temp") (pystr "/srv/workspace/output")
           (Exited 0 (Some (pystr "ok")) (Some [])) tt tt tt tt);
    reflexivity.
Defined.

(** X14.  For an [environment] that is a mapping, whatever it holds, the
    process is started with [WORKSPACE], [WORKSPACE_TEMP] and
    [WORKSPACE_OUTPUT] set to the paths of the Workspace Manager; every
    other variable is the caller's when the caller gives it and the
    host's otherwise. *)
Theorem workspace_variables_win
    {OS : Type}
    (wm_get_session_path wm_get_temp_path wm_get_output_path : OS -> outcome str * OS)
    (spawn : list str -> str -> gmap string value -> bool -> value ->
             OS -> outcome completion * OS)
    (os_environ : gmap string value) (system_name : str)
    (render_other : value -> str) (split_whitespace : str -> list str)
    (pairs_environment :
       str -> str -> value -> bool -> bool -> value -> SM OS ToolResponse)
    (command work_dir : str) (timeout : value)
    (capture_output shell : bool) (d : gmap string value) (st : state OS)
    (session temp output : str) (w1 w2 w3 : OS) :
  wm_get_session_path (os st) = (Return session, w1) ->
  wm_get_temp_path w1 = (Return temp, w2) ->
  wm_get_output_path w2 = (Return output, w3) ->
  exists argv env,
    last (calls (snd (_execute_command wm_get_session_path wm_get_temp_path
                        wm_get_output_path spawn os_environ system_name
                        render_other split_whitespace pairs_environment command work_dir
                        timeout capture_output shell (VDict d) st)))
    = Some (Spawn argv work_dir env capture_output timeout)
    /\ env !! "WORKSPACE" = Some (VStr session)
    /\ env !! "WORKSPACE_TEMP" = Some (VStr temp)
    /\ env !! "WORKSPACE_OUTPUT" = Some (VStr output)
    /\ forall k : string,
         k <> "WORKSPACE"%string -> k <> "WORKSPACE_TEMP"%string ->
         k <> "WORKSPACE_OUTPUT"%string ->
         env !! k = match d !! k with
                    | Some v => Some v
                    | None => os_environ !! k
                    end.
Proof.
  intros Hs Ht Ho.
  unfold _execute_command, stry, sbind, call, sret, env_update. cbn [os calls].
  rewrite Hs. cbn [os calls]. rewrite Ht. cbn [os calls]. rewrite Ho.
  cbn [os calls].
  match goal with
  | |- context [spawn ?argv work_dir ?env capture_output timeout w3] =>
      exists argv, env; destruct (spawn argv work_dir env capture_output timeout w3)
        as [[done|e] w4]
  end.
  - split.
    { destruct done; cbn [snd calls]; apply last_snoc. }
    split; [repeat (rewrite lookup_insert_ne by discriminate); apply lookup_insert_eq|].
    split; [repeat (rewrite lookup_insert_ne by discriminate); apply lookup_insert_eq|].
    split; [apply lookup_insert_eq|].
    intros k H1 H2 H3. rewrite !lookup_insert_ne by congruence.
    rewrite lookup_union. destruct (d !! k), (os_environ !! k); reflexivity.
  - split.
    { destruct (derives_Exception (exn_cls e)); cbn [snd calls];
        apply last_snoc. }
    split; [repeat (rewrite lookup_insert_ne by discriminate); apply lookup_insert_eq|].
    split; [repeat (rewrite lookup_insert_ne by discriminate); apply lookup_insert_eq|].
    split; [apply lookup_insert_eq|].
    intros k H1 H2 H3. rewrite !lookup_insert_ne by congruence.
    rewrite lookup_union. destruct (d !! k), (os_environ !! k); reflexivity.
Qed.

Lemma workspace_variables_win_witness :
  exists argv env,
    last (calls (snd (_execute_command QuietHost.get_session_path
                        QuietHost.get_temp_path QuietHost.get_output_path
                        QuietHost.spawn QuietHost.os_environ (pystr "Linux")
                        QuietHost.render_other QuietHost.split_whitespace QuietHost.pairs_environment
                        (pystr "env") (pystr "/srv/workspace/session") (VInt 30)
                        true true
                        (VDict {[ "WORKSPACE" := VStr (pystr "/etc") ]})
                        QuietHost.start)))
    = Some (Spawn argv (pystr "/srv/workspace/session") env true (VInt 30))
    /\ env !! "WORKSPACE" = Some (VStr (pystr "/srv/workspace/session"))
    /\ env !! "WORKSPACE_TEMP" = Some (VStr (pystr "/srv/workspace/temp"))
    /\ env !! "WORKSPACE_OUTPUT" = Some (VStr (pystr "/srv/workspace/output"))
    /\ forall k : string,
         k <> "WORKSPACE"%string -> k <> "WORKSPACE_TEMP"%string ->
         k <> "WORKSPACE_OUTPUT"%string ->
         env !! k
         = match ({[ "WORKSPACE" := VStr (pystr "/etc") ]} : gmap string value) !! k with
           | Some v => Some v
           | None => QuietHost.os_environ !! k
           end.
Proof.
  apply (workspace_variables_win QuietHost.get_session_path
           QuietHost.get_temp_path QuietHost.get_output_path QuietHost.spawn
           QuietHost.os_environ (pystr "Linux") QuietHost.render_other
           QuietHost.split_whitespace QuietHost.pairs_environment (pystr "env")
           (pystr "/srv/workspace/session") (VInt 30) true true
           {[ "WORKSPACE" := VStr (pystr "/etc") ]} QuietHost.start
           (pystr "/srv/workspace/session") (pystr "/srv/workspace/temp")
           (pystr "/srv/workspace/output") tt tt tt);
    reflexivity.
Defined.



End ShellExecFacts.

(* ===================================================================== *)
(** * Loading the settings                                                *)
(* ===================================================================== *)

Module LoadersFacts.
Import Py Settings SettingsSpec SettingsFacts Loaders.

(** [load_from_env] reads nothing from the environment: it always
    returns the default settings, which [validate] turns down. *)
Theorem load_from_env_is_default :
  load_from_env = Return default
  /\ (forall s, load_from_env = Return s -> validate s = Return false).
Proof.
  split; [reflexivity|]. intros s H. injection H as <-. reflexivity.
Qed.

Lemma check_keywords_unknown (fields : list string) (kw : gmap string value)
    (k : string) (v : value) :
  kw !! k = Some v -> ~ In k fields ->
  exists e, check_keywords fields kw = Raise e /\ derives_Exception (exn_cls e) = true.
Proof.
  intros Hk Hnot. unfold check_keywords.
  destruct (forallb _ _) eqn:E.
  - exfalso. rewrite forallb_forall in E.
    assert (In k (map fst (map_to_list kw))) as Hin.
    { apply in_map_iff. exists (k, v). split; [reflexivity|].
      apply list_elem_of_In, elem_of_map_to_list. exact Hk. }
    specialize (E k Hin). apply bool_decide_eq_true in E.
    apply Hnot, list_elem_of_In, E.
  - eexists. split; reflexivity.
Qed.

(** What [build] raises derives from [Exception]. *)
Lemma build_raises (doc : value) (e : exn) :
  build doc = Raise e -> derives_Exception (exn_cls e) = true.
Proof.
  unfold build.
  assert (Hs : forall section e', section_kwargs doc section = Raise e' ->
                                  derives_Exception (exn_cls e') = true).
  { intros section e'. unfold section_kwargs.
    destruct doc; try (intros H; injection H as <-; reflexivity).
    destruct (d !! section) as [[]|]; intros H; try discriminate;
      injection H as <-; reflexivity. }
  assert (Hc : forall fields kw e', check_keywords fields kw = Raise e' ->
                                    derives_Exception (exn_cls e') = true).
  { intros fields kw e'. unfold check_keywords. destruct (forallb _ _);
      intros H; [discriminate | injection H as <-; reflexivity]. }
  repeat match goal with
  | |- obind (obind (section_kwargs doc ?s) ?mk) _ = Raise e -> _ =>
      destruct (section_kwargs doc s) as [?kw|?e0] eqn:?Hsec; cbn [obind];
      [ unfold mk at 1;
        match goal with
        | |- obind (obind (check_keywords ?f ?k) _) _ = _ -> _ =>
            destruct (check_keywords f k) as [[]|?e1] eqn:?Hck; cbn [obind];
            [ | intros H; injection H as <-; eapply Hc; eassumption ]
        end
      | intros H; injection H as <-; eapply Hs; eassumption ]
  end.
  discriminate.
Qed.

(** A keyword that is no field of its section makes [build] raise. *)
Lemma build_unknown_key (d : gmap string value) (section k : string)
    (kw : gmap string value) (v : value) :
  In section sections ->
  d !! section = Some (VDict kw) ->
  kw !! k = Some v ->
  ~ In k (section_fields section) ->
  exists e, build (VDict d) = Raise e.
Proof.
  intros Hin Hsec Hk Hnot.
  destruct (build (VDict d)) as [s|e] eqn:Hb; [|exists e; reflexivity].
  exfalso. revert Hb. unfold build.
  repeat match goal with
  | |- obind (obind (section_kwargs (VDict d) ?s) ?mk) _ = Return _ -> _ =>
      destruct (obind (section_kwargs (VDict d) s) mk) as [?c|?e0] eqn:?Hmk;
      cbn [obind]; [|discriminate]
  end.
  intros _.
  simpl in Hin.
  destruct Hin as [<-|[<-|[<-|[<-|[<-|[<-|[<-|[]]]]]]]];
    match goal with
    | H : obind (section_kwargs (VDict d) ?s) ?mk = Return _, Hs : d !! ?s = Some _ |- _ =>
        unfold section_kwargs in H; rewrite Hs in H; cbn [obind] in H;
        unfold mk in H;
        destruct (check_keywords_unknown _ kw k v Hk Hnot) as [e [He _]];
        let f := eval vm_compute in (section_fields s) in
        change (section_fields s) with f in He;
        rewrite He in H; discriminate
    end.
Qed.

(** X16.  [load_from_file] falls back to the default settings, all of
    them, when the file is missing and [Path.exists] says so, when PyYAML
    raises an exception that derives from [Exception], when the document
    is empty, and when any section names a keyword that is no field of
    it.  The test [config_path.exists()] stands before the guarded
    block: the [OSError] it raises for a path it cannot look at leaves
    [load_from_file] as it is, and it is the only exception deriving from
    [Exception] that does. *)
Theorem load_from_file_falls_back
    (text : Type) (yaml_safe_load : text -> outcome value)
    (config_file : str) (fs : filesystem text) :
  (files fs !! config_file = None ->
   stat_error fs config_file = None ->
   load_from_file yaml_safe_load config_file fs = Return default)
  /\ (forall content e,
        files fs !! config_file = Some content ->
        yaml_safe_load content = Raise e ->
        derives_Exception (exn_cls e) = true ->
        load_from_file yaml_safe_load config_file fs = Return default)
  /\ (forall content doc,
        files fs !! config_file = Some content ->
        yaml_safe_load content = Return doc ->
        truthy doc = false ->
        load_from_file yaml_safe_load config_file fs = Return default)
  /\ (forall content d section kw k v,
        files fs !! config_file = Some content ->
        yaml_safe_load content = Return (VDict d) ->
        In section sections ->
        d !! section = Some (VDict kw) ->
        kw !! k = Some v ->
        ~ In k (section_fields section) ->
        load_from_file yaml_safe_load config_file fs = Return default)
  /\ (forall msg,
        files fs !! config_file = None ->
        stat_error fs config_file = Some msg ->
        load_from_file yaml_safe_load config_file fs = Raise (Exn OSError msg))
  /\ (forall e,
        load_from_file yaml_safe_load config_file fs = Raise e ->
        derives_Exception (exn_cls e) = true ->
        files fs !! config_file = None
        /\ exists msg, stat_error fs config_file = Some msg
                       /\ e = Exn OSError msg).
Proof.
  unfold load_from_file. split; [|split; [|split; [|split; [|split]]]].
  - intros -> ->. reflexivity.
  - intros content e -> -> Hd. simpl. rewrite Hd. reflexivity.
  - intros content doc -> -> Ht. simpl. rewrite Ht. reflexivity.
  - intros content d section kw k v -> -> Hin Hsec Hk Hnot. cbn [obind].
    destruct (truthy (VDict d)); [|reflexivity]. cbn [negb].
    destruct (build_unknown_key d section k kw v Hin Hsec Hk Hnot) as [e He].
    rewrite He. unfold try_except. rewrite (build_raises _ _ He). reflexivity.
  - intros msg -> ->. reflexivity.
  - intros e. destruct (files fs !! config_file) as [content|].
    + destruct (yaml_safe_load content) as [doc|e1]; cbn [obind].
      * destruct (truthy doc); cbn [negb]; [|discriminate].
        destruct (build doc) as [s|e2] eqn:Hb; [discriminate|].
        unfold try_except. rewrite (build_raises _ _ Hb). discriminate.
      * unfold try_except.
        destruct (derives_Exception (exn_cls e1)) eqn:Hd; [discriminate|].
        intros H. injection H as <-. congruence.
    + destruct (stat_error fs config_file) as [msg|]; [|discriminate].
      intros H _. injection H as <-. split; [reflexivity|].
      exists msg. split; reflexivity.
Qed.

(** A name of three hundred characters on a host whose [Path.exists]
    hands on the [OSError] of a name that is too long. *)
Lemma long_name_raises :
  load_from_file load_id long_name disk_with_limit
  = Raise (Exn OSError (pystr "[Errno 36] File name too long")).
Proof. vm_compute. reflexivity. Qed.

(** A file with a misspelt field: the key that is spelt right is lost
    with it. *)
Lemma typo_loses_the_file :
  load_from_file load_id (pystr "config.yaml") disk_with_typo = Return default.
Proof. vm_compute. reflexivity. Qed.


Lemma make_of_absent (d : gmap string value) (section : string) :
  d !! section = None -> section_kwargs (VDict d) section = Return ∅.
Proof. intros H. unfold section_kwargs. rewrite H. reflexivity. Qed.

(** X17.  A section that the file leaves out is loaded with its default
    values, whatever the other sections hold. *)
Theorem absent_section_is_default (d : gmap string value) (s : t) :
  build (VDict d) = Return s ->
  (d !! "agent" = None -> agent s = AgentConfig.default)
  /\ (d !! "workspace" = None -> workspace s = WorkspaceConfig.default)
  /\ (d !! "browser" = None -> browser s = BrowserConfig.default)
  /\ (d !! "search" = None -> search s = SearchConfig.default)
  /\ (d !! "tools" = None -> tools s = ToolsConfig.default)
  /\ (d !! "logging" = None -> logging s = LoggingConfig.default)
  /\ (d !! "security" = None -> security s = SecurityConfig.default).
Proof.
  unfold build.
  repeat match goal with
  | |- obind (obind (section_kwargs (VDict d) ?sec) ?mk) _ = Return _ -> _ =>
      destruct (obind (section_kwargs (VDict d) sec) mk) as [?c|?e0] eqn:?Hmk;
      cbn [obind]; [|discriminate]
  end.
  intros H. injection H as <-. cbn [agent workspace browser search tools logging security].
  repeat split; intros Habs;
    match goal with
    | H : obind (section_kwargs (VDict d) ?sec) ?mk = Return ?c |- ?c = _ =>
        rewrite (make_of_absent d sec Habs) in H; vm_compute in H;
        injection H as <-; reflexivity
    end.
Qed.

Lemma absent_section_is_default_witness :
  build (VDict only_api_key) = Return loaded_only_api_key
  /\ workspace loaded_only_api_key = WorkspaceConfig.default.
Proof.
  assert (build (VDict only_api_key) = Return loaded_only_api_key) as H
    by (vm_compute; reflexivity).
  split; [exact H|].
  refine (proj1 (proj2 (absent_section_is_default _ _ H)) _).
  vm_compute. reflexivity.
Defined.

(** X18.  A section whose value is no mapping, such as a section header
    with nothing under it, costs the whole file: every section is loaded
    with its defaults. *)
Theorem section_not_a_mapping
    (text : Type) (yaml_safe_load : text -> outcome value)
    (config_file : str) (fs : filesystem text)
    (content : text) (d : gmap string value) (section : string) (v : value) :
  files fs !! config_file = Some content ->
  yaml_safe_load content = Return (VDict d) ->
  In section sections ->
  d !! section = Some v ->
  (forall kw, v <> VDict kw) ->
  load_from_file yaml_safe_load config_file fs = Return default.
Proof.
  intros Hf Hy Hin Hsec Hv. unfold load_from_file. rewrite Hf, Hy. cbn [obind].
  destruct (truthy (VDict d)); [|reflexivity]. cbn [negb].
  destruct (build (VDict d)) as [s|e] eqn:Hb.
  - exfalso. revert Hb. unfold build.
    repeat match goal with
    | |- obind (obind (section_kwargs (VDict d) ?sec) ?mk) _ = Return _ -> _ =>
        destruct (obind (section_kwargs (VDict d) sec) mk) as [?c|?e0] eqn:?Hmk;
        cbn [obind]; [|discriminate]
    end.
    intros _. simpl in Hin.
    destruct Hin as [<-|[<-|[<-|[<-|[<-|[<-|[<-|[]]]]]]]];
      match goal with
      | H : obind (section_kwargs (VDict d) ?sec) ?mk = Return _,
        Hs : d !! ?sec = Some _ |- _ =>
          unfold section_kwargs in H; rewrite Hs in H;
          destruct v; try discriminate H; eapply Hv; reflexivity
      end.
  - unfold try_except. rewrite (build_raises _ _ Hb). reflexivity.
Qed.

Lemma section_not_a_mapping_witness :
  load_from_file load_id (pystr "config.yaml")
    {| files := {[ pystr "config.yaml" :=
                     VDict (<["agent" := VNone]> (
                            <["tools" := VDict {[ "web_search" := VBool false ]}]> ∅)) ]};
       stat_error := fun _ => None;
       writable := fun _ => true |}
  = Return default.
Proof.
  eapply (section_not_a_mapping value load_id _ _ _ _ "agent" VNone).
  - vm_compute. reflexivity.
  - reflexivity.
  - simpl. auto.
  - vm_compute. reflexivity.
  - intros kw H. discriminate H.
Defined.

Section Initialize.

Context {text W : Type}.
Variable yaml_safe_load : text -> outcome value.
Variable start_components : t -> W -> outcome unit * W.

Lemma load_with_priority_absent (config_file : option str) (fs : filesystem text) :
  files fs !! (match config_file with Some f => f | None => pystr "config.yaml" end)
    = None ->
  stat_error fs (match config_file with Some f => f | None => pystr "config.yaml" end)
    = None ->
  load_with_priority yaml_safe_load config_file fs = Return default.
Proof. intros H H'. unfold load_with_priority. rewrite H, H'. reflexivity. Qed.

(** A path that [Path.exists] cannot look at: the [OSError] leaves
    [load_with_priority], and [initialize] turns it into [False] with no
    settings at all. *)
Lemma initialize_unreachable (config_file : option str) (fs : filesystem text)
    (w : W) (msg : str) :
  files fs !! (match config_file with Some f => f | None => pystr "config.yaml" end)
    = None ->
  stat_error fs (match config_file with Some f => f | None => pystr "config.yaml" end)
    = Some msg ->
  load_with_priority yaml_safe_load config_file fs = Raise (Exn OSError msg)
  /\ initialize yaml_safe_load start_components config_file fs w
     = (Return false, {| settings := None; world := w |}).
Proof.
  intros H H'. unfold initialize, load_with_priority. rewrite H, H'.
  split; reflexivity.
Qed.

Lemma initialize_cases (config_file : option str) (fs : filesystem text) (w : W) :
  let r := initialize yaml_safe_load start_components config_file fs w in
  world (snd r) = w
  \/ exists s, load_with_priority yaml_safe_load config_file fs = Return s
       /\ settings (snd r) = Some s
       /\ validate s = Return true
       /\ world (snd r) = snd (start_components s w).
Proof.
  unfold initialize.
  destruct (load_with_priority yaml_safe_load config_file fs) as [s|e]; cbv zeta.
  - destruct (validate s) as [[|]|e] eqn:Hv.
    + right. exists s. destruct (start_components s w) as [[u|e] w'] eqn:Hs.
      * repeat split; first [exact Hv | reflexivity].
      * destruct (derives_Exception (exn_cls e)); repeat split;
          first [exact Hv | reflexivity].
    + left. reflexivity.
    + left. destruct (derives_Exception (exn_cls e)); reflexivity.
  - left. destruct (derives_Exception (exn_cls e)); reflexivity.
Qed.

End Initialize.

(** Without a configuration file that [Path.exists] can look for,
    [initialize] returns [False]: the
    settings are the defaults, whose API key is empty, and neither the
    logging, the Workspace Manager nor the agent is set up. *)
Theorem initialize_without_file
    (text W : Type) (yaml_safe_load : text -> outcome value)
    (start_components : t -> W -> outcome unit * W)
    (config_file : option str) (fs : filesystem text) (w : W) :
  files fs !! (match config_file with Some f => f | None => pystr "config.yaml" end)
    = None ->
  stat_error fs (match config_file with Some f => f | None => pystr "config.yaml" end)
    = None ->
  initialize yaml_safe_load start_components config_file fs w
  = (Return false, {| settings := Some default; world := w |}).
Proof.
  intros H H'. unfold initialize.
  rewrite (load_with_priority_absent yaml_safe_load config_file fs H H').
  reflexivity.
Qed.

Lemma initialize_without_file_witness :
  initialize load_id start_quietly None empty_disk 0%nat
  = (Return false, {| settings := Some default; world := 0%nat |}).
Proof.
  exact (initialize_without_file value nat load_id start_quietly None empty_disk 0%nat
           eq_refl eq_refl).
Defined.

(** X19.  [initialize] sets up the components at most once, and only with
    settings for which [validate] returned [True]; it returns [True] only
    then. *)
Theorem initialize_starts_validated
    (text W : Type) (yaml_safe_load : text -> outcome value)
    (start_components : t -> W -> outcome unit * W)
    (config_file : option str) (fs : filesystem text) (w : W) :
  let r := initialize yaml_safe_load start_components config_file fs w in
  (world (snd r) = w
   \/ exists s, load_with_priority yaml_safe_load config_file fs = Return s
        /\ settings (snd r) = Some s
        /\ validate s = Return true
        /\ world (snd r) = snd (start_components s w))
  /\ (fst r = Return true ->
      exists s, settings (snd r) = Some s /\ validate s = Return true
                /\ fst (start_components s w) = Return tt).
Proof.
  cbv zeta. split; [apply initialize_cases|].
  unfold initialize.
  destruct (load_with_priority yaml_safe_load config_file fs) as [s|e]; cbv zeta.
  - destruct (validate s) as [[|]|e] eqn:Hv.
    + destruct (start_components s w) as [[[]|e] w'] eqn:Hs; cbn [fst snd settings].
      * intros _. exists s. split; [reflexivity|]. split; [exact Hv|].
        rewrite Hs. reflexivity.
      * destruct (derives_Exception (exn_cls e)); discriminate.
    + discriminate.
    + destruct (derives_Exception (exn_cls e)); discriminate.
  - destruct (derives_Exception (exn_cls e)); discriminate.
Qed.

(** With a configuration file that passes validation the components are
    started. *)
Lemma initialize_with_config :
  initialize load_id start_quietly None disk_with_config 0%nat
  = (Return true, {| settings := Some working; world := 1%nat |}).
Proof. vm_compute. reflexivity. Qed.

End LoadersFacts.

(* ===================================================================== *)
(** * Comparing a value with a string literal                             *)
(* ===================================================================== *)

Module StrEqFacts.
Import Py.

Lemma str_eq_false (v : value) (s : str) : v <> VStr s -> str_eq v s = false.
Proof.
  intros H. unfold str_eq. destruct v; try reflexivity.
  apply bool_decide_eq_false. intros ->. apply H. reflexivity.
Qed.

Lemma str_eq_true (s : str) : str_eq (VStr s) s = true.
Proof. unfold str_eq. apply bool_decide_eq_true. reflexivity. Qed.

Lemma str_eq_spec (v : value) (s : str) : str_eq v s = true <-> v = VStr s.
Proof.
  split.
  - unfold str_eq. destruct v; try discriminate.
    intros H. apply bool_decide_eq_true in H. rewrite H. reflexivity.
  - intros ->. apply str_eq_true.
Qed.

End StrEqFacts.

(* ===================================================================== *)
(** * The file tool: guards, failures and the other actions               *)
(* ===================================================================== *)

Module FileActionsFacts.
Import Py BaseTool Helpers FileTool StrEqFacts.

Section Guards.

Context {WS : Type}.
Variable wm_read_file : str -> str -> WS -> outcome (option str) * WS.
Variable wm_resolve_path : str -> WS -> outcome str * WS.
Variable wm_get_file_info : str -> WS -> outcome (option (gmap string value)) * WS.
Variable wm_write_file : str -> str -> str -> WS -> outcome bool * WS.
Variable guess_type : str -> option str.
Variable elsewhere : gmap string value -> WS -> outcome ToolResponse * WS.

Local Abbreviation run :=
  (FileTool.execute wm_read_file wm_resolve_path wm_get_file_info wm_write_file
     guess_type elsewhere).

Lemma ftry_contains {A} (body : FM WS A) (f : exn -> A) (st : state WS) (e : exn) :
  fst (ftry body (fun e => fret (f e)) st) = Raise e ->
  derives_Exception (exn_cls e) = false.
Proof.
  unfold ftry. destruct (body st) as [[a|e0] st']; [discriminate|].
  destruct (derives_Exception (exn_cls e0)) eqn:Hd; [discriminate|].
  cbn [fst]. intros H. injection H as <-. exact Hd.
Qed.

Lemma file_guards (kwargs : gmap string value) (st : state WS) :
  (truthy (kwarg kwargs "action" VNone) = false ->
   run kwargs st
   = (Return (failure (pystr "缺少操作类型参数") (pystr "Missing action parameter")),
      st))
  /\ (truthy (kwarg kwargs "action" VNone) = true ->
      truthy (kwarg kwargs "path" (VStr [])) = false ->
      kwarg kwargs "action" VNone <> VStr (pystr "list") ->
      run kwargs st
      = (Return (failure (pystr "缺少路径参数") (pystr "Missing path parameter")),
         st)).
Proof.
  unfold FileTool.execute. split.
  - intros ->. reflexivity.
  - intros -> -> Hl. cbn [negb andb].
    destruct (str_eq _ _) eqn:E; [|reflexivity].
    exfalso. apply Hl. unfold str_eq in E.
    destruct (kwarg kwargs "action" VNone); try discriminate.
    apply bool_decide_eq_true in E. rewrite E. reflexivity.
Qed.

Lemma read_absent (path encoding : str) (st : state WS) (w : WS) :
  wm_read_file path encoding (ws st) = (Return None, w) ->
  _read_file wm_read_file wm_resolve_path wm_get_file_info guess_type
    path encoding st
  = (Return (failure (pystr "无法读取文件: " ++ path)
               (pystr "File not found or unreadable")),
     {| ws := w; calls := calls st ++ [Read_file path encoding] |}).
Proof.
  intros H. unfold _read_file, ftry, fbind, call. rewrite H. reflexivity.
Qed.

Lemma read_raises (path encoding : str) (st : state WS) (w : WS) (e : exn) :
  wm_read_file path encoding (ws st) = (Raise e, w) ->
  derives_Exception (exn_cls e) = true ->
  _read_file wm_read_file wm_resolve_path wm_get_file_info guess_type
    path encoding st
  = (Return (failure (pystr "读取文件失败: " ++ exn_text e) (exn_text e)),
     {| ws := w; calls := calls st ++ [Read_file path encoding] |}).
Proof.
  intros H Hd. unfold _read_file, ftry, fbind, call. rewrite H, Hd. reflexivity.
Qed.

End Guards.

(** X20.  [execute] of the file tool lets no exception that derives from
    [Exception] out, whichever action is asked for and whatever the
    Workspace Manager raises. *)
Theorem file_execute_contains
    {WS : Type}
    (wm_read_file : str -> str -> WS -> outcome (option str) * WS)
    (wm_resolve_path : str -> WS -> outcome str * WS)
    (wm_get_file_info : str -> WS -> outcome (option (gmap string value)) * WS)
    (wm_write_file : str -> str -> str -> WS -> outcome bool * WS)
    (guess_type : str -> option str)
    (elsewhere : gmap string value -> WS -> outcome ToolResponse * WS)
    (kwargs : gmap string value) (st : state WS) (e : exn) :
  fst (FileTool.execute wm_read_file wm_resolve_path wm_get_file_info
         wm_write_file guess_type elsewhere kwargs st) = Raise e ->
  derives_Exception (exn_cls e) = false.
Proof.
  unfold FileTool.execute.
  destruct (negb (truthy (kwarg kwargs "action" VNone))); [discriminate|].
  destruct (_ && _); [discriminate|].
  apply ftry_contains.
Qed.

Lemma file_execute_contains_witness :
  fst (FileTool.execute FileActions.read_interrupted Workspace.resolve_path
         Workspace.get_file_info Workspace.write_file (fun _ => None)
         Workspace.elsewhere FileActions.read_notes Workspace.with_notes)
  = Raise FileActions.interrupt
  /\ derives_Exception (exn_cls FileActions.interrupt) = false.
Proof.
  assert (fst (FileTool.execute FileActions.read_interrupted Workspace.resolve_path
                 Workspace.get_file_info Workspace.write_file (fun _ => None)
                 Workspace.elsewhere FileActions.read_notes Workspace.with_notes)
          = Raise FileActions.interrupt) as H by (vm_compute; reflexivity).
  split; [exact H|].
  exact (file_execute_contains _ _ _ _ _ _ _ _ _ H).
Defined.

Section Others.

Import FileActions.

Context {WS : Type}.
Variable wm_create_directory : value -> WS -> outcome bool * WS.
Variable wm_resolve_path : value -> WS -> outcome located * WS.
Variable wm_delete_file : value -> WS -> outcome bool * WS.
Variable wm_delete_directory : value -> bool -> WS -> outcome bool * WS.
Variable wm_copy_file : value -> value -> WS -> outcome bool * WS.
Variable wm_move_file : value -> value -> WS -> outcome bool * WS.
Variable render_other : value -> str.
Variable _list_directory : value -> value -> M (WS := WS) ToolResponse.
Variable _get_file_info : value -> M (WS := WS) ToolResponse.
Variable _search_files : value -> value -> value -> M (WS := WS) ToolResponse.
Variable ill_typed : gmap string value -> M (WS := WS) ToolResponse.
Variable wm_read_file : str -> str -> WS -> outcome (option str) * WS.
Variable wm_resolve_text : str -> WS -> outcome str * WS.
Variable wm_get_file_info : str -> WS -> outcome (option (gmap string value)) * WS.
Variable wm_write_file : str -> str -> str -> WS -> outcome bool * WS.
Variable guess_type : str -> option str.

Local Abbreviation whole :=
  (FileActions.execute wm_create_directory wm_resolve_path wm_delete_file
     wm_delete_directory wm_copy_file wm_move_file render_other
     _list_directory _get_file_info _search_files ill_typed
     wm_read_file wm_resolve_text wm_get_file_info wm_write_file guess_type).

Local Abbreviation rest :=
  (others wm_create_directory wm_resolve_path wm_delete_file
     wm_delete_directory wm_copy_file wm_move_file render_other
     _list_directory _get_file_info _search_files ill_typed).

(** [execute], past its guards, for an action that is neither [read] nor
    [write], is what [others] gives when it returns. *)
Lemma whole_others (kwargs : gmap string value) (st : state (wstate WS))
    (r : ToolResponse) :
  truthy (kwarg kwargs "action" VNone) = true ->
  truthy (kwarg kwargs "path" (VStr [])) = true ->
  kwarg kwargs "action" VNone <> VStr (pystr "read") ->
  kwarg kwargs "action" VNone <> VStr (pystr "write") ->
  rest kwargs (ws st) = (Return r, ws st) ->
  whole kwargs st = (Return r, st).
Proof.
  intros Ha Hp Hr Hw Hrest. unfold FileActions.execute, FileTool.execute.
  rewrite Ha, Hp. cbn [negb andb].
  rewrite (str_eq_false _ _ Hr), (str_eq_false _ _ Hw).
  unfold ftry. rewrite Hrest. destruct st. reflexivity.
Qed.

End Others.

(** X21.  The delete action resolves the path first.  A path that does
    not exist is a failure and nothing is deleted; a file is deleted with
    [delete_file]; anything else with [delete_directory], recursively.
    One deletion is asked for at most, and the response succeeds exactly
    when the Workspace Manager reported it done. *)
Theorem delete_resolves_then_deletes_once
    {WS : Type}
    (wm_resolve_path : value -> WS -> outcome FileActions.located * WS)
    (wm_delete_file : value -> WS -> outcome bool * WS)
    (wm_delete_directory : value -> bool -> WS -> outcome bool * WS)
    (render_other : value -> str)
    (path : value) (st : FileActions.wstate WS) :
  let run := FileActions._delete_file_or_directory wm_resolve_path wm_delete_file
               wm_delete_directory render_other path st in
  match wm_resolve_path path (FileActions.wm st) with
  | (Return l, w) =>
      if FileActions.present l then
        if FileActions.is_file l then
          FileActions.ops (snd run)
          = FileActions.ops st
            ++ [FileActions.Resolve path; FileActions.Delete_file path]
          /\ FileActions.wm (snd run) = snd (wm_delete_file path w)
          /\ (forall r, fst run = Return r ->
                (success r = true <-> fst (wm_delete_file path w) = Return true))
        else
          FileActions.ops (snd run)
          = FileActions.ops st
            ++ [FileActions.Resolve path; FileActions.Delete_directory path true]
          /\ FileActions.wm (snd run) = snd (wm_delete_directory path true w)
          /\ (forall r, fst run = Return r ->
                (success r = true
                 <-> fst (wm_delete_directory path true w) = Return true))
      else
        run = (Return (failure
                         (pystr "文件或目录不存在: "
                          ++ FileActions.render render_other path)
                         (pystr "File or directory not found")),
               {| FileActions.wm := w;
                  FileActions.ops := FileActions.ops st ++ [FileActions.Resolve path] |})
  | (Raise e, w) =>
      snd run = {| FileActions.wm := w;
                   FileActions.ops := FileActions.ops st ++ [FileActions.Resolve path] |}
  end.
Proof.
  cbv zeta. unfold FileActions._delete_file_or_directory, FileActions.guarded,
    FileActions.bind, FileActions.op, FileActions.ret.
  destruct (wm_resolve_path path (FileActions.wm st)) as [[l|e] w] eqn:Hres.
  - destruct (FileActions.present l); cbn [negb]; [|reflexivity].
    destruct (FileActions.is_file l); cbn [FileActions.wm FileActions.ops].
    + destruct (wm_delete_file path w) as [[[|]|e] w'] eqn:Hd;
        try destruct (derives_Exception (exn_cls e));
        cbn [fst snd FileActions.wm FileActions.ops]; rewrite <- app_assoc;
        repeat split; try reflexivity; intros;
        repeat match goal with
               | H : Return _ = Return _ |- _ => injection H as <-
               end;
        try reflexivity; try discriminate.
    + destruct (wm_delete_directory path true w) as [[[|]|e] w'] eqn:Hd;
        try destruct (derives_Exception (exn_cls e));
        cbn [fst snd FileActions.wm FileActions.ops]; rewrite <- app_assoc;
        repeat split; try reflexivity; intros;
        repeat match goal with
               | H : Return _ = Return _ |- _ => injection H as <-
               end;
        try reflexivity; try discriminate.
  - destruct (derives_Exception (exn_cls e)); reflexivity.
Qed.

(** Deleting the directory [drafts] and the missing [ghost] from the
    sample tree. *)
Lemma delete_samples :
  let del := FileActions._delete_file_or_directory FileActions.resolve_in
               FileActions.delete_file_in FileActions.delete_directory_in
               FileActions.question_mark in
  FileActions.ops (snd (del (VStr (pystr "drafts")) FileActions.sample_tree))
  = [FileActions.Resolve (VStr (pystr "drafts"));
     FileActions.Delete_directory (VStr (pystr "drafts")) true]
  /\ FileActions.wm (snd (del (VStr (pystr "drafts")) FileActions.sample_tree))
     = {[ pystr "notes.txt" := true ]}
  /\ FileActions.ops (snd (del (VStr (pystr "ghost")) FileActions.sample_tree))
     = [FileActions.Resolve (VStr (pystr "ghost"))].
Proof. cbv zeta. repeat split; vm_compute; reflexivity. Qed.

(** An action that is none of the nine the tool knows is answered
    with the failure [Unsupported action]; no call is made on the
    Workspace Manager and its state is unchanged. *)
Theorem file_unsupported_action
    {WS : Type}
    (wm_create_directory : value -> WS -> outcome bool * WS)
    (wm_resolve_path : value -> WS -> outcome FileActions.located * WS)
    (wm_delete_file : value -> WS -> outcome bool * WS)
    (wm_delete_directory : value -> bool -> WS -> outcome bool * WS)
    (wm_copy_file wm_move_file : value -> value -> WS -> outcome bool * WS)
    (render_other : value -> str)
    (_list_directory : value -> value -> FileActions.M (WS := WS) ToolResponse)
    (_get_file_info : value -> FileActions.M (WS := WS) ToolResponse)
    (_search_files : value -> value -> value -> FileActions.M (WS := WS) ToolResponse)
    (ill_typed : gmap string value -> FileActions.M (WS := WS) ToolResponse)
    (wm_read_file : str -> str -> WS -> outcome (option str) * WS)
    (wm_resolve_text : str -> WS -> outcome str * WS)
    (wm_get_file_info : str -> WS -> outcome (option (gmap string value)) * WS)
    (wm_write_file : str -> str -> str -> WS -> outcome bool * WS)
    (guess_type : str -> option str)
    (kwargs : gmap string value) (st : state (FileActions.wstate WS)) :
  truthy (kwarg kwargs "action" VNone) = true ->
  truthy (kwarg kwargs "path" (VStr [])) = true ->
  (forall s, In s FileActions.supported -> kwarg kwargs "action" VNone <> VStr s) ->
  FileActions.execute wm_create_directory wm_resolve_path wm_delete_file
    wm_delete_directory wm_copy_file wm_move_file render_other
    _list_directory _get_file_info _search_files ill_typed
    wm_read_file wm_resolve_text wm_get_file_info wm_write_file guess_type
    kwargs st
  = (Return (failure (pystr "不支持的操作类型: "
                      ++ FileActions.render render_other
                           (kwarg kwargs "action" VNone))
               (pystr "Unsupported action")), st).
Proof.
  intros Ha Hp Hs.
  assert (forall s, In s FileActions.supported -> str_eq (kwarg kwargs "action" VNone) s = false)
    as Hf by (intros s Hin; apply str_eq_false, Hs, Hin).
  apply whole_others; try assumption; try (apply Hs; simpl; tauto).
  unfold FileActions.others.
  rewrite !Hf by (simpl; tauto). reflexivity.
Qed.

Lemma file_unsupported_action_witness :
  let kwargs : gmap string value :=
    <["action" := VStr (pystr "rename")]> (<["path" := VStr (pystr "notes.txt")]> ∅) in
  let st := {| ws := FileActions.sample_tree; calls := [] |} in
  FileActions.execute
    (fun _ w => (Return true, w)) FileActions.resolve_in FileActions.delete_file_in
    FileActions.delete_directory_in FileActions.copy_in FileActions.copy_in
    FileActions.question_mark
    (fun _ _ => FileActions.ret FileActions.missing_destination)
    (fun _ => FileActions.ret FileActions.missing_destination)
    (fun _ _ _ => FileActions.ret FileActions.missing_destination)
    (fun _ => FileActions.ret FileActions.missing_destination)
    (fun _ _ w => (Return None, w)) (fun p w => (Return p, w))
    (fun _ w => (Return None, w)) (fun _ _ _ w => (Return false, w))
    (fun _ => None) kwargs st
  = (Return (failure (pystr "不支持的操作类型: " ++ pystr "rename")
               (pystr "Unsupported action")), st).
Proof.
  cbv zeta.
  apply (file_unsupported_action (WS := FileActions.tree)).
  - vm_compute. reflexivity.
  - vm_compute. reflexivity.
  - intros s Hin. vm_compute. simpl in Hin.
    repeat (destruct Hin as [<-|Hin]; [discriminate|]). destruct Hin.
Defined.

(** A copy or a move without a destination is answered with the
    failure [Missing destination parameter]; nothing is copied or moved
    and the Workspace Manager is not called. *)
Theorem copy_move_need_destination
    {WS : Type}
    (wm_create_directory : value -> WS -> outcome bool * WS)
    (wm_resolve_path : value -> WS -> outcome FileActions.located * WS)
    (wm_delete_file : value -> WS -> outcome bool * WS)
    (wm_delete_directory : value -> bool -> WS -> outcome bool * WS)
    (wm_copy_file wm_move_file : value -> value -> WS -> outcome bool * WS)
    (render_other : value -> str)
    (_list_directory : value -> value -> FileActions.M (WS := WS) ToolResponse)
    (_get_file_info : value -> FileActions.M (WS := WS) ToolResponse)
    (_search_files : value -> value -> value -> FileActions.M (WS := WS) ToolResponse)
    (ill_typed : gmap string value -> FileActions.M (WS := WS) ToolResponse)
    (wm_read_file : str -> str -> WS -> outcome (option str) * WS)
    (wm_resolve_text : str -> WS -> outcome str * WS)
    (wm_get_file_info : str -> WS -> outcome (option (gmap string value)) * WS)
    (wm_write_file : str -> str -> str -> WS -> outcome bool * WS)
    (guess_type : str -> option str)
    (kwargs : gmap string value) (st : state (FileActions.wstate WS)) :
  kwarg kwargs "action" VNone = VStr (pystr "copy")
  \/ kwarg kwargs "action" VNone = VStr (pystr "move") ->
  truthy (kwarg kwargs "path" (VStr [])) = true ->
  truthy (kwarg kwargs "destination" VNone) = false ->
  FileActions.execute wm_create_directory wm_resolve_path wm_delete_file
    wm_delete_directory wm_copy_file wm_move_file render_other
    _list_directory _get_file_info _search_files ill_typed
    wm_read_file wm_resolve_text wm_get_file_info wm_write_file guess_type
    kwargs st
  = (Return FileActions.missing_destination, st).
Proof.
  intros Ha Hp Hd.
  apply whole_others; try assumption.
  - destruct Ha as [-> | ->]; reflexivity.
  - destruct Ha as [-> | ->]; discriminate.
  - destruct Ha as [-> | ->]; discriminate.
  - unfold FileActions.others.
    destruct Ha as [-> | ->]; rewrite Hd; reflexivity.
Qed.

Lemma copy_move_need_destination_witness :
  let kwargs : gmap string value :=
    <["action" := VStr (pystr "copy")]> (<["path" := VStr (pystr "notes.txt")]> ∅) in
  let st := {| ws := FileActions.sample_tree; calls := [] |} in
  FileActions.execute
    (fun _ w => (Return true, w)) FileActions.resolve_in FileActions.delete_file_in
    FileActions.delete_directory_in FileActions.copy_in FileActions.copy_in
    FileActions.question_mark
    (fun _ _ => FileActions.ret FileActions.missing_destination)
    (fun _ => FileActions.ret FileActions.missing_destination)
    (fun _ _ _ => FileActions.ret FileActions.missing_destination)
    (fun _ => FileActions.ret FileActions.missing_destination)
    (fun _ _ w => (Return None, w)) (fun p w => (Return p, w))
    (fun _ w => (Return None, w)) (fun _ _ _ w => (Return false, w))
    (fun _ => None) kwargs st
  = (Return FileActions.missing_destination, st).
Proof.
  cbv zeta.
  apply (copy_move_need_destination (WS := FileActions.tree)).
  - left. vm_compute. reflexivity.
  - vm_compute. reflexivity.
  - vm_compute. reflexivity.
Defined.

End FileActionsFacts.

(* ===================================================================== *)
(** * The browser tool in simulation                                      *)
(* ===================================================================== *)

Module BrowserMoreFacts.
Import Py BaseTool BrowserTool BrowserMore StrEqFacts.

Ltac simulated_branch :=
  cbn [_navigate _click_element _fill_form _submit_form _extract_content
       _take_screenshot _go_back _go_forward _refresh_page _get_page_title
       _get_current_url _find_element driver fst snd].

Section Browser.

Variable Driver : Type.
Variable launch : option Driver.
Variable real : Driver -> request -> browser Driver -> outcome ToolResponse * browser Driver.
Variable render_other : value -> str.

Local Abbreviation run := (execute Driver launch real render_other).
Local Abbreviation simulate := (execute Driver None real render_other).

Lemma initialize_none (b : browser Driver) :
  driver b = None -> _initialize_browser Driver None b = b.
Proof. destruct b. simpl. intros ->. reflexivity. Qed.

Lemma browser_guards (kwargs : gmap string value) (b : browser Driver) :
  (truthy (kwarg kwargs "action" VNone) = false ->
   run kwargs b
   = (Return (failure (pystr "缺少操作类型参数") (pystr "Missing action parameter")),
      b))
  /\ (truthy (kwarg kwargs "action" VNone) = true ->
      (forall s, In s supported_actions -> kwarg kwargs "action" VNone <> VStr s) ->
      run kwargs b
      = (Return (failure (pystr "不支持的操作类型: "
                          ++ render render_other (kwarg kwargs "action" VNone))
                   (pystr "Unsupported action")), b)).
Proof.
  unfold execute. cbv zeta. split.
  - intros ->. reflexivity.
  - intros -> Hs. cbn [negb].
    assert (existsb (str_eq (kwarg kwargs "action" VNone)) supported_actions = false)
      as ->; [|reflexivity].
    apply not_true_is_false. intros H. apply existsb_exists in H.
    destruct H as [s [Hin Heq]]. apply str_eq_spec in Heq. exact (Hs s Hin Heq).
Qed.

End Browser.



(** X23.  In simulation only [navigate] changes the tool: after any other
    action the current URL, the title and the history are what they
    were.  [back], [forward] and [refresh] report success without moving
    anywhere. *)
Theorem simulation_moves_only_on_navigate
    (Driver : Type)
    (real : Driver -> request -> browser Driver -> outcome ToolResponse * browser Driver)
    (render_other : value -> str)
    (kwargs : gmap string value) (b : browser Driver) :
  driver b = None ->
  kwarg kwargs "action" VNone <> VStr (pystr "navigate") ->
  snd (execute Driver None real render_other kwargs b) = b.
Proof.
  intros Hd Hn. unfold execute. cbv zeta.
  destruct (negb (truthy _)); [reflexivity|].
  destruct (negb (existsb _ _)); [reflexivity|].
  rewrite Hd, (initialize_none Driver b Hd), (str_eq_false _ _ Hn).
  destruct b as [d cu pt sh]. simpl in Hd. subst d.
  repeat match goal with
         | |- context [if str_eq ?a ?s then _ else _] => destruct (str_eq a s)
         | |- context [if negb ?c then _ else _] => destruct c; cbn [negb]
         end;
    simulated_branch; reflexivity.
Qed.

Lemma simulation_moves_only_on_navigate_witness :
  snd (NoBrowser.run go_back visited) = visited.
Proof.
  apply (simulation_moves_only_on_navigate Empty_set NoBrowser.real
           NoBrowser.render_other go_back visited).
  - reflexivity.
  - vm_compute. discriminate.
Defined.



(** X25.  The last branch of the dispatch is never taken: a request that
    passes the check against the supported actions is served by one of
    the twelve action methods, so in simulation no response carries the
    error [Action not implemented]. *)
Theorem simulation_never_unimplemented
    (Driver : Type)
    (real : Driver -> request -> browser Driver -> outcome ToolResponse * browser Driver)
    (render_other : value -> str)
    (kwargs : gmap string value) (b : browser Driver) (r : ToolResponse) :
  driver b = None ->
  fst (execute Driver None real render_other kwargs b) = Return r ->
  error r <> Some (pystr "Action not implemented").
Proof.
  intros Hd. unfold execute. cbv zeta.
  destruct (negb (truthy _)).
  { intros H. injection H as <-. cbn [error failure].
    intros H. vm_compute in H. discriminate H. }
  destruct (existsb _ supported_actions) eqn:Hex; cbn [negb].
  2:{ intros H. injection H as <-. cbn [error failure].
      intros H. vm_compute in H. discriminate H. }
  rewrite Hd, (initialize_none Driver b Hd).
  destruct b as [d cu pt sh]. simpl in Hd. subst d.
  cbn [existsb supported_actions map] in Hex.
  repeat match goal with
         | |- context [if str_eq ?a ?s then _ else _] =>
             destruct (str_eq a s) eqn:?
         | |- context [if negb ?c then _ else _] => destruct c; cbn [negb]
         end;
    simulated_branch; cbv beta iota;
    try (intros H; injection H as <-;
         cbn [error failure ok missing_selector];
         first [ discriminate
               | intros H; vm_compute in H; discriminate H ]).
Qed.

Lemma simulation_never_unimplemented_witness :
  exists r, fst (NoBrowser.run go_back visited) = Return r
            /\ error r <> Some (pystr "Action not implemented").
Proof.
  eexists. split; [vm_compute; reflexivity|].
  apply (simulation_never_unimplemented Empty_set NoBrowser.real
           NoBrowser.render_other go_back visited); [reflexivity|].
  vm_compute. reflexivity.
Defined.

End BrowserMoreFacts.

(* ===================================================================== *)
(** * The history that is kept and the context that is sent               *)
(* ===================================================================== *)

Module AgentFacts.
Import Py Agent.

Lemma recent_length {A} (n : nat) (l : list A) : (length (recent n l) <= n)%nat.
Proof. unfold recent. rewrite length_skipn. lia. Qed.

Lemma recent_all {A} (n : nat) (l : list A) :
  (length l <= n)%nat -> recent n l = l.
Proof. intros H. unfold recent. replace (length l - n)%nat with 0%nat by lia. reflexivity. Qed.

Lemma recent_app {A} (n : nat) (l l' : list A) :
  recent n (recent n l ++ l') = recent n (l ++ l').
Proof.
  unfold recent. rewrite !length_app, length_skipn.
  destruct (Nat.le_gt_cases (length l) n) as [H|H].
  - replace (length l - n)%nat with 0%nat by lia. rewrite Nat.sub_0_r. reflexivity.
  - rewrite !List.skipn_app, length_skipn, skipn_skipn. f_equal.
    + f_equal. lia.
    + f_equal. lia.
Qed.

Lemma recent_recent {A} (n m : nat) (l : list A) :
  (n <= m)%nat -> recent n (recent m l) = recent n l.
Proof.
  intros H. unfold recent. rewrite length_skipn, skipn_skipn. f_equal. lia.
Qed.

Lemma slice_from_whole {A} (l : list A) : slice_from l (- 0) = l.
Proof.
  unfold slice_from, clamp. simpl.
  rewrite Z.min_r, Z.max_l by lia. reflexivity.
Qed.

Lemma slice_from_recent {A} (l : list A) (k : Z) :
  1 <= k -> slice_from l (- k) = recent (Z.to_nat k) l.
Proof.
  intros Hk. unfold slice_from, clamp, recent.
  destruct (- k <? 0) eqn:E; [|apply Z.ltb_ge in E; lia].
  f_equal. lia.
Qed.

Lemma update_history_recent (max : Z) u ok r t1 t2 (h : list Main.entry) :
  1 <= max ->
  Main.update_history max u ok r t1 t2 h
  = recent (Z.to_nat (2 * max)) (h ++ Main.appended (Main.Answered u ok r t1 t2)).
Proof.
  intros Hmax. unfold Main.update_history. cbn [Main.appended]. cbv zeta.
  set (h' := if ok then _ else _).
  assert (h' = h ++ {| Main.role := pystr "user"; Main.content := u;
                       Main.timestamp := t1 |}
                    :: (if ok then [{| Main.role := pystr "assistant";
                                       Main.content := r;
                                       Main.timestamp := t2 |}] else [])) as <-.
  { subst h'. destruct ok; [rewrite <- app_assoc|]; reflexivity. }
  destruct (max * 2 <? Z.of_nat (length h')) eqn:E.
  - replace (- max * 2) with (- (2 * max)) by lia.
    apply slice_from_recent. lia.
  - apply Z.ltb_ge in E. symmetry. apply recent_all. lia.
Qed.

Lemma run_recent (max : Z) (ts : list Main.turn) :
  1 <= max ->
  Main.run max ts
  = recent (Z.to_nat (2 * max)) (flat_map Main.appended (since_clear ts)).
Proof.
  intros Hmax. unfold Main.run, since_clear.
  set (m := Z.to_nat (2 * max)).
  assert (forall acc h,
            h = recent m (flat_map Main.appended acc) ->
            fold_left (Main.step max) ts h
            = recent m (flat_map Main.appended
                          (fold_left (fun acc t => if is_clear t then [] else acc ++ [t])
                             ts acc))) as H.
  { induction ts as [|t ts IH]; intros acc h Hh; cbn [fold_left]; [exact Hh|].
    apply IH. subst h.
    destruct t as [c| |u ok r t1 t2|u]; cbn [Main.step is_clear].
    - unfold Main.handle_special_command. destruct (bool_decide _); [reflexivity|].
      rewrite flat_map_app. cbn. rewrite app_nil_r. reflexivity.
    - rewrite flat_map_app. cbn. rewrite app_nil_r. reflexivity.
    - rewrite update_history_recent by exact Hmax. fold m.
      rewrite flat_map_app. cbn [flat_map]. rewrite app_nil_r.
      apply recent_app.
    - rewrite flat_map_app. cbn. rewrite app_nil_r. reflexivity. }
  apply H. reflexivity.
Qed.

Lemma context_unfold (system_prompt : str) (max : Z) (msg : str)
    (h : list Main.entry) :
  1 <= max ->
  _build_conversation_context system_prompt max msg h
  = {| role := pystr "system"; content := system_prompt |}
    :: map bare (recent (Z.to_nat max) h)
    ++ [{| role := pystr "user"; content := msg |}].
Proof.
  intros Hmax. unfold _build_conversation_context. cbv zeta.
  rewrite slice_from_recent by exact Hmax.
  destruct h as [|e h]; reflexivity.
Qed.

(** X26.  For a bound of at least 1 the history that [interactive_mode]
    keeps is, after any sequence of turns, exactly the last [2 * max]
    entries appended since the history was last cleared, in their order;
    so it never has more than [2 * max] entries. *)
Theorem history_is_recent_suffix (max : Z) (ts : list Main.turn) :
  1 <= max ->
  Main.run max ts
  = recent (Z.to_nat (2 * max)) (flat_map Main.appended (since_clear ts))
  /\ Z.of_nat (length (Main.run max ts)) <= 2 * max.
Proof.
  intros Hmax. rewrite (run_recent max ts Hmax). split; [reflexivity|].
  pose proof (recent_length (Z.to_nat (2 * max))
                (flat_map Main.appended (since_clear ts))). lia.
Qed.

Lemma history_is_recent_suffix_witness :
  Main.run 1 [Main.exchange 0; Main.Slash_command (pystr " CLEAR");
              Main.exchange 1; Main.exchange 2]
  = recent (Z.to_nat (2 * 1))
      (flat_map Main.appended
         (since_clear [Main.exchange 0; Main.Slash_command (pystr " CLEAR");
                       Main.exchange 1; Main.exchange 2]))
  /\ Z.of_nat (length (Main.run 1 [Main.exchange 0;
                                   Main.Slash_command (pystr " CLEAR");
                                   Main.exchange 1; Main.exchange 2])) <= 2 * 1.
Proof.
  apply (history_is_recent_suffix 1). lia.
Defined.

(** X27.  For a bound of at least 1 the context sent to the model is the
    system prompt, then the last [max] entries of the history without
    their timestamps, then the current message as a user message: at most
    [max + 2] messages. *)
Theorem context_shape (system_prompt : str) (max : Z) (msg : str)
    (h : list Main.entry) :
  1 <= max ->
  _build_conversation_context system_prompt max msg h
  = {| role := pystr "system"; content := system_prompt |}
    :: map bare (recent (Z.to_nat max) h)
    ++ [{| role := pystr "user"; content := msg |}]
  /\ Z.of_nat (length (_build_conversation_context system_prompt max msg h))
     <= max + 2.
Proof.
  intros Hmax. rewrite (context_unfold system_prompt max msg h Hmax).
  split; [reflexivity|].
  cbn [length]. rewrite length_app, length_map. cbn [length].
  pose proof (recent_length (Z.to_nat max) h). lia.
Qed.

Lemma context_shape_witness :
  Z.of_nat (length (_build_conversation_context (pystr "be brief") 1 (pystr "hello")
                      (Main.run 5 [Main.exchange 0; Main.exchange 1])))
  <= 1 + 2.
Proof.
  apply (context_shape (pystr "be brief") 1 (pystr "hello")
           (Main.run 5 [Main.exchange 0; Main.exchange 1])).
  lia.
Defined.

(** X28.  With the bound 0 the slice [history[-0:]] is the whole history:
    every entry that is passed in is sent to the model. *)
Theorem context_with_zero_bound (system_prompt msg : str) (h : list Main.entry) :
  _build_conversation_context system_prompt 0 msg h
  = {| role := pystr "system"; content := system_prompt |}
    :: map bare h ++ [{| role := pystr "user"; content := msg |}].
Proof.
  unfold _build_conversation_context. cbv zeta.
  rewrite slice_from_whole.
  destruct h as [|e h]; reflexivity.
Qed.

(** X29.  In interactive mode with a bound of at least 1 the history
    keeps up to [2 * max] entries, but the model is sent only the last
    [max] of the entries appended since the history was last cleared. *)
Theorem context_of_kept_history (system_prompt : str) (max : Z) (msg : str)
    (ts : list Main.turn) :
  1 <= max ->
  _build_conversation_context system_prompt max msg (Main.run max ts)
  = {| role := pystr "system"; content := system_prompt |}
    :: map bare (recent (Z.to_nat max)
                   (flat_map Main.appended (since_clear ts)))
    ++ [{| role := pystr "user"; content := msg |}].
Proof.
  intros Hmax. rewrite (context_unfold _ _ _ _ Hmax), (run_recent _ _ Hmax).
  rewrite recent_recent by lia. reflexivity.
Qed.

Lemma context_of_kept_history_witness :
  _build_conversation_context (pystr "be brief") 1 (pystr "hello")
    (Main.run 1 [Main.exchange 0; Main.exchange 1])
  = {| role := pystr "system"; content := pystr "be brief" |}
    :: map bare (recent (Z.to_nat 1)
                   (flat_map Main.appended
                      (since_clear [Main.exchange 0; Main.exchange 1])))
    ++ [{| role := pystr "user"; content := pystr "hello" |}].
Proof.
  apply (context_of_kept_history (pystr "be brief") 1 (pystr "hello")). lia.
Defined.

Lemma run_roles (max : Z) (ts : list Main.turn) :
  Forall (fun m => Main.role m = pystr "user" \/ Main.role m = pystr "assistant")
    (Main.run max ts).
Proof.
  unfold Main.run.
  assert (forall h,
            Forall (fun m => Main.role m = pystr "user"
                             \/ Main.role m = pystr "assistant") h ->
            Forall (fun m => Main.role m = pystr "user"
                             \/ Main.role m = pystr "assistant")
              (fold_left (Main.step max) ts h)) as H.
  { induction ts as [|t ts IH]; intros h Hh; cbn [fold_left]; [exact Hh|].
    apply IH. destruct t as [c| |u ok r t1 t2|u]; cbn [Main.step]; try exact Hh.
    - unfold Main.handle_special_command. destruct (bool_decide _);
        [constructor | exact Hh].
    - unfold Main.update_history. cbv zeta.
      set (h' := if ok then _ else _).
      assert (Forall (fun m => Main.role m = pystr "user"
                               \/ Main.role m = pystr "assistant") h') as Hh'.
      { subst h'. destruct ok; repeat (apply Forall_app; split); try exact Hh;
          (constructor; [cbn [Main.role]; auto | constructor]). }
      destruct (_ <? _); [|exact Hh'].
      unfold slice_from. apply Forall_drop. exact Hh'. }
  apply H. constructor.
Qed.

(** X30.  Every entry of the history that [interactive_mode] keeps is a
    user or an assistant message, so the two counts that
    [show_usage_statistics] displays add up to the number of entries, and
    likewise the characters. *)
Theorem statistics_add_up (max : Z) (ts : list Main.turn) :
  let h := Main.run max ts in
  (length (user_messages h) + length (assistant_messages h) = length h)%nat
  /\ (chars (user_messages h) + chars (assistant_messages h) = chars h)%nat.
Proof.
  cbv zeta. pose proof (run_roles max ts) as H.
  induction H as [|m h Hm Hh IH]; [split; reflexivity|].
  destruct IH as [IH1 IH2].
  unfold user_messages, assistant_messages in *. cbn [List.filter].
  destruct Hm as [Hm|Hm]; rewrite Hm.
  - replace (bool_decide (pystr "user" = pystr "user")) with true
      by (symmetry; apply bool_decide_eq_true; reflexivity).
    replace (bool_decide (pystr "user" = pystr "assistant")) with false
      by (symmetry; apply bool_decide_eq_false; vm_compute; discriminate).
    cbn [length chars fold_right]. fold (chars h).
    fold (chars (List.filter (fun m => bool_decide (Main.role m = pystr "user")) h)).
    split; lia.
  - replace (bool_decide (pystr "assistant" = pystr "assistant")) with true
      by (symmetry; apply bool_decide_eq_true; reflexivity).
    replace (bool_decide (pystr "assistant" = pystr "user")) with false
      by (symmetry; apply bool_decide_eq_false; vm_compute; discriminate).
    cbn [length chars fold_right]. fold (chars h).
    fold (chars (List.filter (fun m => bool_decide (Main.role m = pystr "assistant")) h)).
    split; lia.
Qed.

End AgentFacts.

